(** * Fitness challenge bot: the challenge tracking and forecasting engine

    A shallow embedding of [FitnessChallengeBot] (the store, [get_user_data],
    [create_challenge], [add_reps], [get_challenge_progress],
    [get_active_challenges]), of the quantity checks of [handle_message], of
    the decision part of [send_daily_reminders] and of the handlers of the
    menu and of the inline keyboards, from
    [SportChallangeDerevo_upgrade_bot.py].

    Conventions of the embedding:
    - a naive [datetime] is the number of microseconds since
      0001-01-01T00:00:00 (the first representable instant); the last one is
      9999-12-31T23:59:59.999999.  Dates are stored in the challenge as ISO
      strings and parsed back with [fromisoformat]; that round trip is the
      identity and the stored value is the instant itself;
    - a [timedelta] is a number of microseconds; [.days] is the floor of
      the division by one day;
    - Python's [int] is [Z]; the results of true division ([/]) are exact
      rationals [Q]: neither the rounding of a [float] (binary64) nor the
      [OverflowError] of a quotient of integers beyond the range of a
      [float] is modelled.  A statement that would depend on one of them
      says so: it assumes the quotient in range ([float_quotient]), or
      gives a value up to the rounding;
    - a [dict] is a [gmap]: iteration order is the map's, not insertion
      order.  A statement about a list built by iterating a [dict] gives it
      up to the order;
    - every [datetime.now()] is a read of the clock held by the world: the
      clock is the sequence of the future readings;
    - an exception is a result [Raise e]; the store keeps the writes made
      before the exception;
    - [save_data] writes a file and swallows every exception; it neither
      reads nor changes the store. *)

From Stdlib Require Import ZArith QArith Qabs String Ascii List Lia.
From stdpp Require Import gmap strings list fin_maps.

Open Scope Z_scope.

(** ** Dates and durations *)

Module DateTime.

Definition us_per_second : Z := 1000000.
Definition us_per_day : Z := 86400 * us_per_second.

(** [date.max.toordinal()] *)
Definition max_ordinal : Z := 3652059.

(** [datetime.max], in microseconds since [datetime.min]. *)
Definition datetime_max : Z := max_ordinal * us_per_day - 1.

Definition valid_datetime (t : Z) : Prop := 0 <= t <= datetime_max.

Definition valid_datetimeb (t : Z) : bool := (0 <=? t) && (t <=? datetime_max).

(** [timedelta.max.days] *)
Definition max_delta_days : Z := 999999999.

Definition valid_timedeltab (us : Z) : bool :=
  (- max_delta_days * us_per_day <=? us) && (us <? (max_delta_days + 1) * us_per_day).

(** [td.days] *)
Definition days (td : Z) : Z := td / us_per_day.

(** Rounding to the nearest integer, ties to the even one: the rounding of
    [timedelta(days=<float>)] to microseconds and of the [.0f] format. *)
Definition round_half_even (q : Q) : Z :=
  let n := Qnum q in
  let d := Z.pos (Qden q) in
  let f := n / d in
  match (2 * (n mod d)) ?= d with
  | Lt => f
  | Gt => f + 1
  | Eq => if Z.even f then f else f + 1
  end.

(** ord -> (year, month, day), the proleptic Gregorian calendar
    (ordinal 1 is 0001-01-01). *)
Definition days_in_month (leap : bool) (m : Z) : Z :=
  if m =? 2 then (if leap then 29 else 28)
  else if (m =? 4) || (m =? 6) || (m =? 9) || (m =? 11) then 30
  else 31.

Definition days_before_month (leap : bool) (m : Z) : Z :=
  let base :=
    match m with
    | 1 => 0 | 2 => 31 | 3 => 59 | 4 => 90 | 5 => 120 | 6 => 151
    | 7 => 181 | 8 => 212 | 9 => 243 | 10 => 273 | 11 => 304 | _ => 334
    end in
  if (2 <? m) && leap then base + 1 else base.

Definition ord2ymd (ordinal : Z) : Z * Z * Z :=
  let n := ordinal - 1 in
  let n400 := n / 146097 in
  let n := n mod 146097 in
  let n100 := n / 36524 in
  let n := n mod 36524 in
  let n4 := n / 1461 in
  let n := n mod 1461 in
  let n1 := n / 365 in
  let n := n mod 365 in
  let year := n400 * 400 + 1 + n100 * 100 + n4 * 4 + n1 in
  if (n1 =? 4) || (n100 =? 4) then (year - 1, 12, 31)
  else
    let leap := (n1 =? 3) && (negb (n4 =? 24) || (n100 =? 3)) in
    let month := Z.shiftr (n + 50) 5 in
    let preceding := days_before_month leap month in
    if n <? preceding
    then (year, month - 1,
          n - (preceding - days_in_month leap (month - 1)) + 1)
    else (year, month, n - preceding + 1).

Definition digit (d : Z) : ascii := ascii_of_nat (48 + Z.to_nat (d mod 10)).

Definition pad2 (n : Z) : string :=
  String (digit (n / 10)) (String (digit n) EmptyString).

Definition pad4 (n : Z) : string :=
  String (digit (n / 1000)) (String (digit (n / 100)) (pad2 n)).

Definition ymd (t : Z) : Z * Z * Z := ord2ymd (t / us_per_day + 1).

Definition second_of_day (t : Z) : Z := (t mod us_per_day) / us_per_second.

(** [t.strftime('%Y-%m-%d')] *)
Definition strftime_date (t : Z) : string :=
  let '(y, m, d) := ymd t in
  pad4 y +:+ "-" +:+ pad2 m +:+ "-" +:+ pad2 d.

(** [t.strftime('%Y%m%d_%H%M%S')] *)
Definition strftime_stamp (t : Z) : string :=
  let '(y, m, d) := ymd t in
  let s := second_of_day t in
  pad4 y +:+ pad2 m +:+ pad2 d +:+ "_"
    +:+ pad2 (s / 3600) +:+ pad2 ((s / 60) mod 60) +:+ pad2 (s mod 60).

(** The instant of midnight on a civil date given by its ordinal, plus a
    time of day: used to write readable inputs. *)
Definition at_ordinal (ordinal h m s : Z) : Z :=
  (ordinal - 1) * us_per_day + ((h * 60 + m) * 60 + s) * us_per_second.

End DateTime.

Import DateTime.

(** ** Results and exceptions *)

Inductive Exn := ZeroDivisionError | OverflowError | KeyError.

Inductive Res (A : Type) :=
| Ok (a : A)
| Raise (e : Exn).
Arguments Ok {A} a.
Arguments Raise {A} e.

(** [timedelta(days=d)] for an [int] *)
Definition timedelta_of_days (d : Z) : Res Z :=
  let us := d * us_per_day in
  if valid_timedeltab us then Ok us else Raise OverflowError.

(** [timedelta(days=x)] for a [float] *)
Definition timedelta_of_days_float (x : Q) : Res Z :=
  let us := round_half_even (x * inject_Z us_per_day) in
  if valid_timedeltab us then Ok us else Raise OverflowError.

(** [t + td] on a [datetime] *)
Definition datetime_add (t td : Z) : Res Z :=
  let r := t + td in
  if valid_datetimeb r then Ok r else Raise OverflowError.

(** [a / b] on two [int]s, for a quotient within the range of a [float] *)
Definition truediv (a b : Z) : Res Q :=
  if b =? 0 then Raise ZeroDivisionError else Ok (inject_Z a / inject_Z b)%Q.

(** The largest finite [float]. *)
Definition float_max : Z := 2 ^ 1024 - 2 ^ 971.

(** The quotient [a / b] is within the range of a [float]: beyond it
    Python's [a / b] raises [OverflowError]. *)
Definition float_quotient (a b : Z) : Prop := Z.abs a <= float_max * Z.abs b.

(** [a / x] for a [float] divisor *)
Definition truediv_float (a x : Q) : Res Q :=
  if Qeq_bool x 0 then Raise ZeroDivisionError else Ok (a / x)%Q.

Definition Qlt_bool (x y : Q) : bool := negb (Qle_bool y x).

(** ** Data model *)

Inductive ExerciseType := PUSHUPS | SQUATS | PULLUPS | SITUPS | BURPEES | PLANKS.

Definition exercise_name (e : ExerciseType) : string :=
  match e with
  | PUSHUPS => "PUSHUPS" | SQUATS => "SQUATS" | PULLUPS => "PULLUPS"
  | SITUPS => "SITUPS" | BURPEES => "BURPEES" | PLANKS => "PLANKS"
  end.

Definition exercise_value (e : ExerciseType) : string :=
  match e with
  | PUSHUPS => "push-ups" | SQUATS => "squats" | PULLUPS => "pull-ups"
  | SITUPS => "sit-ups" | BURPEES => "burpees" | PLANKS => "planks (seconds)"
  end.

Inductive ChallengeStatus := ACTIVE | COMPLETED | PAUSED | FAILED.

Definition status_eqb (a b : ChallengeStatus) : bool :=
  match a, b with
  | ACTIVE, ACTIVE | COMPLETED, COMPLETED | PAUSED, PAUSED | FAILED, FAILED => true
  | _, _ => false
  end.

(** The challenge dictionary.  [completion_date] is a key that is absent
    until [add_reps] writes it. *)
Record Challenge := mkChallenge {
  ch_id : string;
  exercise : string;
  total_reps : Z;
  target_days : Z;
  current_reps : Z;
  start_date : Z;
  target_date : Z;
  status : ChallengeStatus;
  daily_records : gmap string Z;
  daily_target : Q;
  completion_date : option Z
}.

(** The user dictionary.  [reminders_enabled] is read with
    [.get('reminders_enabled', True)], so the key may be absent. *)
Record UserProfile := mkUser {
  challenges : gmap string Challenge;
  timezone : string;
  reminder_times : string * string;
  reminders_enabled : option bool
}.

Record World := mkWorld {
  user_data : gmap string UserProfile;
  clock : nat -> Z
}.

(** ** The monad of the bot: store, clock and exceptions *)

Definition M (A : Type) : Type := World -> Res A * World.

Definition ret {A} (a : A) : M A := fun w => (Ok a, w).

Definition bind {A B} (m : M A) (k : A -> M B) : M B :=
  fun w =>
    match m w with
    | (Ok a, w') => k a w'
    | (Raise e, w') => (Raise e, w')
    end.

Definition lift {A} (r : Res A) : M A := fun w => (r, w).

Declare Scope bot_scope.
Delimit Scope bot_scope with bot.
Notation "x <- c ;; k" := (bind c (fun x => k))
  (at level 100, c at next level, right associativity) : bot_scope.
Notation "c ;;; k" := (bind c (fun _ => k))
  (at level 100, right associativity) : bot_scope.
Open Scope bot_scope.

(** [datetime.now()] *)
Definition now : M Z :=
  fun w => (Ok (clock w 0%nat),
            {| user_data := user_data w; clock := fun n => clock w (S n) |}).

Definition get_store : M (gmap string UserProfile) := fun w => (Ok (user_data w), w).

Definition put_store (s : gmap string UserProfile) : M unit :=
  fun w => (Ok tt, {| user_data := s; clock := clock w |}).

Definition save_data : M unit := ret tt.

(** ** The engine: [FitnessChallengeBot] *)

Definition default_profile : UserProfile :=
  {| challenges := ∅;
     timezone := "UTC";
     reminder_times := ("09:00", "20:00");
     reminders_enabled := Some true |}.

(** [get_user_data]: the profile of [user_id], created when absent. *)
Definition get_user_data (user_id : string) : M UserProfile :=
  s <- get_store ;;
  match s !! user_id with
  | Some p => ret p
  | None =>
      put_store (<[user_id := default_profile]> s) ;;;
      save_data ;;;
      ret default_profile
  end.

(** [user_data['challenges'][challenge_id] = challenge] on the profile that
    [get_user_data] returned: the profile is the object held by the store. *)
Definition store_challenge (user_id challenge_id : string) (c : Challenge) : M unit :=
  s <- get_store ;;
  match s !! user_id with
  | Some p =>
      put_store (<[user_id :=
                    {| challenges := <[challenge_id := c]> (challenges p);
                       timezone := timezone p;
                       reminder_times := reminder_times p;
                       reminders_enabled := reminders_enabled p |}]> s)
  | None => ret tt
  end.

Definition create_challenge (user_id : string) (exercise : ExerciseType)
    (total_reps days : Z) : M string :=
  user_data <- get_user_data user_id ;;
  t_id <- now ;;
  let challenge_id := exercise_name exercise +:+ "_" +:+ strftime_stamp t_id in
  t_start <- now ;;
  t_target <- now ;;
  delta <- lift (timedelta_of_days days) ;;
  target <- lift (datetime_add t_target delta) ;;
  daily <- lift (truediv total_reps days) ;;
  let challenge :=
    {| ch_id := challenge_id;
       exercise := exercise_value exercise;
       total_reps := total_reps;
       target_days := days;
       current_reps := 0;
       start_date := t_start;
       target_date := target;
       status := ACTIVE;
       daily_records := ∅;
       daily_target := daily;
       completion_date := None |} in
  store_challenge user_id challenge_id challenge ;;;
  save_data ;;;
  ret challenge_id.

Definition set_current_reps (v : Z) (c : Challenge) : Challenge :=
  {| ch_id := ch_id c; exercise := exercise c; total_reps := total_reps c;
     target_days := target_days c; current_reps := v;
     start_date := start_date c; target_date := target_date c;
     status := status c; daily_records := daily_records c;
     daily_target := daily_target c; completion_date := completion_date c |}.

Definition set_daily_records (r : gmap string Z) (c : Challenge) : Challenge :=
  {| ch_id := ch_id c; exercise := exercise c; total_reps := total_reps c;
     target_days := target_days c; current_reps := current_reps c;
     start_date := start_date c; target_date := target_date c;
     status := status c; daily_records := r;
     daily_target := daily_target c; completion_date := completion_date c |}.

Definition set_completed (t : Z) (c : Challenge) : Challenge :=
  {| ch_id := ch_id c; exercise := exercise c; total_reps := total_reps c;
     target_days := target_days c; current_reps := current_reps c;
     start_date := start_date c; target_date := target_date c;
     status := COMPLETED; daily_records := daily_records c;
     daily_target := daily_target c; completion_date := Some t |}.

(** [add_reps].  The challenge is mutated in place; no statement between
    the first write and the last can raise, so the writes are applied to a
    local copy that is stored back before [save_data]. *)
Definition add_reps (user_id challenge_id : string) (reps : Z) : M bool :=
  user_data <- get_user_data user_id ;;
  match challenges user_data !! challenge_id with
  | None => ret false
  | Some challenge =>
      let challenge := set_current_reps (current_reps challenge + reps) challenge in
      t <- now ;;
      let today := strftime_date t in
      let challenge :=
        match daily_records challenge !! today with
        | None => set_daily_records (<[today := 0]> (daily_records challenge)) challenge
        | Some _ => challenge
        end in
      let challenge :=
        set_daily_records
          (<[today := default 0 (daily_records challenge !! today) + reps]>
             (daily_records challenge)) challenge in
      challenge <-
        (if total_reps challenge <=? current_reps challenge
         then t_done <- now ;; ret (set_completed t_done challenge)
         else ret challenge) ;;
      store_challenge user_id challenge_id challenge ;;;
      save_data ;;;
      ret true
  end.

(** The dictionary returned by [get_challenge_progress]. *)
Record Progress := mkProgress {
  challenge : Challenge;
  percentage : Q;
  days_elapsed : Z;
  days_remaining : Z;
  actual_daily_avg : Q;
  needed_daily_avg : Q;
  projected_date : option Z;
  on_track : bool
}.

Definition get_challenge_progress (user_id challenge_id : string)
    : M (option Progress) :=
  user_data <- get_user_data user_id ;;
  match challenges user_data !! challenge_id with
  | None => ret None
  | Some challenge =>
      t1 <- now ;;
      let days_elapsed := days (t1 - start_date challenge) + 1 in
      t2 <- now ;;
      let days_remaining := days (target_date challenge - t2) in
      actual_daily_avg <-
        (if 0 <? days_elapsed
         then lift (truediv (current_reps challenge) days_elapsed)
         else ret 0%Q) ;;
      needed_daily_avg <-
        lift (truediv (total_reps challenge - current_reps challenge)
                (Z.max days_remaining 1)) ;;
      projected_date <-
        (if Qlt_bool 0 actual_daily_avg
         then
           let remaining_reps := total_reps challenge - current_reps challenge in
           days_to_completion <-
             lift (truediv_float (inject_Z remaining_reps) actual_daily_avg) ;;
           t3 <- now ;;
           delta <- lift (timedelta_of_days_float days_to_completion) ;;
           projected <- lift (datetime_add t3 delta) ;;
           ret (Some projected)
         else ret None) ;;
      ratio <- lift (truediv (current_reps challenge) (total_reps challenge)) ;;
      ret (Some {| challenge := challenge;
                   percentage := (ratio * 100)%Q;
                   days_elapsed := days_elapsed;
                   days_remaining := days_remaining;
                   actual_daily_avg := actual_daily_avg;
                   needed_daily_avg := needed_daily_avg;
                   projected_date := projected_date;
                   on_track := Qle_bool (daily_target challenge) actual_daily_avg |})
  end.

(** The loop of [get_active_challenges] over [challenges.items()]. *)
Fixpoint active_loop (user_id : string) (items : list (string * Challenge))
    (active_challenges : list Progress) : M (list Progress) :=
  match items with
  | [] => ret active_challenges
  | (challenge_id, challenge) :: rest =>
      if status_eqb (status challenge) ACTIVE
      then
        progress <- get_challenge_progress user_id challenge_id ;;
        match progress with
        | Some p => active_loop user_id rest (active_challenges ++ [p])
        | None => active_loop user_id rest active_challenges
        end
      else active_loop user_id rest active_challenges
  end.

(** [challenges.items()] is the list of the map: the items come in the
    order of the map, where the code has them in the order of insertion. *)
Definition get_active_challenges (user_id : string) : M (list Progress) :=
  user_data <- get_user_data user_id ;;
  active_loop user_id (map_to_list (challenges user_data)) [].

(** ** The reminder decisions of [send_daily_reminders] *)

(** One line of the reminder text: the exercise, the state of today's
    logging and the number shown ([.0f] formatting). *)
Inductive ReminderLine :=
| NotStarted (exercise : string) (needed : Z)
| Partial (exercise : string) (remaining : Z)
| GoalMet (exercise : string).

(** The body of the loop over [active_challenges], for
    [challenge = progress['challenge']] and the date [today]. *)
Definition reminder_line (today : string) (challenge : Challenge) : ReminderLine :=
  let exercise := exercise challenge in
  let daily_target := daily_target challenge in
  let today_reps := default 0 (daily_records challenge !! today) in
  if today_reps =? 0
  then NotStarted exercise (round_half_even daily_target)
  else if Qlt_bool (inject_Z today_reps) daily_target
  then Partial exercise (round_half_even (daily_target - inject_Z today_reps))
  else GoalMet exercise.

(** The loop over [active_challenges]: [today] is read again for every
    challenge. *)
Fixpoint reminder_loop (active_challenges : list Progress)
    (reminder_text : list ReminderLine) : M (list ReminderLine) :=
  match active_challenges with
  | [] => ret reminder_text
  | progress :: rest =>
      t <- now ;;
      reminder_loop rest
        (reminder_text ++ [reminder_line (strftime_date t) (challenge progress)])
  end.

Section Reminders.

(** [int(user_id)]; [None] stands for the [ValueError], which the
    [try] of the loop body catches and logs. *)
Variable int_of_str : string -> option Z.

(** The body of the loop over the users: the message to send, if any.
    [get_active_challenges] is called before the [try] block, so what it
    raises leaves the function. *)
Definition remind_user (user_id : string) (profile : UserProfile)
    : M (option (Z * list ReminderLine)) :=
  if negb (default true (reminders_enabled profile)) then ret None
  else
    active_challenges <- get_active_challenges user_id ;;
    match active_challenges with
    | [] => ret None
    | _ :: _ =>
        match int_of_str user_id with
        | None => ret None
        | Some user_id_int =>
            reminder_text <- reminder_loop active_challenges [] ;;
            ret (Some (user_id_int, reminder_text))
        end
    end.

Fixpoint remind_users (users : list (string * UserProfile))
    (sent : list (Z * list ReminderLine)) : M (list (Z * list ReminderLine)) :=
  match users with
  | [] => ret sent
  | (user_id, profile) :: rest =>
      message <- remind_user user_id profile ;;
      match message with
      | Some m => remind_users rest (sent ++ [m])
      | None => remind_users rest sent
      end
  end.

(** The messages handed to [context.bot.send_message]; the users come in
    the order of the map, where the code has them in the order of
    insertion. *)
Definition send_daily_reminders : M (list (Z * list ReminderLine)) :=
  s <- get_store ;;
  remind_users (map_to_list s) [].

End Reminders.

(** ** The quantity checks of [handle_message] *)

Inductive Step := StepTotalReps | StepDays.

(** [context.user_data] *)
Record Session := mkSession {
  challenge_step : option Step;
  selected_exercise : option ExerciseType;
  session_total_reps : option Z;
  adding_reps : bool;
  selected_challenge : option string
}.

Definition cleared : Session :=
  {| challenge_step := None; selected_exercise := None;
     session_total_reps := None; adding_reps := false;
     selected_challenge := None |}.

Inductive Reply :=
| EnterPositive
| TooLarge
| InvalidNumber
| AskDays (total_reps : Z)
| ChallengeCreated (challenge_id : string)
| RepsAdded (progress : Progress)
| NoReply
| AddError
| UseMenu.

Definition key {A} (o : option A) : M A :=
  match o with
  | Some a => ret a
  | None => lift (Raise KeyError)
  end.

(** The branches of [handle_message] that read a number; the text is not one
    of the menu labels.  [number] is [int(message_text)], [None] when it
    raises [ValueError].  The result carries the reply and the session after
    the call; the two clock reads after [create_challenge] are those of the
    confirmation text. *)
Definition handle_message (user_id : string) (number : option Z) (ctx : Session)
    : M (Reply * Session) :=
  match challenge_step ctx with
  | Some StepTotalReps =>
      match number with
      | None => ret (InvalidNumber, ctx)
      | Some total_reps =>
          if total_reps <=? 0 then ret (EnterPositive, ctx)
          else if 100000 <? total_reps then ret (TooLarge, ctx)
          else
            let ctx' :=
              {| challenge_step := Some StepDays;
                 selected_exercise := selected_exercise ctx;
                 session_total_reps := Some total_reps;
                 adding_reps := adding_reps ctx;
                 selected_challenge := selected_challenge ctx |} in
            _ <- key (selected_exercise ctx') ;;
            ret (AskDays total_reps, ctx')
      end
  | Some StepDays =>
      match number with
      | None => ret (InvalidNumber, ctx)
      | Some days =>
          if days <=? 0 then ret (EnterPositive, ctx)
          else if 365 <? days then ret (TooLarge, ctx)
          else
            exercise <- key (selected_exercise ctx) ;;
            total_reps <- key (session_total_reps ctx) ;;
            challenge_id <- create_challenge user_id exercise total_reps days ;;
            _ <- now ;;
            t <- now ;;
            delta <- lift (timedelta_of_days days) ;;
            _ <- lift (datetime_add t delta) ;;
            ret (ChallengeCreated challenge_id, cleared)
      end
  | None =>
      if adding_reps ctx then
        match number with
        | None => ret (InvalidNumber, ctx)
        | Some reps =>
            if reps <=? 0 then ret (EnterPositive, ctx)
            else if 10000 <? reps then ret (TooLarge, ctx)
            else
              challenge_id <- key (selected_challenge ctx) ;;
              success <- add_reps user_id challenge_id reps ;;
              if success then
                progress <- get_challenge_progress user_id challenge_id ;;
                match progress with
                | Some p => ret (RepsAdded p, cleared)
                | None => ret (NoReply, cleared)
                end
              else ret (AddError, cleared)
        end
      else ret (UseMenu, ctx)
  end.

(** * Vocabulary of the properties *)

(** ** Sequences of engine calls *)

Inductive Op :=
| CreateChallenge (user_id : string) (exercise : ExerciseType) (total_reps days : Z)
| AddReps (user_id challenge_id : string) (reps : Z).

(** The world after a call; when the call raises, the caller goes on with
    the world the exception left. *)
Definition run_op (o : Op) (w : World) : World :=
  match o with
  | CreateChallenge u e total d => snd (create_challenge u e total d w)
  | AddReps u c reps => snd (add_reps u c reps w)
  end.

Definition run_ops (ops : list Op) (w : World) : World :=
  fold_left (fun w o => run_op o w) ops w.

(** The preconditions of the two operations. *)
Definition valid_op (o : Op) : Prop :=
  match o with
  | CreateChallenge _ _ total d => 0 < total /\ 0 < d
  | AddReps _ _ reps => 0 < reps
  end.

(** [add_reps] called once per element, as long as it succeeds. *)
Fixpoint add_all (user_id challenge_id : string) (amounts : list Z) : M bool :=
  match amounts with
  | [] => ret true
  | reps :: rest =>
      success <- add_reps user_id challenge_id reps ;;
      if success then add_all user_id challenge_id rest else ret false
  end.

(** ** Clocks and worlds of the examples *)

(** A clock that stands still, and one that advances by [step] at each read. *)
Definition frozen (t : Z) : nat -> Z := fun _ => t.
Definition ticking (t step : Z) : nat -> Z := fun n => t + Z.of_nat n * step.

Definition empty_world (c : nat -> Z) : World := {| user_data := ∅; clock := c |}.

(** The same world at a later time: the clock now gives [clk]. *)
Definition at_clock (clk : nat -> Z) (w : World) : World :=
  {| user_data := user_data w; clock := clk |}.

(** 2026-11-03 10:00:00 *)
Definition t_create : Z := at_ordinal 739923 10 0 0.

Definition day : Z := us_per_day.

(** ** Views of the store *)

Definition lookup_challenge (s : gmap string UserProfile)
    (user_id challenge_id : string) : option Challenge :=
  match s !! user_id with
  | Some p => challenges p !! challenge_id
  | None => None
  end.

Definition store_forall (P : Challenge -> Prop) (s : gmap string UserProfile) : Prop :=
  forall user_id challenge_id c, lookup_challenge s user_id challenge_id = Some c -> P c.

(** [sum(daily_records.values())] *)
Definition sum_records (r : gmap string Z) : Z :=
  map_fold (fun _ v acc => v + acc) 0 r.

Definition with_challenges (cs : gmap string Challenge) (p : UserProfile) : UserProfile :=
  {| challenges := cs; timezone := timezone p;
     reminder_times := reminder_times p;
     reminders_enabled := reminders_enabled p |}.

(** The world after [k] reads of the clock. *)
Definition after_reads (k : nat) (s : gmap string UserProfile) (w : World) : World :=
  {| user_data := s; clock := fun n => clock w (k + n)%nat |}.

(** The challenge after [reps] were logged on the day [today]. *)
Definition logged (today : string) (reps : Z) (c : Challenge) : Challenge :=
  set_daily_records
    (<[today := default 0 (daily_records c !! today) + reps]> (daily_records c))
    (set_current_reps (current_reps c + reps) c).

(** The invariants of the data model. *)
Definition lifecycle_ok (c : Challenge) : Prop :=
  (status c = ACTIVE /\ current_reps c < total_reps c)
  \/ (status c = COMPLETED /\ total_reps c <= current_reps c).

Definition records_ok (c : Challenge) : Prop :=
  current_reps c = sum_records (daily_records c).

(** ** What [get_user_data] and [create_challenge] leave in the store *)

(** The profile that [get_user_data] returns. *)
Definition profile_of (s : gmap string UserProfile) (user_id : string) : UserProfile :=
  default default_profile (s !! user_id).

(** The store after [get_user_data]. *)
Definition touched (s : gmap string UserProfile) (user_id : string)
    : gmap string UserProfile :=
  match s !! user_id with
  | Some _ => s
  | None => <[user_id := default_profile]> s
  end.

(** The challenge that [create_challenge] builds. *)
Definition fresh_challenge (exercise : ExerciseType) (total_reps days : Z)
    (t_id t_start t_target : Z) : Challenge :=
  {| ch_id := exercise_name exercise +:+ "_" +:+ strftime_stamp t_id;
     exercise := exercise_value exercise;
     total_reps := total_reps;
     target_days := days;
     current_reps := 0;
     start_date := t_start;
     target_date := t_target + days * us_per_day;
     status := ACTIVE;
     daily_records := ∅;
     daily_target := (inject_Z total_reps / inject_Z days)%Q;
     completion_date := None |}.

(** [create_challenge] returns exactly when the target date is
    representable and [days] is not zero. *)
Definition creatable (days t_target : Z) : bool :=
  valid_timedeltab (days * us_per_day)
  && valid_datetimeb (t_target + days * us_per_day)
  && negb (days =? 0).

(** ** The value of [get_challenge_progress] as a function of the readings *)

Definition elapsed (c : Challenge) (t1 : Z) : Z := days (t1 - start_date c) + 1.

Definition average (c : Challenge) (t1 : Z) : Q :=
  if 0 <? elapsed c t1
  then (inject_Z (current_reps c) / inject_Z (elapsed c t1))%Q
  else 0%Q.

(** The offset of the forecast, in microseconds. *)
Definition forecast_offset (c : Challenge) (t1 : Z) : Z :=
  round_half_even
    (inject_Z (total_reps c - current_reps c) / average c t1 * inject_Z us_per_day)%Q.

Definition forecast (c : Challenge) (t1 t3 : Z) : Res (option Z) :=
  if Qlt_bool 0 (average c t1)
  then
    if valid_timedeltab (forecast_offset c t1)
       && valid_datetimeb (t3 + forecast_offset c t1)
    then Ok (Some (t3 + forecast_offset c t1))
    else Raise OverflowError
  else Ok None.

Definition snapshot (c : Challenge) (t1 t2 t3 : Z) : Res (option Progress) :=
  match forecast c t1 t3 with
  | Raise e => Raise e
  | Ok projected =>
      if total_reps c =? 0 then Raise ZeroDivisionError
      else
        Ok (Some
              {| challenge := c;
                 percentage := (inject_Z (current_reps c) / inject_Z (total_reps c) * 100)%Q;
                 days_elapsed := elapsed c t1;
                 days_remaining := days (target_date c - t2);
                 actual_daily_avg := average c t1;
                 needed_daily_avg :=
                   (inject_Z (total_reps c - current_reps c)
                    / inject_Z (Z.max (days (target_date c - t2)) 1))%Q;
                 projected_date := projected;
                 on_track := Qle_bool (daily_target c) (average c t1) |})
  end.

(** The number of clock reads of [get_challenge_progress]. *)
Definition progress_reads (c : Challenge) (t1 : Z) : nat :=
  if Qlt_bool 0 (average c t1) then 3%nat else 2%nat.

(** ** The challenge after [add_reps] *)

(** The challenge after [add_reps], from the two readings of the clock. *)
Definition added (reps : Z) (t_today t_done : Z) (c : Challenge) : Challenge :=
  let c1 := logged (strftime_date t_today) reps c in
  if total_reps c <=? current_reps c + reps then set_completed t_done c1 else c1.

(** The sum of the amounts of a sequence of calls. *)
Definition total_of (amounts : list Z) : Z := foldr Z.add 0 amounts.

(** The lines of the reminder, one per progress, each for the date read
    for it. *)
Fixpoint lines_at (clk : nat -> Z) (active : list Progress) : list ReminderLine :=
  match active with
  | [] => []
  | progress :: rest =>
      reminder_line (strftime_date (clk 0%nat)) (challenge progress)
      :: lines_at (fun n => clk (S n)) rest
  end.

(** * The handlers

    The handlers of the menu, of the inline keyboards and of the text
    messages.  The wording of the messages is not modelled: a reply is the
    data that it shows, a keyboard the list of its buttons.  A handler runs
    to its end before the next update is handled; [context.user_data] is one
    dictionary per user; an exception that leaves a handler is logged by the
    dispatcher, which goes on with the next update. *)

(** ** Strings *)

(** [s.split(sep)] for a separator of one character *)
Fixpoint split_on (sep : ascii) (s : string) : list string :=
  match s with
  | EmptyString => [EmptyString]
  | String c rest =>
      if Ascii.eqb c sep then EmptyString :: split_on sep rest
      else
        match split_on sep rest with
        | piece :: pieces => String c piece :: pieces
        | [] => [String c EmptyString]
        end
  end.

(** [s.replace(old, "")] for a non-empty [old]: the occurrences of [old] are
    removed from left to right; [skip] counts the characters of the
    occurrence being removed that are still to pass. *)
Fixpoint remove_from (old : string) (skip : nat) (s : string) : string :=
  match s with
  | EmptyString => EmptyString
  | String c rest =>
      match skip with
      | S n => remove_from old n rest
      | O =>
          if String.prefix old s
          then remove_from old (String.length old - 1) rest
          else String c (remove_from old 0 rest)
      end
  end.

Definition remove_all (old s : string) : string := remove_from old 0 s.

(** ** [ExerciseType] and [EXERCISE_INFO] *)

Definition exercises : list ExerciseType :=
  [PUSHUPS; SQUATS; PULLUPS; SITUPS; BURPEES; PLANKS].

(** [ExerciseType[name]]; [None] stands for the [KeyError]. *)
Definition exercise_of_name (name : string) : option ExerciseType :=
  List.find (fun e => String.eqb (exercise_name e) name) exercises.

Record ExerciseInfo := mkInfo { video : string; tips : string }.

Definition EXERCISE_INFO (e : ExerciseType) : ExerciseInfo :=
  match e with
  | PUSHUPS =>
      {| video := "https://www.youtube.com/watch?v=IODxDxX7oi4";
         tips := "Keep your body straight, hands shoulder-width apart, lower chest to floor" |}
  | SQUATS =>
      {| video := "https://www.youtube.com/watch?v=aclHkVaku9U";
         tips := "Feet shoulder-width apart, lower until thighs parallel to floor, keep chest up" |}
  | PULLUPS =>
      {| video := "https://www.youtube.com/watch?v=eGo4IYlbE5g";
         tips := "Full grip on bar, pull until chin over bar, control the descent" |}
  | SITUPS =>
      {| video := "https://www.youtube.com/watch?v=1fbU_MkV7NE";
         tips := "Lie flat, knees bent, hands behind head, lift shoulders off ground" |}
  | BURPEES =>
      {| video := "https://www.youtube.com/watch?v=TU8QYVW0gDU";
         tips := "Squat, jump back to plank, push-up, jump forward, jump up" |}
  | PLANKS =>
      {| video := "https://www.youtube.com/watch?v=ASdvN_XEl_c";
         tips := "Forearms on ground, body straight, hold position, breathe normally" |}
  end.

(** ** The keyboards *)

(** A button of an inline keyboard: what it stands for and its
    [callback_data]. *)
Record Button (A : Type) := mkButton { subject : A; callback_data : string }.
Arguments mkButton {A} subject callback_data.
Arguments subject {A} b.
Arguments callback_data {A} b.

(** [handle_new_challenge]: one button per exercise. *)
Definition handle_new_challenge : list (Button ExerciseType) :=
  map (fun exercise => mkButton exercise ("exercise_" +:+ exercise_name exercise))
    exercises.

(** [handle_exercise_guide]: one button per exercise. *)
Definition handle_exercise_guide : list (Button ExerciseType) :=
  map (fun exercise => mkButton exercise ("guide_" +:+ exercise_name exercise))
    exercises.

(** [handle_my_challenges]: [None] is the answer that there is no active
    challenge; otherwise the progresses listed. *)
Definition handle_my_challenges (user_id : string) : M (option (list Progress)) :=
  active_challenges <- get_active_challenges user_id ;;
  match active_challenges with
  | [] => ret None
  | _ :: _ => ret (Some active_challenges)
  end.

(** [handle_add_reps]: [None] is the answer that there is no active
    challenge; otherwise one button per active challenge. *)
Definition handle_add_reps (user_id : string) : M (option (list (Button Challenge))) :=
  active_challenges <- get_active_challenges user_id ;;
  match active_challenges with
  | [] => ret None
  | _ :: _ =>
      ret (Some (map (fun progress =>
                        let challenge := challenge progress in
                        mkButton challenge ("add_reps_" +:+ ch_id challenge))
                   active_challenges))
  end.

(** ** [handle_progress] *)

(** [int(x)] on a float: truncation towards zero. *)
Definition int_of_float (x : Q) : Z := Z.quot (Qnum x) (Z.pos (Qden x)).

(** The forecast part of the message. *)
Inductive ForecastText :=
| NoForecastText
| FinishOnTime
| FinishLate (days_late : Z)
| FinishWarning.

(** The message for one challenge: the bar ([true] is a filled block), the
    "needed to finish on time" line and the forecast; a string multiplied by
    a negative number is empty. *)
Record ProgressMessage := mkMessage {
  shown : Progress;
  progress_bar : list bool;
  needed_shown : bool;
  forecast_text : ForecastText
}.

Definition progress_message (progress : Progress) : ProgressMessage :=
  let challenge := challenge progress in
  let percentage := percentage progress in
  let filled_blocks := int_of_float (percentage / 5)%Q in
  let empty_blocks := 20 - filled_blocks in
  {| shown := progress;
     progress_bar :=
       repeat true (Z.to_nat filled_blocks) ++ repeat false (Z.to_nat empty_blocks);
     needed_shown := 0 <? days_remaining progress;
     forecast_text :=
       match projected_date progress with
       | Some projected =>
           if on_track progress then
             if projected / us_per_day <=? target_date challenge / us_per_day
             then FinishOnTime
             else FinishLate (days (projected - target_date challenge))
           else FinishWarning
       | None => NoForecastText
       end |}.

Definition handle_progress (user_id : string) : M (option (list ProgressMessage)) :=
  active_challenges <- get_active_challenges user_id ;;
  match active_challenges with
  | [] => ret None
  | _ :: _ => ret (Some (map progress_message active_challenges))
  end.

(** ** [handle_callback_query] *)

Inductive CallbackReply :=
| AskTotalReps (exercise : ExerciseType)
| AskReps (exercise : string)
| Guide (exercise : ExerciseType) (info : ExerciseInfo)
| NoEdit.

(** [data.split("_")[1]]; the prefix tested before has an underscore, so the
    list has a second element. *)
Definition second_piece (data : string) : string :=
  default EmptyString (split_on "_" data !! 1%nat).

(** The writes of [handle_callback_query] in [context.user_data]; they come
    before the reply is computed. *)
Definition callback_session (data : string) (ctx : Session) : Res Session :=
  if String.prefix "exercise_" data then
    match exercise_of_name (second_piece data) with
    | None => Raise KeyError
    | Some exercise =>
        Ok {| challenge_step := Some StepTotalReps;
              selected_exercise := Some exercise;
              session_total_reps := session_total_reps ctx;
              adding_reps := adding_reps ctx;
              selected_challenge := selected_challenge ctx |}
    end
  else if String.prefix "add_reps_" data then
    Ok {| challenge_step := challenge_step ctx;
          selected_exercise := selected_exercise ctx;
          session_total_reps := session_total_reps ctx;
          adding_reps := true;
          selected_challenge := Some (remove_all "add_reps_" data) |}
  else if String.prefix "guide_" data then
    match exercise_of_name (second_piece data) with
    | None => Raise KeyError
    | Some _ => Ok ctx
    end
  else Ok ctx.

Definition callback_reply (user_id data : string) : M CallbackReply :=
  if String.prefix "exercise_" data then
    exercise <- key (exercise_of_name (second_piece data)) ;;
    ret (AskTotalReps exercise)
  else if String.prefix "add_reps_" data then
    let challenge_id := remove_all "add_reps_" data in
    progress <- get_challenge_progress user_id challenge_id ;;
    match progress with
    | Some p => ret (AskReps (exercise (challenge p)))
    | None => ret NoEdit
    end
  else if String.prefix "guide_" data then
    exercise <- key (exercise_of_name (second_piece data)) ;;
    ret (Guide exercise (EXERCISE_INFO exercise))
  else ret NoEdit.

Definition handle_callback_query (user_id data : string) (ctx : Session)
    : M (CallbackReply * Session) :=
  ctx' <- lift (callback_session data ctx) ;;
  reply <- callback_reply user_id data ;;
  ret (reply, ctx').

(** ** The updates of the bot *)

Inductive Menu :=
| MenuNewChallenge | MenuMyChallenges | MenuAddReps
| MenuProgress | MenuSettings | MenuExerciseGuide.

(** The menu branches of [handle_message]: what they do to the world. *)
Definition handle_menu (user_id : string) (m : Menu) : M unit :=
  match m with
  | MenuMyChallenges => handle_my_challenges user_id ;;; ret tt
  | MenuAddReps => handle_add_reps user_id ;;; ret tt
  | MenuProgress => handle_progress user_id ;;; ret tt
  | MenuNewChallenge | MenuSettings | MenuExerciseGuide => ret tt
  end.

Inductive Update :=
| MenuMessage (user_id : string) (m : Menu)
| TextMessage (user_id : string) (number : option Z)
| CallbackQuery (user_id : string) (data : string)
| RemindersJob.

(** The world and the [context.user_data] of every user; a user who has
    none yet has the empty one. *)
Record Bot := mkBot {
  world : World;
  sessions : gmap string Session
}.

Definition session_of (b : Bot) (user_id : string) : Session :=
  default cleared (sessions b !! user_id).

(** The session that [handle_message] leaves when it raises: in the first
    step the total and the next step are written before the exercise is
    looked up; in the other steps nothing is written before the last call
    that can raise. *)
Definition session_on_raise (number : option Z) (ctx : Session) : Session :=
  match challenge_step ctx, number with
  | Some StepTotalReps, Some total_reps =>
      {| challenge_step := Some StepDays;
         selected_exercise := selected_exercise ctx;
         session_total_reps := Some total_reps;
         adding_reps := adding_reps ctx;
         selected_challenge := selected_challenge ctx |}
  | _, _ => ctx
  end.

(** What leaves a handler: the exception, if any. *)
Definition raised {A} (r : Res A) : option Exn :=
  match r with
  | Ok _ => None
  | Raise e => Some e
  end.

Section Updates.

Variable int_of_str : string -> option Z.

(** The exception that leaves the handler of an update, and the bot after
    it: an exception ends the handler, and the bot goes on with what the
    handler has written. *)
Definition handle_update (u : Update) (b : Bot) : option Exn * Bot :=
  match u with
  | MenuMessage user_id m =>
      let r := handle_menu user_id m (world b) in
      (raised (fst r), {| world := snd r; sessions := sessions b |})
  | TextMessage user_id number =>
      let ctx := session_of b user_id in
      let r := handle_message user_id number ctx (world b) in
      (raised (fst r),
       {| world := snd r;
          sessions :=
            <[user_id := match fst r with
                         | Ok (_, ctx') => ctx'
                         | Raise _ => session_on_raise number ctx
                         end]> (sessions b) |})
  | CallbackQuery user_id data =>
      let ctx := session_of b user_id in
      let r := handle_callback_query user_id data ctx (world b) in
      (raised (fst r),
       {| world := snd r;
          sessions :=
            match callback_session data ctx with
            | Ok ctx' => <[user_id := ctx']> (sessions b)
            | Raise _ => sessions b
            end |})
  | RemindersJob =>
      let r := send_daily_reminders int_of_str (world b) in
      (raised (fst r), {| world := snd r; sessions := sessions b |})
  end.

Definition handle_updates (us : list Update) (b : Bot) : Bot :=
  fold_left (fun b u => snd (handle_update u b)) us b.

End Updates.

(** The bot at its start, with no data file. *)
Definition new_bot (clk : nat -> Z) : Bot :=
  {| world := empty_world clk; sessions := ∅ |}.

(** * Vocabulary of the further properties *)

(** An item of [challenges.items()] whose status is Active. *)
Definition is_active (kc : string * Challenge) : bool :=
  status_eqb (status kc.2) ACTIVE.


(** The snapshot of [c] raises at every three consecutive readings. *)
Definition always_raises (c : Challenge) (clk : nat -> Z) : Prop :=
  forall n, exists e, snapshot c (clk n) (clk (S n)) (clk (S (S n))) = Raise e.

(** No character of [s] is [c]. *)
Fixpoint avoids (c : ascii) (s : string) : bool :=
  match s with
  | EmptyString => true
  | String x rest => negb (Ascii.eqb x c) && avoids c rest
  end.

(** The ids that [create_challenge] builds. *)
Definition created_id (k : string) : Prop :=
  exists e t, k = exercise_name e +:+ "_" +:+ strftime_stamp t.

(** A property of every challenge of the store together with its key. *)
Definition store_keys_forall (P : string -> Challenge -> Prop)
    (s : gmap string UserProfile) : Prop :=
  forall user_id challenge_id c,
    lookup_challenge s user_id challenge_id = Some c -> P challenge_id c.

(** What the handlers keep of [context.user_data]: a step of the creation
    has its exercise, the days step has its total, a total is one that the
    first step accepted, and the adding step has its challenge. *)
Definition session_ok (ctx : Session) : Prop :=
  (is_Some (challenge_step ctx) -> is_Some (selected_exercise ctx))
  /\ (challenge_step ctx = Some StepDays -> is_Some (session_total_reps ctx))
  /\ (forall n, session_total_reps ctx = Some n -> 0 < n <= 100000)
  /\ (adding_reps ctx = true -> is_Some (selected_challenge ctx)).

(** [m] keeps the property [P] of the store; a value that it returns
    satisfies [Q] and an exception that it raises satisfies [E]. *)
Definition keeps {A} (P : string -> Challenge -> Prop) (E : Exn -> Prop)
    (Q : A -> Prop) (m : M A) : Prop :=
  forall w,
    store_keys_forall P (user_data w) ->
    store_keys_forall P (user_data (snd (m w)))
    /\ match fst (m w) with
       | Ok a => Q a
       | Raise e => E e
       end.

Definition overflow (e : Exn) : Prop := e = OverflowError.

(** What [handle_callback_query] may raise on [data]. *)
Definition overflow_or_key (data : string) (e : Exn) : Prop :=
  e = OverflowError
  \/ (e = KeyError /\ exercise_of_name (second_piece data) = None).

(** The bots that the handlers leave. *)
Definition bot_ok (P : string -> Challenge -> Prop) (b : Bot) : Prop :=
  store_keys_forall P (user_data (world b))
  /\ map_Forall (fun _ ctx => session_ok ctx) (sessions b).

(** What holds of a challenge made and fed through the handlers, stored
    under [k]. *)
Definition ui_challenge (k : string) (c : Challenge) : Prop :=
  ch_id c = k /\ created_id k
  /\ 0 < total_reps c <= 100000
  /\ 0 < target_days c <= 365
  /\ daily_target c = (inject_Z (total_reps c) / inject_Z (target_days c))%Q
  /\ 0 <= current_reps c
  /\ lifecycle_ok c
  /\ records_ok c
  /\ map_Forall (fun _ reps => 0 < reps) (daily_records c)
  /\ (completion_date c = None <-> status c = ACTIVE).

(** A clock whose [n]-th reading is [t] plus [n] milliseconds before the
    [k]-th reading, and [t'] plus [n] milliseconds from then on. *)
Definition jumping (t : Z) (k : nat) (t' : Z) : nat -> Z :=
  fun n => (if (n <? k)%nat then t else t') + Z.of_nat n * 1000.

(** A creation and a first logging through the dialogues. *)
Definition first_day : list Update :=
  [CallbackQuery "42" "exercise_PUSHUPS";
   TextMessage "42" (Some 100000);
   TextMessage "42" (Some 365);
   CallbackQuery "42" "add_reps_PUSHUPS_20261103_100000";
   TextMessage "42" (Some 1)].

(** Every progress of the list was computed from its challenge. *)
Definition is_snapshot (p : Progress) : Prop :=
  exists t1 t2 t3, snapshot (challenge p) t1 t2 t3 = Ok (Some p).

(** The Active challenges of a profile. *)
Definition active_of (p : UserProfile) : list Challenge :=
  map snd (List.filter is_active (map_to_list (challenges p))).

(** The users to whom [send_daily_reminders] sends a message: reminders not
    switched off, an Active challenge, and an id that is a number. *)
Definition reminded (int_of_str : string -> option Z)
    (up : string * UserProfile) : bool :=
  default true (reminders_enabled up.2)
  && match active_of up.2 with [] => false | _ :: _ => true end
  && match int_of_str up.1 with Some _ => true | None => false end.

(** A message and the user it is for. *)
Definition message_for (int_of_str : string -> option Z)
    (message : Z * list ReminderLine) (up : string * UserProfile) : Prop :=
  int_of_str up.1 = Some message.1
  /\ length message.2 = length (active_of up.2).


(** * Properties *)

Ltac run := unfold bind, ret, lift, get_store, put_store, save_data, now; simpl.

Lemma world_eta w : {| user_data := user_data w; clock := clock w |} = w.
Proof. by destruct w. Qed.

Lemma after_reads_0 w : after_reads 0 (user_data w) w = w.
Proof. by destruct w. Qed.

Lemma get_user_data_known w user_id p :
  user_data w !! user_id = Some p ->
  get_user_data user_id w = (Ok p, w).
Proof. intros H. unfold get_user_data. run. by rewrite H. Qed.

Lemma get_user_data_unknown w user_id :
  user_data w !! user_id = None ->
  get_user_data user_id w
  = (Ok default_profile,
     after_reads 0 (<[user_id := default_profile]> (user_data w)) w).
Proof. intros H. unfold get_user_data. run. by rewrite H. Qed.

Lemma store_challenge_known w user_id challenge_id c p :
  user_data w !! user_id = Some p ->
  store_challenge user_id challenge_id c w
  = (Ok tt,
     after_reads 0
       (<[user_id := with_challenges (<[challenge_id := c]> (challenges p)) p]>
          (user_data w)) w).
Proof. intros H. unfold store_challenge. run. by rewrite H. Qed.

(** What [add_reps] does to the records of a challenge, in one step. *)
Lemma add_reps_records today reps c :
  (let c1 := set_current_reps (current_reps c + reps) c in
   let c2 := match daily_records c1 !! today with
             | None => set_daily_records (<[today := 0]> (daily_records c1)) c1
             | Some _ => c1
             end in
   set_daily_records
     (<[today := default 0 (daily_records c2 !! today) + reps]> (daily_records c2)) c2)
  = logged today reps c.
Proof.
  simpl. unfold logged.
  destruct (daily_records c !! today) as [v|] eqn:E; simpl.
  - by rewrite E.
  - rewrite lookup_insert_eq, insert_insert_eq. reflexivity.
Qed.

(** [add_reps] on a challenge that exists. *)
Lemma add_reps_found w user_id challenge_id reps p c :
  user_data w !! user_id = Some p ->
  challenges p !! challenge_id = Some c ->
  add_reps user_id challenge_id reps w
  = let c1 := logged (strftime_date (clock w 0%nat)) reps c in
    if total_reps c <=? current_reps c + reps
    then (Ok true,
          after_reads 2
            (<[user_id := with_challenges
                 (<[challenge_id := set_completed (clock w 1%nat) c1]> (challenges p)) p]>
               (user_data w)) w)
    else (Ok true,
          after_reads 1
            (<[user_id := with_challenges (<[challenge_id := c1]> (challenges p)) p]>
               (user_data w)) w).
Proof.
  intros Hp Hc. unfold add_reps.
  unfold bind at 1. rewrite (get_user_data_known _ _ _ Hp). rewrite Hc.
  unfold bind at 1. unfold now at 1. cbv zeta.
  set (today := strftime_date (clock w 0%nat)).
  pose proof (add_reps_records today reps c) as Hrec. cbv zeta in Hrec.
  rewrite Hrec.
  replace (total_reps (logged today reps c)) with (total_reps c) by reflexivity.
  replace (current_reps (logged today reps c)) with (current_reps c + reps) by reflexivity.
  destruct (total_reps c <=? current_reps c + reps).
  - unfold bind, now, ret, save_data.
    rewrite (store_challenge_known _ _ _ _ p) by exact Hp. reflexivity.
  - unfold bind, now, ret, save_data.
    rewrite (store_challenge_known _ _ _ _ p) by exact Hp. reflexivity.
Qed.

(** [add_reps] on a challenge that does not exist. *)
Lemma add_reps_missing w user_id challenge_id reps :
  lookup_challenge (user_data w) user_id challenge_id = None ->
  add_reps user_id challenge_id reps w
  = (Ok false,
     match user_data w !! user_id with
     | Some _ => w
     | None => after_reads 0 (<[user_id := default_profile]> (user_data w)) w
     end).
Proof.
  unfold lookup_challenge. intros H. unfold add_reps.
  destruct (user_data w !! user_id) as [p|] eqn:Hp.
  - unfold bind. rewrite (get_user_data_known _ _ _ Hp). by rewrite H.
  - unfold bind. rewrite (get_user_data_unknown _ _ Hp). simpl.
    by rewrite lookup_empty.
Qed.

Lemma get_user_data_eq w user_id :
  get_user_data user_id w
  = (Ok (profile_of (user_data w) user_id),
     after_reads 0 (touched (user_data w) user_id) w).
Proof.
  unfold profile_of, touched.
  destruct (user_data w !! user_id) as [p|] eqn:Hp.
  - rewrite (get_user_data_known _ _ _ Hp). simpl. by rewrite after_reads_0.
  - by rewrite (get_user_data_unknown _ _ Hp).
Qed.

Lemma touched_lookup s user_id :
  touched s user_id !! user_id = Some (profile_of s user_id).
Proof.
  unfold touched, profile_of.
  destruct (s !! user_id) as [p|] eqn:Hp; simpl.
  - exact Hp.
  - apply lookup_insert_eq.
Qed.

Lemma touched_lookup_ne s user_id u :
  user_id <> u -> touched s user_id !! u = s !! u.
Proof.
  intros Hne. unfold touched.
  destruct (s !! user_id); [done|]. by apply lookup_insert_ne.
Qed.

Lemma insert_touched s user_id p :
  <[user_id := p]> (touched s user_id) = <[user_id := p]> s.
Proof.
  unfold touched. destruct (s !! user_id); [done|]. apply insert_insert_eq.
Qed.

(** [get_user_data] creates no challenge and changes none. *)
Lemma lookup_challenge_touched s user_id u cid :
  lookup_challenge (touched s user_id) u cid = lookup_challenge s u cid.
Proof.
  unfold lookup_challenge.
  destruct (decide (user_id = u)) as [->|Hne].
  - rewrite touched_lookup. unfold profile_of.
    destruct (s !! u); simpl; [done|]. apply lookup_empty.
  - by rewrite touched_lookup_ne.
Qed.

Lemma create_challenge_eq w user_id exercise total_reps days :
  create_challenge user_id exercise total_reps days w
  = if creatable days (clock w 2%nat)
    then
      let c := fresh_challenge exercise total_reps days
                 (clock w 0%nat) (clock w 1%nat) (clock w 2%nat) in
      let p := profile_of (user_data w) user_id in
      (Ok (ch_id c),
       after_reads 3
         (<[user_id := with_challenges (<[ch_id c := c]> (challenges p)) p]>
            (user_data w)) w)
    else
      (Raise (if valid_timedeltab (days * us_per_day)
                 && valid_datetimeb (clock w 2%nat + days * us_per_day)
              then ZeroDivisionError else OverflowError),
       after_reads 3 (touched (user_data w) user_id) w).
Proof.
  unfold create_challenge, creatable.
  unfold bind at 1. rewrite get_user_data_eq.
  unfold bind at 1, now at 1. unfold bind at 1, now at 1. unfold bind at 1, now at 1.
  simpl clock. unfold bind at 1, lift at 1, timedelta_of_days.
  destruct (valid_timedeltab (days * us_per_day)); simpl; [|done].
  unfold bind at 1, lift at 1, datetime_add.
  destruct (valid_datetimeb (clock w 2%nat + days * us_per_day)); simpl; [|done].
  unfold bind at 1, lift at 1, truediv.
  destruct (days =? 0); simpl; [done|].
  unfold bind at 1.
  erewrite store_challenge_known by (simpl; apply touched_lookup).
  unfold bind, save_data, ret. simpl.
  unfold after_reads. simpl. by rewrite insert_touched.
Qed.

Lemma Qlt_bool_iff x y : Qlt_bool x y = true <-> (x < y)%Q.
Proof.
  unfold Qlt_bool. rewrite negb_true_iff.
  destruct (Qle_bool y x) eqn:E.
  - apply Qle_bool_iff in E. split; [discriminate|]. intros H.
    exfalso. apply (Qlt_not_le _ _ H E).
  - split; [|done]. intros _. apply Qnot_le_lt. intros H.
    apply Qle_bool_iff in H. congruence.
Qed.

Lemma Qlt_bool_nonzero x : Qlt_bool 0 x = true -> Qeq_bool x 0 = false.
Proof.
  intros H. apply Qlt_bool_iff in H.
  destruct (Qeq_bool x 0) eqn:E; [|done].
  apply Qeq_bool_eq in E. rewrite E in H. exfalso. apply (Qlt_irrefl _ H).
Qed.

Lemma get_challenge_progress_found w user_id challenge_id p c :
  user_data w !! user_id = Some p ->
  challenges p !! challenge_id = Some c ->
  get_challenge_progress user_id challenge_id w
  = (snapshot c (clock w 0%nat) (clock w 1%nat) (clock w 2%nat),
     after_reads (progress_reads c (clock w 0%nat)) (user_data w) w).
Proof.
  intros Hp Hc. unfold get_challenge_progress.
  unfold bind at 1. rewrite (get_user_data_known _ _ _ Hp). rewrite Hc.
  unfold bind at 1, now at 1. unfold bind at 1, now at 1. simpl clock.
  unfold snapshot, forecast, progress_reads, forecast_offset.
  fold (elapsed c (clock w 0%nat)).
  assert (Havg :
    (if 0 <? elapsed c (clock w 0%nat)
     then lift (truediv (current_reps c) (elapsed c (clock w 0%nat)))
     else ret 0%Q)
    = ret (average c (clock w 0%nat))).
  { unfold average, truediv.
    destruct (0 <? elapsed c (clock w 0%nat)) eqn:E; [|done].
    apply Z.ltb_lt in E.
    destruct (elapsed c (clock w 0%nat) =? 0) eqn:E0; [|done].
    apply Z.eqb_eq in E0. lia. }
  rewrite Havg. unfold bind at 1, ret at 1.
  unfold bind at 1, lift at 1, truediv at 1.
  destruct (Z.max (days (target_date c - clock w 1%nat)) 1 =? 0) eqn:Emax;
    [apply Z.eqb_eq in Emax; lia|].
  unfold bind at 1.
  destruct (Qlt_bool 0 (average c (clock w 0%nat))) eqn:Epos.
  - unfold bind at 1, lift at 1, truediv_float.
    rewrite (Qlt_bool_nonzero _ Epos).
    unfold bind at 1, now at 1. simpl clock.
    unfold bind at 1, lift at 1, timedelta_of_days_float.
    destruct (valid_timedeltab _); simpl; [|done].
    unfold bind at 1, lift at 1, datetime_add.
    destruct (valid_datetimeb _); simpl; [|done].
    unfold bind, ret, lift, truediv.
    destruct (total_reps c =? 0); done.
  - unfold ret at 1. unfold bind, ret, lift, truediv.
    destruct (total_reps c =? 0); simpl; by rewrite ?world_eta.
Qed.

Lemma get_challenge_progress_missing w user_id challenge_id :
  lookup_challenge (user_data w) user_id challenge_id = None ->
  get_challenge_progress user_id challenge_id w
  = (Ok None, after_reads 0 (touched (user_data w) user_id) w).
Proof.
  intros H. unfold get_challenge_progress.
  unfold bind. rewrite get_user_data_eq.
  unfold lookup_challenge, profile_of in *.
  destruct (user_data w !! user_id) as [p|]; simpl.
  - by rewrite H.
  - by rewrite lookup_empty.
Qed.

(** ** The store after an operation *)

Lemma lookup_challenge_insert s user_id challenge_id p c u k :
  s !! user_id = Some p ->
  lookup_challenge
    (<[user_id := with_challenges (<[challenge_id := c]> (challenges p)) p]> s) u k
  = if decide (u = user_id /\ k = challenge_id) then Some c
    else lookup_challenge s u k.
Proof.
  intros Hp. unfold lookup_challenge.
  destruct (decide (u = user_id)) as [->|Hu].
  - rewrite lookup_insert_eq, Hp. simpl.
    destruct (decide (k = challenge_id)) as [->|Hk].
    + rewrite lookup_insert_eq. by rewrite decide_True.
    + rewrite lookup_insert_ne by done. rewrite decide_False; [done|]. intros [_ ?]. done.
  - rewrite lookup_insert_ne by done. rewrite decide_False; [done|]. intros [? _]. done.
Qed.

Lemma lookup_challenge_inv s u k c :
  lookup_challenge s u k = Some c ->
  exists p, s !! u = Some p /\ challenges p !! k = Some c.
Proof.
  unfold lookup_challenge. destruct (s !! u) as [p|]; [|done]. eauto.
Qed.

Lemma lookup_after_add_reps w user_id challenge_id reps u k :
  lookup_challenge (user_data (snd (add_reps user_id challenge_id reps w))) u k
  = match lookup_challenge (user_data w) user_id challenge_id with
    | Some c =>
        if decide (u = user_id /\ k = challenge_id)
        then Some (added reps (clock w 0%nat) (clock w 1%nat) c)
        else lookup_challenge (user_data w) u k
    | None => lookup_challenge (user_data w) u k
    end.
Proof.
  destruct (lookup_challenge (user_data w) user_id challenge_id) as [c|] eqn:E.
  - destruct (lookup_challenge_inv _ _ _ _ E) as (p & Hp & Hc).
    rewrite (add_reps_found _ _ _ _ _ _ Hp Hc). unfold added. cbv zeta.
    destruct (total_reps c <=? current_reps c + reps); simpl;
      by rewrite (lookup_challenge_insert _ _ _ _ _ _ _ Hp).
  - rewrite (add_reps_missing _ _ _ _ E).
    destruct (user_data w !! user_id) eqn:Hp; simpl; [done|].
    pose proof (lookup_challenge_touched (user_data w) user_id u k) as H.
    unfold touched in H. by rewrite Hp in H.
Qed.

Lemma lookup_after_create w user_id exercise total_reps days u k :
  lookup_challenge
    (user_data (snd (create_challenge user_id exercise total_reps days w))) u k
  = let c := fresh_challenge exercise total_reps days
               (clock w 0%nat) (clock w 1%nat) (clock w 2%nat) in
    if creatable days (clock w 2%nat) && bool_decide (u = user_id /\ k = ch_id c)
    then Some c
    else lookup_challenge (user_data w) u k.
Proof.
  rewrite create_challenge_eq. cbv zeta.
  destruct (creatable days (clock w 2%nat)); simpl.
  - rewrite <- (insert_touched (user_data w) user_id).
    rewrite lookup_challenge_insert by apply touched_lookup.
    rewrite lookup_challenge_touched.
    destruct (decide _) as [H|H].
    + by rewrite bool_decide_eq_true_2.
    + by rewrite bool_decide_eq_false_2.
  - apply lookup_challenge_touched.
Qed.

(** Every challenge of the store after an operation is a challenge of the
    store before it, a fresh challenge, or the image of one by [added]. *)
Lemma run_op_store_forall (P : Challenge -> Prop) o w :
  (forall u e total d t0 t1 t2,
      o = CreateChallenge u e total d -> d <> 0 ->
      P (fresh_challenge e total d t0 t1 t2)) ->
  (forall u k reps t0 t1 c,
      o = AddReps u k reps -> P c -> P (added reps t0 t1 c)) ->
  store_forall P (user_data w) ->
  store_forall P (user_data (run_op o w)).
Proof.
  intros Hfresh Hadd Hw u k c.
  destruct o as [uid e total d | uid cid reps]; simpl.
  - rewrite lookup_after_create. cbv zeta.
    destruct (creatable d (clock w 2%nat)) eqn:Hc; simpl.
    + destruct (bool_decide _).
      * intros [= <-]. apply (Hfresh uid); [done|].
        unfold creatable in Hc. apply andb_true_iff in Hc as [_ Hc].
        apply negb_true_iff, Z.eqb_neq in Hc. done.
      * apply Hw.
    + apply Hw.
  - rewrite lookup_after_add_reps.
    destruct (lookup_challenge (user_data w) uid cid) as [c0|] eqn:E.
    + destruct (decide _).
      * intros [= <-]. apply (Hadd uid cid); [done|]. by apply (Hw uid cid).
      * apply Hw.
    + apply Hw.
Qed.

(** ** Sums of daily records *)

Lemma sum_records_empty : sum_records ∅ = 0.
Proof. unfold sum_records. apply map_fold_empty. Qed.

Lemma sum_records_insert_fresh (r : gmap string Z) k v :
  r !! k = None -> sum_records (<[k := v]> r) = v + sum_records r.
Proof.
  intros H. unfold sum_records.
  rewrite map_fold_insert_L; [done| |done].
  intros. lia.
Qed.

Lemma sum_records_insert (r : gmap string Z) k v :
  sum_records (<[k := v]> r) = sum_records r - default 0 (r !! k) + v.
Proof.
  destruct (r !! k) as [x|] eqn:E; simpl.
  - rewrite <- insert_delete_eq.
    rewrite sum_records_insert_fresh by apply lookup_delete_eq.
    unfold sum_records at 2.
    rewrite (map_fold_delete_L _ _ k x r); [|intros; lia|done].
    fold (sum_records (delete k r)). lia.
  - rewrite sum_records_insert_fresh by done. lia.
Qed.

Lemma records_ok_added reps t0 t1 c : records_ok c -> records_ok (added reps t0 t1 c).
Proof.
  unfold records_ok, added. cbv zeta. intros H.
  assert (Hl : current_reps (logged (strftime_date t0) reps c)
               = sum_records (daily_records (logged (strftime_date t0) reps c))).
  { unfold logged. simpl. rewrite sum_records_insert. lia. }
  destruct (total_reps c <=? current_reps c + reps); simpl; exact Hl.
Qed.

Lemma lifecycle_ok_added reps t0 t1 c :
  0 < reps -> lifecycle_ok c -> lifecycle_ok (added reps t0 t1 c).
Proof.
  unfold lifecycle_ok, added. cbv zeta. intros Hr H.
  destruct (total_reps c <=? current_reps c + reps) eqn:E; simpl.
  - apply Z.leb_le in E. right. split; [done|lia].
  - apply Z.leb_gt in E. left. split; [|lia].
    destruct H as [[? ?]|[? ?]]; [done|lia].
Qed.

Lemma run_ops_lifecycle ops : forall w,
  Forall valid_op ops ->
  store_forall lifecycle_ok (user_data w) ->
  store_forall lifecycle_ok (user_data (run_ops ops w)).
Proof.
  induction ops as [|o ops IH]; intros w Hv Hw; [exact Hw|].
  inversion Hv as [|? ? Ho Hops]; subst. simpl.
  apply IH; [done|].
  apply run_op_store_forall; [| |done].
  - intros u e total d t0 t1 t2 -> _. simpl in Ho.
    left. simpl. split; [done|lia].
  - intros u k reps t0 t1 c -> Hc. simpl in Ho. by apply lifecycle_ok_added.
Qed.

Lemma run_ops_records ops : forall w,
  store_forall records_ok (user_data w) ->
  store_forall records_ok (user_data (run_ops ops w)).
Proof.
  induction ops as [|o ops IH]; intros w Hw; [exact Hw|].
  simpl. apply IH.
  apply run_op_store_forall; [| |done].
  - intros. unfold records_ok. simpl. by rewrite sum_records_empty.
  - intros. by apply records_ok_added.
Qed.

Lemma add_reps_existing w user_id challenge_id reps c :
  lookup_challenge (user_data w) user_id challenge_id = Some c ->
  fst (add_reps user_id challenge_id reps w) = Ok true
  /\ lookup_challenge (user_data (snd (add_reps user_id challenge_id reps w)))
       user_id challenge_id
     = Some (added reps (clock w 0%nat) (clock w 1%nat) c).
Proof.
  intros E. split.
  - destruct (lookup_challenge_inv _ _ _ _ E) as (p & Hp & Hc).
    rewrite (add_reps_found _ _ _ _ _ _ Hp Hc). cbv zeta.
    by destruct (total_reps c <=? current_reps c + reps).
  - rewrite lookup_after_add_reps, E. by rewrite decide_True.
Qed.

Lemma add_all_existing user_id challenge_id amounts : forall w c,
  lookup_challenge (user_data w) user_id challenge_id = Some c ->
  fst (add_all user_id challenge_id amounts w) = Ok true
  /\ exists c',
       lookup_challenge (user_data (snd (add_all user_id challenge_id amounts w)))
         user_id challenge_id = Some c'
       /\ current_reps c' = current_reps c + total_of amounts
       /\ (records_ok c -> records_ok c').
Proof.
  induction amounts as [|reps rest IH]; intros w c Hc; simpl.
  - split; [done|]. exists c. repeat split; [done|lia|done].
  - destruct (add_reps_existing w user_id challenge_id reps c Hc) as [Hok Hlook].
    unfold bind.
    destruct (add_reps user_id challenge_id reps w) as [res w1]. simpl in *.
    subst res.
    destruct (IH w1 _ Hlook) as (Hok' & c' & Hc' & Hsum & Hrec).
    split; [done|]. exists c'. split; [done|]. split.
    + rewrite Hsum. unfold added. cbv zeta.
      destruct (total_reps c <=? current_reps c + reps); simpl; lia.
    + intros H. apply Hrec. by apply records_ok_added.
Qed.

Lemma store_forall_empty P : store_forall P ∅.
Proof. intros u k c H. unfold lookup_challenge in H. by rewrite lookup_empty in H. Qed.

(** ** The reads leave the store as [get_user_data] leaves it *)

Lemma touched_known s user_id : is_Some (s !! user_id) -> touched s user_id = s.
Proof. intros [p Hp]. unfold touched. by rewrite Hp. Qed.

Lemma get_challenge_progress_store w user_id challenge_id :
  user_data (snd (get_challenge_progress user_id challenge_id w))
  = touched (user_data w) user_id.
Proof.
  destruct (lookup_challenge (user_data w) user_id challenge_id) as [c|] eqn:E.
  - destruct (lookup_challenge_inv _ _ _ _ E) as (p & Hp & Hc).
    rewrite (get_challenge_progress_found _ _ _ _ _ Hp Hc). simpl.
    symmetry. apply touched_known. eauto.
  - by rewrite (get_challenge_progress_missing _ _ _ E).
Qed.

Lemma active_loop_store user_id items : forall acc w,
  is_Some (user_data w !! user_id) ->
  user_data (snd (active_loop user_id items acc w)) = user_data w.
Proof.
  induction items as [|[k c] items IH]; intros acc w Hu; simpl; [done|].
  destruct (status_eqb (status c) ACTIVE); [|by apply IH].
  unfold bind.
  pose proof (get_challenge_progress_store w user_id k) as Hs.
  rewrite (touched_known _ _ Hu) in Hs.
  destruct (get_challenge_progress user_id k w) as [[[pr|]|e] w1]; simpl in *.
  - rewrite IH; [done|]. by rewrite Hs.
  - rewrite IH; [done|]. by rewrite Hs.
  - done.
Qed.

Lemma get_active_challenges_store w user_id :
  user_data (snd (get_active_challenges user_id w)) = touched (user_data w) user_id.
Proof.
  unfold get_active_challenges, bind. rewrite get_user_data_eq.
  rewrite active_loop_store; [done|].
  simpl. rewrite touched_lookup. eauto.
Qed.

Lemma reminder_loop_eq active : forall acc w,
  reminder_loop active acc w
  = (Ok (acc ++ lines_at (clock w) active),
     after_reads (length active) (user_data w) w).
Proof.
  induction active as [|pr active IH]; intros acc w; simpl.
  - rewrite app_nil_r. by rewrite after_reads_0.
  - unfold bind, now. rewrite IH. rewrite <- app_assoc. reflexivity.
Qed.

Section RemindersStore.

Variable int_of_str : string -> option Z.

Lemma remind_user_store w user_id profile :
  is_Some (user_data w !! user_id) ->
  user_data (snd (remind_user int_of_str user_id profile w)) = user_data w.
Proof.
  intros Hu. unfold remind_user.
  destruct (negb _); [done|].
  unfold bind.
  pose proof (get_active_challenges_store w user_id) as Hs.
  rewrite (touched_known _ _ Hu) in Hs.
  destruct (get_active_challenges user_id w) as [[[|pr active]|e] w1];
    simpl in Hs; cbn -[reminder_loop]; try done.
  destruct (int_of_str user_id); [|done].
  by rewrite reminder_loop_eq.
Qed.

Lemma remind_users_store users : forall sent w,
  Forall (fun ux => is_Some (user_data w !! ux.1)) users ->
  user_data (snd (remind_users int_of_str users sent w)) = user_data w.
Proof.
  induction users as [|[u p] users IH]; intros sent w Hall; simpl; [done|].
  inversion Hall as [|? ? Hu Hrest]; subst. simpl in Hu.
  unfold bind.
  pose proof (remind_user_store w u p Hu) as Hs.
  destruct (remind_user int_of_str u p w) as [[[m|]|e] w1]; simpl in *; try done.
  - rewrite IH; [done|]. by rewrite Hs.
  - rewrite IH; [done|]. by rewrite Hs.
Qed.

Lemma send_daily_reminders_store w :
  user_data (snd (send_daily_reminders int_of_str w)) = user_data w.
Proof.
  unfold send_daily_reminders, bind, get_store.
  apply remind_users_store.
  apply Forall_forall. intros [u p] Hin. simpl.
  apply elem_of_map_to_list in Hin. eauto.
Qed.

End RemindersStore.

(** ** Reads at a clock that stands still *)

Lemma after_reads_frozen k w t :
  clock w = frozen t -> after_reads k (user_data w) w = w.
Proof. destruct w as [s clk]. simpl. intros ->. reflexivity. Qed.

Lemma get_challenge_progress_frozen w user_id challenge_id t :
  clock w = frozen t ->
  is_Some (user_data w !! user_id) ->
  snd (get_challenge_progress user_id challenge_id w) = w.
Proof.
  intros Hf Hu.
  destruct (lookup_challenge (user_data w) user_id challenge_id) as [c|] eqn:E.
  - destruct (lookup_challenge_inv _ _ _ _ E) as (p & Hp & Hc).
    rewrite (get_challenge_progress_found _ _ _ _ _ Hp Hc). simpl.
    by apply (after_reads_frozen _ _ t).
  - rewrite (get_challenge_progress_missing _ _ _ E). simpl.
    rewrite (touched_known _ _ Hu). apply after_reads_0.
Qed.

Lemma active_loop_frozen w user_id t items : forall acc,
  clock w = frozen t ->
  is_Some (user_data w !! user_id) ->
  snd (active_loop user_id items acc w) = w.
Proof.
  induction items as [|[k c] items IH]; intros acc Hf Hu; simpl; [done|].
  destruct (status_eqb (status c) ACTIVE); [|by apply IH].
  unfold bind.
  pose proof (get_challenge_progress_frozen w user_id k t Hf Hu) as Hs.
  destruct (get_challenge_progress user_id k w) as [[[pr|]|e] w1]; simpl in *;
    subst w1; [by apply IH|by apply IH|done].
Qed.

Lemma get_active_challenges_frozen w user_id t :
  clock w = frozen t ->
  is_Some (user_data w !! user_id) ->
  snd (get_active_challenges user_id w) = w.
Proof.
  intros Hf [p Hp]. unfold get_active_challenges, bind.
  rewrite (get_user_data_known _ _ _ Hp).
  apply (active_loop_frozen _ _ t); eauto.
Qed.

Section RemindersFrozen.

Variable int_of_str : string -> option Z.

Lemma remind_user_frozen w user_id profile t :
  clock w = frozen t ->
  is_Some (user_data w !! user_id) ->
  snd (remind_user int_of_str user_id profile w) = w.
Proof.
  intros Hf Hu. unfold remind_user.
  destruct (negb _); [done|].
  unfold bind.
  pose proof (get_active_challenges_frozen w user_id t Hf Hu) as Hs.
  destruct (get_active_challenges user_id w) as [[[|pr active]|e] w1];
    simpl in Hs; subst w1; cbn -[reminder_loop]; try done.
  destruct (int_of_str user_id); [|done].
  rewrite reminder_loop_eq. simpl snd.
  by apply (after_reads_frozen _ _ t).
Qed.

Lemma remind_users_frozen w t users : forall sent,
  clock w = frozen t ->
  Forall (fun ux => is_Some (user_data w !! ux.1)) users ->
  snd (remind_users int_of_str users sent w) = w.
Proof.
  induction users as [|[u p] users IH]; intros sent Hf Hall; simpl; [done|].
  inversion Hall as [|? ? Hu Hrest]; subst. simpl in Hu.
  unfold bind.
  pose proof (remind_user_frozen w u p t Hf Hu) as Hs.
  destruct (remind_user int_of_str u p w) as [[[m|]|e] w1]; simpl in *;
    subst w1; [by apply IH|by apply IH|done].
Qed.

Lemma send_daily_reminders_frozen w t :
  clock w = frozen t ->
  snd (send_daily_reminders int_of_str w) = w.
Proof.
  intros Hf. unfold send_daily_reminders, bind, get_store.
  apply (remind_users_frozen _ t); [done|].
  apply Forall_forall. intros [u p] Hin. simpl.
  apply elem_of_map_to_list in Hin. eauto.
Qed.

End RemindersFrozen.

Lemma inject_Z_nonzero z : z <> 0 -> ~ (inject_Z z == 0)%Q.
Proof. intros Hz H. apply (inject_Z_injective z 0) in H. done. Qed.

Lemma creatable_in_range days t :
  0 < days -> 0 <= t -> t + days * us_per_day <= datetime_max ->
  creatable days t = true.
Proof.
  intros Hd Ht Hmax. unfold creatable, valid_timedeltab, valid_datetimeb.
  unfold datetime_max, max_ordinal, max_delta_days, us_per_day, us_per_second in *.
  repeat (apply andb_true_intro; split);
    try (apply Z.leb_le; lia); try (apply Z.ltb_lt; lia).
  apply negb_true_iff, Z.eqb_neq. lia.
Qed.

Lemma handle_message_non_positive w user_id n ctx :
  n <= 0 ->
  handle_message user_id (Some n) ctx w
  = (Ok (match challenge_step ctx with
         | Some _ => EnterPositive
         | None => if adding_reps ctx then EnterPositive else UseMenu
         end, ctx), w).
Proof.
  intros Hn. apply Z.leb_le in Hn. unfold handle_message.
  destruct (challenge_step ctx) as [[|]|]; rewrite ?Hn; try reflexivity.
  destruct (adding_reps ctx); rewrite ?Hn; reflexivity.
Qed.

(** ** The reminder decisions *)

Lemma snapshot_challenge c t1 t2 t3 r :
  snapshot c t1 t2 t3 = Ok r -> exists p, r = Some p /\ challenge p = c.
Proof.
  unfold snapshot. destruct (forecast c t1 t3); [|discriminate].
  destruct (total_reps c =? 0); [discriminate|].
  intros [= <-]. eauto.
Qed.

(** When the loop of [get_active_challenges] returns, it returns one
    progress per Active item, in the order of the items. *)
Lemma active_loop_challenges user_id p items : forall acc w l w',
  user_data w !! user_id = Some p ->
  Forall (fun kc => challenges p !! kc.1 = Some kc.2) items ->
  active_loop user_id items acc w = (Ok l, w') ->
  map challenge l
  = map challenge acc
    ++ map snd (List.filter (fun kc => status_eqb (status kc.2) ACTIVE) items).
Proof.
  induction items as [|[k c] items IH]; intros acc w l w' Hp Hall; simpl.
  - intros [= <- _]. by rewrite app_nil_r.
  - inversion Hall as [|? ? Hk Hrest]; subst. simpl in Hk.
    destruct (status_eqb (status c) ACTIVE); [|by apply IH].
    unfold bind. rewrite (get_challenge_progress_found _ _ _ _ _ Hp Hk).
    destruct (snapshot c _ _ _) as [r|e] eqn:E; [|discriminate].
    destruct (snapshot_challenge _ _ _ _ _ E) as (pr & -> & Hpr).
    intros H. apply IH in H; [|done|done].
    rewrite H, map_app. simpl. rewrite Hpr. by rewrite <- app_assoc.
Qed.

Lemma get_active_challenges_challenges w user_id p l w' :
  user_data w !! user_id = Some p ->
  get_active_challenges user_id w = (Ok l, w') ->
  map challenge l
  = map snd (List.filter (fun kc => status_eqb (status kc.2) ACTIVE)
               (map_to_list (challenges p))).
Proof.
  intros Hp. unfold get_active_challenges, bind.
  rewrite (get_user_data_known _ _ _ Hp). intros H.
  apply (active_loop_challenges _ p) in H; [done|done|].
  apply Forall_forall. intros [k c] Hin. by apply elem_of_map_to_list in Hin.
Qed.

(** The three states of a line: nothing logged today, less than the daily
    target, the daily target or more. *)
Lemma reminder_line_classes today c :
  let today_reps := default 0 (daily_records c !! today) in
  (today_reps = 0 ->
   reminder_line today c = NotStarted (exercise c) (round_half_even (daily_target c)))
  /\ (today_reps <> 0 -> (inject_Z today_reps < daily_target c)%Q ->
      reminder_line today c
      = Partial (exercise c) (round_half_even (daily_target c - inject_Z today_reps)))
  /\ (today_reps <> 0 -> (daily_target c <= inject_Z today_reps)%Q ->
      reminder_line today c = GoalMet (exercise c)).
Proof.
  intros today_reps. unfold reminder_line. fold today_reps.
  repeat split.
  - intros ->. reflexivity.
  - intros Hne Hlt. apply Z.eqb_neq in Hne. rewrite Hne.
    apply Qlt_bool_iff in Hlt. by rewrite Hlt.
  - intros Hne Hle. apply Z.eqb_neq in Hne. rewrite Hne.
    destruct (Qlt_bool (inject_Z today_reps) (daily_target c)) eqn:E; [|done].
    apply Qlt_bool_iff in E. exfalso. apply (Qlt_not_le _ _ E Hle).
Qed.

Section ReminderDecisions.

Variable int_of_str : string -> option Z.

(** No message when the reminders are off, or when no challenge is Active. *)
Lemma remind_user_suppressed w user_id profile :
  (reminders_enabled profile = Some false ->
   remind_user int_of_str user_id profile w = (Ok None, w))
  /\ (forall w',
        reminders_enabled profile <> Some false ->
        get_active_challenges user_id w = (Ok [], w') ->
        remind_user int_of_str user_id profile w = (Ok None, w')).
Proof.
  unfold remind_user. split.
  - intros ->. reflexivity.
  - intros w' Hon Hact.
    destruct (reminders_enabled profile) as [[|]|]; simpl; try done;
      unfold bind; by rewrite Hact.
Qed.

(** Otherwise, when [get_active_challenges] returns, the message has one
    line per Active challenge. *)
Lemma remind_user_lines w user_id profile p a l w' n :
  reminders_enabled profile <> Some false ->
  user_data w !! user_id = Some p ->
  get_active_challenges user_id w = (Ok (a :: l), w') ->
  int_of_str user_id = Some n ->
  fst (remind_user int_of_str user_id profile w)
  = Ok (Some (n, lines_at (clock w') (a :: l)))
  /\ map challenge (a :: l)
     = map snd (List.filter (fun kc => status_eqb (status kc.2) ACTIVE)
                  (map_to_list (challenges p)))
  /\ length (lines_at (clock w') (a :: l)) = length (a :: l).
Proof.
  intros Hon Hp Hact Hn. repeat split.
  - unfold remind_user.
    destruct (reminders_enabled profile) as [[|]|]; cbn -[reminder_loop lines_at];
      try done; unfold bind; rewrite Hact, Hn, reminder_loop_eq; reflexivity.
  - by apply (get_active_challenges_challenges w user_id p _ w').
  - clear. generalize (clock w'). generalize (a :: l).
    induction l0 as [|x l0 IH]; intros clk; simpl; [done|]. by rewrite IH.
Qed.

End ReminderDecisions.

(** ** C1: the status follows the target *)

(** C1, as stated, fails: the engine applies whatever quantity it is
    given.  After a challenge of 100 has been completed with 100,
    [add_reps] with [-60] leaves it Completed with 40 of 100; and
    [create_challenge] with a total of 0 makes an Active challenge with
    [current_reps >= total_reps]. *)
Lemma status_ignores_unchecked_quantities :
  let k := "PUSHUPS_20261103_100000" in
  let w := run_ops [CreateChallenge "42" PUSHUPS 100 30; AddReps "42" k 100;
                    AddReps "42" k (-60)] (empty_world (frozen t_create)) in
  let v := run_ops [CreateChallenge "42" PUSHUPS 0 30] (empty_world (frozen t_create)) in
  (status <$> lookup_challenge (user_data w) "42" k) = Some COMPLETED
  /\ (current_reps <$> lookup_challenge (user_data w) "42" k) = Some 40
  /\ (total_reps <$> lookup_challenge (user_data w) "42" k) = Some 100
  /\ (status <$> lookup_challenge (user_data v) "42" k) = Some ACTIVE
  /\ (current_reps <$> lookup_challenge (user_data v) "42" k) = Some 0
  /\ (total_reps <$> lookup_challenge (user_data v) "42" k) = Some 0.
Proof. vm_compute. repeat split. Qed.

(** C1, amended.  In a store where every challenge is Active below its target or
    Completed at or above it (the empty store is one), after any sequence of
    [create_challenge] and [add_reps] calls that meet the preconditions
    ([total_reps > 0], [days > 0], [reps > 0]), the status of every challenge
    is Completed if and only if [current_reps >= total_reps].  A further
    [add_reps] whose increment takes [current_reps] from below the target to
    the target or above finds the status Active, leaves it Completed and
    sets [completion_date] to the instant read for it; one that leaves
    [current_reps] below the target finds and leaves the status Active. *)
Theorem status_completed_iff_target_reached (w : World) (ops : list Op) :
  store_forall lifecycle_ok (user_data w) ->
  Forall valid_op ops ->
  let w' := run_ops ops w in
  store_forall (fun c => status c = COMPLETED <-> total_reps c <= current_reps c)
    (user_data w')
  /\ forall user_id challenge_id reps c,
       0 < reps ->
       lookup_challenge (user_data w') user_id challenge_id = Some c ->
       let r := add_reps user_id challenge_id reps w' in
       fst r = Ok true
       /\ exists c',
            lookup_challenge (user_data (snd r)) user_id challenge_id = Some c'
            /\ current_reps c' = current_reps c + reps
            /\ total_reps c' = total_reps c
            /\ (current_reps c < total_reps c ->
                total_reps c <= current_reps c + reps ->
                status c = ACTIVE /\ status c' = COMPLETED
                /\ completion_date c' = Some (clock w' 1%nat))
            /\ (current_reps c + reps < total_reps c ->
                status c = ACTIVE /\ status c' = ACTIVE).
Proof.
  intros Hw Hv w'.
  assert (Hinv : store_forall lifecycle_ok (user_data w'))
    by (by apply run_ops_lifecycle).
  split.
  - intros u k c Hc. destruct (Hinv u k c Hc) as [[Hs Hlt]|[Hs Hle]].
    + rewrite Hs. split; [discriminate|lia].
    + by rewrite Hs.
  - intros u k reps c Hr Hc r.
    destruct (add_reps_existing w' u k reps c Hc) as [Hok Hlook].
    split; [exact Hok|].
    exists (added reps (clock w' 0%nat) (clock w' 1%nat) c).
    split; [exact Hlook|].
    pose proof (Hinv u k c Hc) as Hlife.
    unfold added. cbv zeta.
    destruct (total_reps c <=? current_reps c + reps) eqn:E; simpl.
    + apply Z.leb_le in E. repeat split; try done; try lia.
      destruct Hlife as [[? ?]|[? ?]]; [done|lia].
    + apply Z.leb_gt in E. repeat split; try done; try lia;
        destruct Hlife as [[? ?]|[? ?]]; try done; lia.
Qed.

Lemma status_completed_iff_target_reached_witness :
  let w := empty_world (ticking t_create us_per_second) in
  let ops := [CreateChallenge "42" PUSHUPS 100 30;
              AddReps "42" "PUSHUPS_20261103_100000" 40] in
  store_forall lifecycle_ok (user_data w)
  /\ Forall valid_op ops
  /\ let w' := run_ops ops w in
     store_forall (fun c => status c = COMPLETED <-> total_reps c <= current_reps c)
       (user_data w')
     /\ forall user_id challenge_id reps c,
          0 < reps ->
          lookup_challenge (user_data w') user_id challenge_id = Some c ->
          let r := add_reps user_id challenge_id reps w' in
          fst r = Ok true
          /\ exists c',
               lookup_challenge (user_data (snd r)) user_id challenge_id = Some c'
               /\ current_reps c' = current_reps c + reps
               /\ total_reps c' = total_reps c
               /\ (current_reps c < total_reps c ->
                   total_reps c <= current_reps c + reps ->
                   status c = ACTIVE /\ status c' = COMPLETED
                   /\ completion_date c' = Some (clock w' 1%nat))
               /\ (current_reps c + reps < total_reps c ->
                   status c = ACTIVE /\ status c' = ACTIVE).
Proof.
  intros w ops.
  assert (H1 : store_forall lifecycle_ok (user_data w)) by apply store_forall_empty.
  assert (H2 : Forall valid_op ops).
  { repeat constructor; simpl; lia. }
  split; [exact H1|]. split; [exact H2|].
  exact (status_completed_iff_target_reached w ops H1 H2).
Defined.

(** The example of the specification: a target of 100, 40 then 61 logged:
    Completed after the second call, with a completion date; 40 then 50
    leaves the challenge Active. *)
Example crossing_the_target :
  let w := empty_world (ticking t_create us_per_second) in
  let k := "PUSHUPS_20261103_100000" in
  let w1 := run_ops [CreateChallenge "42" PUSHUPS 100 30; AddReps "42" k 40] w in
  (status <$> lookup_challenge (user_data w1) "42" k) = Some ACTIVE
  /\ (status <$> lookup_challenge (user_data (run_op (AddReps "42" k 61) w1)) "42" k)
     = Some COMPLETED
  /\ (completion_date <$> lookup_challenge (user_data (run_op (AddReps "42" k 61) w1)) "42" k)
     = Some (Some (t_create + 5 * us_per_second))
  /\ (status <$> lookup_challenge (user_data (run_op (AddReps "42" k 50) w1)) "42" k)
     = Some ACTIVE.
Proof. vm_compute. repeat split. Qed.

(** ** C2: [current_reps] is the sum of the daily records *)

(** C2.  In a store where [current_reps] is the sum of [daily_records] for
    every challenge (the empty store is one), this still holds after any
    sequence of [create_challenge] and [add_reps] calls.  On a challenge
    that [create_challenge] has just returned, every sequence of [add_reps]
    calls succeeds, and after it [current_reps] and the sum of
    [daily_records] both equal the sum of the amounts. *)
Theorem current_reps_is_sum_of_records (w : World) (ops : list Op) :
  store_forall records_ok (user_data w) ->
  let w' := run_ops ops w in
  store_forall (fun c => current_reps c = sum_records (daily_records c)) (user_data w')
  /\ forall user_id exercise total_reps days challenge_id w1 amounts,
       create_challenge user_id exercise total_reps days w' = (Ok challenge_id, w1) ->
       let r := add_all user_id challenge_id amounts w1 in
       fst r = Ok true
       /\ exists c,
            lookup_challenge (user_data (snd r)) user_id challenge_id = Some c
            /\ current_reps c = total_of amounts
            /\ sum_records (daily_records c) = total_of amounts.
Proof.
  intros Hw w'. split.
  - by apply run_ops_records.
  - intros uid e total d cid w1 amounts Hcreate r.
    pose proof (lookup_after_create w' uid e total d uid cid) as Hl.
    pose proof (create_challenge_eq w' uid e total d) as Heq.
    rewrite Hcreate in Hl, Heq. simpl in Hl. cbv zeta in Heq.
    destruct (creatable d (clock w' 2%nat)); [|discriminate].
    injection Heq as -> _. simpl in Hl.
    rewrite bool_decide_eq_true_2 in Hl by done.
    destruct (add_all_existing uid _ amounts w1 _ Hl) as (Hok & c & Hc & Hsum & Hrec).
    split; [exact Hok|]. exists c. split; [exact Hc|].
    simpl in Hsum. split; [lia|].
    rewrite <- Hrec; [lia|].
    unfold records_ok. simpl. by rewrite sum_records_empty.
Qed.

Lemma current_reps_is_sum_of_records_witness :
  let w := empty_world (frozen t_create) in
  let ops := [CreateChallenge "42" SQUATS 50 10; AddReps "42" "SQUATS_20261103_100000" 7] in
  store_forall records_ok (user_data w)
  /\ let w' := run_ops ops w in
     store_forall (fun c => current_reps c = sum_records (daily_records c)) (user_data w')
     /\ forall user_id exercise total_reps days challenge_id w1 amounts,
          create_challenge user_id exercise total_reps days w' = (Ok challenge_id, w1) ->
          let r := add_all user_id challenge_id amounts w1 in
          fst r = Ok true
          /\ exists c,
               lookup_challenge (user_data (snd r)) user_id challenge_id = Some c
               /\ current_reps c = total_of amounts
               /\ sum_records (daily_records c) = total_of amounts.
Proof.
  intros w ops.
  assert (H1 : store_forall records_ok (user_data w)) by apply store_forall_empty.
  split; [exact H1|].
  exact (current_reps_is_sum_of_records w ops H1).
Defined.

(** ** C3: the progress snapshot *)

(** C3: the input on which the code does not do what the claim says.  User
    42 creates, through the dialogues, a challenge of 100,000 push-ups in
    365 days on 2026-11-03 and logs one repetition the same day.  Read 31
    days later, [get_challenge_progress] finds 32 days elapsed and an
    average of 1/32 a day: the forecast is 3,199,968 days ahead, past the
    year 9999, [datetime.now() + timedelta(days=...)] raises
    [OverflowError], and no snapshot is returned, where the claim has one
    for every existing challenge and every instant. *)
Theorem progress_raises_on_far_forecast :
  let k := "PUSHUPS_20261103_100000" in
  let b := handle_updates (fun _ => None) first_day
             (new_bot (jumping t_create 11 (t_create + 31 * day))) in
  let w := world b in
  (total_reps <$> lookup_challenge (user_data w) "42" k) = Some 100000
  /\ (target_days <$> lookup_challenge (user_data w) "42" k) = Some 365
  /\ (current_reps <$> lookup_challenge (user_data w) "42" k) = Some 1
  /\ (status <$> lookup_challenge (user_data w) "42" k) = Some ACTIVE
  /\ (start_date <$> lookup_challenge (user_data w) "42" k) = Some (t_create + 1000)
  /\ clock w 0%nat = t_create + 31 * day + 11000
  /\ ((fun c => elapsed c (clock w 0%nat)) <$> lookup_challenge (user_data w) "42" k)
     = Some 32
  /\ fst (get_challenge_progress "42" k w) = Raise OverflowError.
Proof. vm_compute. repeat split. Qed.

(** Past the target date: ten days late on a challenge of 30 days, the
    days remaining are negative and the needed average divides by 1. *)
Example progress_past_target_date :
  let k := "PUSHUPS_20261103_100000" in
  let w := at_clock (frozen (t_create + 40 * day))
             (run_ops [CreateChallenge "42" PUSHUPS 100 30; AddReps "42" k 40]
                (empty_world (frozen t_create))) in
  exists p,
    fst (get_challenge_progress "42" k w) = Ok (Some p)
    /\ days_elapsed p = 41 /\ days_remaining p = -10
    /\ (needed_daily_avg p == 60)%Q
    /\ (percentage p == 40)%Q
    /\ on_track p = false.
Proof.
  eexists. split; [vm_compute; reflexivity|].
  cbn [days_elapsed days_remaining needed_daily_avg percentage on_track].
  repeat split.
Qed.

(** The boundary of [on_track]: a daily target of 10 on the first day, 10
    logged is on track and 9 is not; a fresh challenge has no forecast. *)
Example on_track_boundary :
  let k := "PUSHUPS_20261103_100000" in
  let w0 := run_ops [CreateChallenge "42" PUSHUPS 100 10] (empty_world (frozen t_create)) in
  (on_track <$> default None (match fst (get_challenge_progress "42" k
                                (run_op (AddReps "42" k 10) w0)) with
                              | Ok p => Some p | Raise _ => None end)) = Some true
  /\ (on_track <$> default None (match fst (get_challenge_progress "42" k
                                   (run_op (AddReps "42" k 9) w0)) with
                                 | Ok p => Some p | Raise _ => None end)) = Some false
  /\ (projected_date <$> default None (match fst (get_challenge_progress "42" k w0) with
                                       | Ok p => Some p | Raise _ => None end))
     = Some None.
Proof. vm_compute. repeat split. Qed.

(** ** C4: where the quantities are checked *)

(** C4, as stated, fails: the engine applies non-positive quantities.
    [add_reps] with [-5] or [0] succeeds and changes the challenge;
    [create_challenge] with a non-positive total or a negative number of
    days inserts a challenge; [days = 0] raises [ZeroDivisionError], after
    [get_user_data] has inserted the profile of a new user. *)
Lemma engine_applies_non_positive_quantities :
  let k := "PUSHUPS_20261103_100000" in
  let w := run_ops [CreateChallenge "42" PUSHUPS 100 30] (empty_world (frozen t_create)) in
  fst (add_reps "42" k (-5) w) = Ok true
  /\ (current_reps <$> lookup_challenge (user_data (snd (add_reps "42" k (-5) w))) "42" k)
     = Some (-5)
  /\ fst (add_reps "42" k 0 w) = Ok true
  /\ fst (create_challenge "42" SQUATS (-10) 5 w) = Ok "SQUATS_20261103_100000"
  /\ (total_reps <$> lookup_challenge
        (user_data (snd (create_challenge "42" SQUATS (-10) 5 w)))
        "42" "SQUATS_20261103_100000") = Some (-10)
  /\ fst (create_challenge "42" SQUATS 0 5 w) = Ok "SQUATS_20261103_100000"
  /\ fst (create_challenge "42" SQUATS 10 (-5) w) = Ok "SQUATS_20261103_100000"
  /\ (target_days <$> lookup_challenge
        (user_data (snd (create_challenge "42" SQUATS 10 (-5) w)))
        "42" "SQUATS_20261103_100000") = Some (-5)
  /\ fst (create_challenge "7" SQUATS 10 0 w) = Raise ZeroDivisionError
  /\ user_data w !! "7" = None
  /\ user_data (snd (create_challenge "7" SQUATS 10 0 w)) !! "7" = Some default_profile.
Proof. vm_compute. repeat split. Qed.

(** C4, amended.  The engine does not check the sign of a quantity.
    [add_reps] on an existing challenge succeeds for every integer [reps]
    and adds it to [current_reps]; [create_challenge] inserts the challenge
    for every [total_reps] and every [days <> 0] whose target date is
    representable and whose quotient is within the range of a [float]; for
    [days = 0] it raises [ZeroDivisionError] and creates
    no challenge (the profile of a new user stays inserted).  The check is
    in [handle_message]: a number [<= 0] is answered by a request for a
    positive number, in each of its three input steps, with no call of the
    engine: the world and the session are unchanged. *)
Theorem quantities_checked_by_handler (w : World) (user_id challenge_id : string)
    (c : Challenge) :
  lookup_challenge (user_data w) user_id challenge_id = Some c ->
  (forall reps,
      fst (add_reps user_id challenge_id reps w) = Ok true
      /\ (current_reps <$> lookup_challenge
            (user_data (snd (add_reps user_id challenge_id reps w)))
            user_id challenge_id) = Some (current_reps c + reps))
  /\ (forall u e total days,
        creatable days (clock w 2%nat) = true ->
        float_quotient total days ->
        exists k,
          fst (create_challenge u e total days w) = Ok k
          /\ (total_reps <$> lookup_challenge
                (user_data (snd (create_challenge u e total days w))) u k) = Some total
          /\ (target_days <$> lookup_challenge
                (user_data (snd (create_challenge u e total days w))) u k) = Some days)
  /\ (forall u e total,
        valid_datetime (clock w 2%nat) ->
        fst (create_challenge u e total 0 w) = Raise ZeroDivisionError
        /\ user_data (snd (create_challenge u e total 0 w)) = touched (user_data w) u
        /\ forall u' k,
             lookup_challenge (user_data (snd (create_challenge u e total 0 w))) u' k
             = lookup_challenge (user_data w) u' k)
  /\ (forall u n ctx,
        n <= 0 ->
        (is_Some (challenge_step ctx) \/ adding_reps ctx = true) ->
        handle_message u (Some n) ctx w = (Ok (EnterPositive, ctx), w)).
Proof.
  intros Hc. repeat split.
  - apply (add_reps_existing _ _ _ _ _ Hc).
  - destruct (add_reps_existing w user_id challenge_id reps c Hc) as [_ ->].
    simpl. unfold added. cbv zeta.
    by destruct (total_reps c <=? current_reps c + reps).
  - intros u e total days Hok _.
    exists (ch_id (fresh_challenge e total days (clock w 0%nat) (clock w 1%nat)
                     (clock w 2%nat))).
    rewrite lookup_after_create, create_challenge_eq. cbv zeta. rewrite Hok. simpl.
    by rewrite bool_decide_eq_true_2.
  - rewrite create_challenge_eq.
    assert (Hv : valid_datetimeb (clock w 2%nat + 0 * us_per_day) = true).
    { unfold valid_datetimeb, valid_datetime in *. rewrite Z.add_0_r.
      apply andb_true_intro. split; apply Z.leb_le; lia. }
    unfold creatable. rewrite Hv. by rewrite andb_false_r.
  - rewrite create_challenge_eq. unfold creatable. by rewrite andb_false_r.
  - intros u' k. rewrite lookup_after_create. cbv zeta.
    unfold creatable. by rewrite andb_false_r.
  - intros u n ctx Hn Hstep. rewrite (handle_message_non_positive _ _ _ _ Hn).
    destruct Hstep as [[s Hs]| ->].
    + by rewrite Hs.
    + by destruct (challenge_step ctx).
Qed.

Lemma quantities_checked_by_handler_witness :
  let k := "PUSHUPS_20261103_100000" in
  let w := run_ops [CreateChallenge "42" PUSHUPS 100 30] (empty_world (frozen t_create)) in
  let c := fresh_challenge PUSHUPS 100 30 t_create t_create t_create in
  let user_id := "42" in
  lookup_challenge (user_data w) user_id k = Some c
  /\ (forall reps,
         fst (add_reps user_id k reps w) = Ok true
         /\ (current_reps <$> lookup_challenge
               (user_data (snd (add_reps user_id k reps w))) user_id k)
            = Some (current_reps c + reps))
  /\ (forall u e total days,
        creatable days (clock w 2%nat) = true ->
        float_quotient total days ->
        exists k,
          fst (create_challenge u e total days w) = Ok k
          /\ (total_reps <$> lookup_challenge
                (user_data (snd (create_challenge u e total days w))) u k) = Some total
          /\ (target_days <$> lookup_challenge
                (user_data (snd (create_challenge u e total days w))) u k) = Some days)
  /\ (forall u e total,
        valid_datetime (clock w 2%nat) ->
        fst (create_challenge u e total 0 w) = Raise ZeroDivisionError
        /\ user_data (snd (create_challenge u e total 0 w)) = touched (user_data w) u
        /\ forall u' k,
             lookup_challenge (user_data (snd (create_challenge u e total 0 w))) u' k
             = lookup_challenge (user_data w) u' k)
  /\ (forall u n ctx,
        n <= 0 ->
        (is_Some (challenge_step ctx) \/ adding_reps ctx = true) ->
        handle_message u (Some n) ctx w = (Ok (EnterPositive, ctx), w)).
Proof.
  intros k w c user_id.
  assert (H : lookup_challenge (user_data w) user_id k = Some c)
    by (vm_compute; reflexivity).
  split; [exact H|].
  exact (quantities_checked_by_handler w user_id k c H).
Defined.

(** ** C5: [add_reps] on an unknown challenge *)

(** C5, as stated, fails: for a user without a profile, [add_reps] returns
    [False] after [get_user_data] has inserted the default profile. *)
Lemma add_reps_unknown_user_inserts_profile :
  let w := empty_world (frozen t_create) in
  let r := add_reps "42" "PUSHUPS_20261103_100000" 10 w in
  lookup_challenge (user_data w) "42" "PUSHUPS_20261103_100000" = None
  /\ fst r = Ok false
  /\ user_data w !! "42" = None
  /\ user_data (snd r) !! "42" = Some default_profile
  /\ user_data (snd r) <> user_data w.
Proof.
  intros w r. repeat split; try reflexivity.
  intros H. assert (E : user_data (snd r) !! "42" = user_data w !! "42") by (by rewrite H).
  vm_compute in E. discriminate.
Qed.

(** C5, amended.  When [challenge_id] is not a challenge of [user_id],
    [add_reps] returns [False] and reads no clock; if the user has a profile
    the store is unchanged; if not, the store is the one before with the
    default profile (no challenge) inserted for [user_id]; in both cases no
    challenge is created or changed. *)
Theorem add_reps_unknown_challenge (w : World) (user_id challenge_id : string) (reps : Z) :
  lookup_challenge (user_data w) user_id challenge_id = None ->
  let r := add_reps user_id challenge_id reps w in
  fst r = Ok false
  /\ clock (snd r) = clock w
  /\ (is_Some (user_data w !! user_id) -> snd r = w)
  /\ (user_data w !! user_id = None ->
      user_data (snd r) = <[user_id := default_profile]> (user_data w))
  /\ forall u k, lookup_challenge (user_data (snd r)) u k
                 = lookup_challenge (user_data w) u k.
Proof.
  intros H r. unfold r. rewrite (add_reps_missing _ _ _ _ H). simpl.
  split; [done|].
  destruct (user_data w !! user_id) as [p|] eqn:Hp.
  - by repeat split.
  - repeat split; try done; try (by intros [? [=]]).
    intros u k. simpl.
    pose proof (lookup_challenge_touched (user_data w) user_id u k) as Ht.
    unfold touched in Ht. by rewrite Hp in Ht.
Qed.

Lemma add_reps_unknown_challenge_witness :
  let w := run_ops [CreateChallenge "42" PUSHUPS 100 30] (empty_world (frozen t_create)) in
  lookup_challenge (user_data w) "42" "SQUATS_20261103_100000" = None
  /\ let r := add_reps "42" "SQUATS_20261103_100000" 10 w in
     fst r = Ok false
     /\ clock (snd r) = clock w
     /\ (is_Some (user_data w !! "42") -> snd r = w)
     /\ (user_data w !! "42" = None ->
         user_data (snd r) = <["42" := default_profile]> (user_data w))
     /\ forall u k, lookup_challenge (user_data (snd r)) u k
                    = lookup_challenge (user_data w) u k.
Proof.
  intros w.
  assert (H : lookup_challenge (user_data w) "42" "SQUATS_20261103_100000" = None)
    by (vm_compute; reflexivity).
  split; [exact H|].
  exact (add_reps_unknown_challenge w "42" "SQUATS_20261103_100000" 10 H).
Defined.

(** ** C6: [create_challenge] *)

(** C6, as stated, fails: [days] may be any positive integer, but the
    target date must be a [datetime]: with 3,000,000 days from 2026 it is
    past the year 9999 and [create_challenge] raises [OverflowError], with
    no challenge inserted. *)
Lemma create_challenge_overflows :
  let w := empty_world (frozen t_create) in
  let r := create_challenge "42" PUSHUPS 1000 3000000 w in
  fst r = Raise OverflowError
  /\ (challenges <$> user_data (snd r) !! "42") = Some ∅.
Proof. vm_compute. split; reflexivity. Qed.

(** The quotient of the model is the real quotient, which the [float] of
    the code approaches. *)
Lemma fresh_daily_target_near e total days t0 t1 t2 :
  0 < total -> 0 < days ->
  (Qabs (daily_target (fresh_challenge e total days t0 t1 t2)
         - inject_Z total / inject_Z days)
   <= inject_Z total / inject_Z days * (1 # 2 ^ 53))%Q.
Proof.
  intros Ht Hd. unfold fresh_challenge. cbn [daily_target].
  set (q := (inject_Z total / inject_Z days)%Q).
  assert (Hq : (0 <= q)%Q).
  { subst q. apply Qle_shift_div_l.
    - unfold Qlt, inject_Z. simpl. lia.
    - rewrite Qmult_0_l. unfold Qle, inject_Z. simpl. lia. }
  setoid_replace (q - q)%Q with 0%Q using relation Qeq by ring.
  change (Qabs 0) with 0%Q.
  by apply Qmult_le_0_compat.
Qed.

(** C6, amended.  For [total_reps > 0] and [days > 0] such that the
    instant read for the target date plus [days] days is not after
    [datetime.max] and [total_reps / days] is within the range of a
    [float], [create_challenge] returns an id under which the store
    holds the new challenge: Active, no reps, no daily record, no completion
    date, [start_date] the instant read for it, [target_date] the instant
    read for it plus [days] days, [daily_target] the quotient
    [total_reps / days] as a [float] holds it, which is within a relative
    error of [2^-53] of the real quotient, for a quotient within the range of
    a [float]; at a clock that stands still at [t] these are [t] and [t]
    plus [days] days. *)
Theorem create_challenge_inserts (w : World) (user_id : string)
    (e : ExerciseType) (total days : Z) :
  0 < total -> 0 < days ->
  float_quotient total days ->
  0 <= clock w 2%nat ->
  clock w 2%nat + days * us_per_day <= datetime_max ->
  let r := create_challenge user_id e total days w in
  exists challenge_id c,
    fst r = Ok challenge_id
    /\ lookup_challenge (user_data (snd r)) user_id challenge_id = Some c
    /\ challenge_id = exercise_name e +:+ "_" +:+ strftime_stamp (clock w 0%nat)
    /\ ch_id c = challenge_id
    /\ exercise c = exercise_value e
    /\ total_reps c = total /\ target_days c = days
    /\ status c = ACTIVE /\ current_reps c = 0
    /\ daily_records c = ∅ /\ completion_date c = None
    /\ start_date c = clock w 1%nat
    /\ target_date c = clock w 2%nat + days * us_per_day
    /\ (Qabs (daily_target c - inject_Z total / inject_Z days)
         <= inject_Z total / inject_Z days * (1 # 2 ^ 53))%Q
    /\ (forall t, clock w = frozen t ->
          start_date c = t /\ target_date c = t + days * us_per_day).
Proof.
  intros Htotal Hdays _ Hmin Hmax r.
  pose proof (creatable_in_range days _ Hdays Hmin Hmax) as Hc.
  set (c := fresh_challenge e total days (clock w 0%nat) (clock w 1%nat) (clock w 2%nat)).
  exists (ch_id c), c.
  split; [unfold r; by rewrite create_challenge_eq, Hc|].
  split.
  { unfold r. rewrite lookup_after_create. cbv zeta. rewrite Hc. simpl.
    by rewrite bool_decide_eq_true_2. }
  repeat split; try reflexivity.
  - by apply fresh_daily_target_near.
  - simpl. by rewrite H.
  - simpl. by rewrite H.
Qed.

Lemma create_challenge_inserts_witness :
  let w := empty_world (ticking t_create 1) in
  let user_id := "42" in
  let e := PUSHUPS in
  let total := 100 in
  let days := 30 in
  0 < total /\ 0 < days
  /\ float_quotient total days
  /\ 0 <= clock w 2%nat
  /\ clock w 2%nat + days * us_per_day <= datetime_max
  /\ let r := create_challenge user_id e total days w in
     exists challenge_id c,
       fst r = Ok challenge_id
       /\ lookup_challenge (user_data (snd r)) user_id challenge_id = Some c
       /\ challenge_id = exercise_name e +:+ "_" +:+ strftime_stamp (clock w 0%nat)
       /\ ch_id c = challenge_id
       /\ exercise c = exercise_value e
       /\ total_reps c = total /\ target_days c = days
       /\ status c = ACTIVE /\ current_reps c = 0
       /\ daily_records c = ∅ /\ completion_date c = None
       /\ start_date c = clock w 1%nat
       /\ target_date c = clock w 2%nat + days * us_per_day
       /\ (Qabs (daily_target c - inject_Z total / inject_Z days)
            <= inject_Z total / inject_Z days * (1 # 2 ^ 53))%Q
       /\ (forall t, clock w = frozen t ->
             start_date c = t /\ target_date c = t + days * us_per_day).
Proof.
  intros w user_id e total days.
  assert (H1 : 0 < total) by (vm_compute; reflexivity).
  assert (H2 : 0 < days) by (vm_compute; reflexivity).
  assert (Hq : float_quotient total days) by (vm_compute; discriminate).
  assert (H3 : 0 <= clock w 2%nat) by (vm_compute; discriminate).
  assert (H4 : clock w 2%nat + days * us_per_day <= datetime_max)
    by (vm_compute; discriminate).
  repeat (split; [assumption|]).
  exact (create_challenge_inserts w user_id e total days H1 H2 Hq H3 H4).
Defined.

(** ** C7: the reminder decisions *)

(** The example of the specification: a daily target of 20; nothing logged
    today is "not started", 5 is "partial" with 15 remaining, 25 is "goal
    met". *)
Example reminder_classification :
  let k := "PUSHUPS_20261103_100000" in
  let w0 := run_ops [CreateChallenge "42" PUSHUPS 600 30] (empty_world (frozen t_create)) in
  let send w := fst (send_daily_reminders (fun _ => Some 42) w) in
  send w0 = Ok [(42, [NotStarted "push-ups" 20])]
  /\ send (run_op (AddReps "42" k 5) w0) = Ok [(42, [Partial "push-ups" 15])]
  /\ send (run_op (AddReps "42" k 25) w0) = Ok [(42, [GoalMet "push-ups"])].
Proof. vm_compute. repeat split. Qed.

(** C7: the input on which the code does not do what the claim says.  One
    repetition was logged on 2026-11-03 on a challenge of 100,000 in 365
    days; the reminders run on 2026-12-04 at 09:00.  The reminders are on
    and the challenge is Active with nothing logged today, so the claim asks
    for one "not started" line carrying 274.  [get_active_challenges]
    computes the forecast of the challenge, 3,099,969 days ahead, and raises
    [OverflowError]; the call is made before the [try] of the loop body, so
    [send_daily_reminders] raises and sends nothing. *)
Theorem reminders_raise_on_far_forecast :
  let k := "PUSHUPS_20261103_100000" in
  let w := at_clock (ticking (at_ordinal (739923 + 31) 9 0 0) 1000)
             (run_ops [CreateChallenge "42" PUSHUPS 100000 365; AddReps "42" k 1]
                (empty_world (ticking t_create 1000))) in
  (reminders_enabled <$> user_data w !! "42") = Some (Some true)
  /\ (status <$> lookup_challenge (user_data w) "42" k) = Some ACTIVE
  /\ (reminder_line (strftime_date (clock w 0%nat))
        <$> lookup_challenge (user_data w) "42" k)
     = Some (NotStarted "push-ups" 274)
  /\ fst (get_active_challenges "42" w) = Raise OverflowError
  /\ fst (send_daily_reminders (fun _ => Some 42) w) = Raise OverflowError.
Proof. vm_compute. repeat split. Qed.

(** ** C8: purity of the reads *)

(** C8, as stated, fails: for a user without a profile,
    [get_active_challenges] and [get_challenge_progress] insert the default
    profile in the store. *)
Lemma reads_insert_missing_profile :
  let w := empty_world (frozen t_create) in
  fst (get_active_challenges "42" w) = Ok []
  /\ user_data (snd (get_active_challenges "42" w)) !! "42" = Some default_profile
  /\ fst (get_challenge_progress "42" "PUSHUPS_20261103_100000" w) = Ok None
  /\ user_data (snd (get_challenge_progress "42" "PUSHUPS_20261103_100000" w)) !! "42"
     = Some default_profile
  /\ user_data w !! "42" = None
  /\ user_data (snd (get_active_challenges "42" w)) <> user_data w.
Proof.
  intros w. repeat split; try reflexivity.
  intros H.
  assert (E : user_data (snd (get_active_challenges "42" w)) !! "42" = user_data w !! "42")
    by (by rewrite H).
  vm_compute in E. discriminate.
Qed.

(** C8, amended.  For a user who has a profile, [get_challenge_progress],
    [get_active_challenges] and [send_daily_reminders] leave the store as it
    is, also when they raise; the snapshot of an existing challenge is a
    function of the challenge and of the instants read, whatever the rest of
    the store; and at a clock that stands still the three reads leave the
    whole world as it is, so that evaluating them again gives the same
    result.  For a user without a profile, [get_challenge_progress] and
    [get_active_challenges] insert the default profile and change nothing
    else. *)
Theorem reads_do_not_mutate (w : World) (user_id : string) :
  is_Some (user_data w !! user_id) ->
  (forall k, user_data (snd (get_challenge_progress user_id k w)) = user_data w)
  /\ user_data (snd (get_active_challenges user_id w)) = user_data w
  /\ (forall int_of_str,
        user_data (snd (send_daily_reminders int_of_str w)) = user_data w)
  /\ (forall k c w2 u2 k2,
        lookup_challenge (user_data w) user_id k = Some c ->
        lookup_challenge (user_data w2) u2 k2 = Some c ->
        (forall n, (n < 3)%nat -> clock w2 n = clock w n) ->
        fst (get_challenge_progress u2 k2 w2) = fst (get_challenge_progress user_id k w))
  /\ (forall t, clock w = frozen t ->
        (forall k, let r := get_challenge_progress user_id k w in
                   snd r = w /\ get_challenge_progress user_id k (snd r) = r)
        /\ (let r := get_active_challenges user_id w in
            snd r = w /\ get_active_challenges user_id (snd r) = r)
        /\ (forall int_of_str,
              let r := send_daily_reminders int_of_str w in
              snd r = w /\ send_daily_reminders int_of_str (snd r) = r))
  /\ (forall u, user_data w !! u = None ->
        (forall k, user_data (snd (get_challenge_progress u k w))
                   = <[u := default_profile]> (user_data w))
        /\ user_data (snd (get_active_challenges u w))
           = <[u := default_profile]> (user_data w)).
Proof.
  intros Hu. repeat split.
  - intros k. rewrite get_challenge_progress_store. by apply touched_known.
  - rewrite get_active_challenges_store. by apply touched_known.
  - intros f. apply send_daily_reminders_store.
  - intros k c w2 u2 k2 H1 H2 Hclk.
    destruct (lookup_challenge_inv _ _ _ _ H1) as (p1 & Hp1 & Hc1).
    destruct (lookup_challenge_inv _ _ _ _ H2) as (p2 & Hp2 & Hc2).
    rewrite (get_challenge_progress_found _ _ _ _ _ Hp1 Hc1).
    rewrite (get_challenge_progress_found _ _ _ _ _ Hp2 Hc2). simpl.
    rewrite !Hclk by lia. reflexivity.
  - by apply (get_challenge_progress_frozen _ _ _ t).
  - rewrite (get_challenge_progress_frozen _ _ _ t) by done.
    by destruct (get_challenge_progress user_id k w).
  - by apply (get_active_challenges_frozen _ _ t).
  - rewrite (get_active_challenges_frozen _ _ t) by done.
    by destruct (get_active_challenges user_id w).
  - by apply (send_daily_reminders_frozen _ _ t).
  - rewrite (send_daily_reminders_frozen _ _ t) by done.
    by destruct (send_daily_reminders int_of_str w).
  - intros k. rewrite get_challenge_progress_store. unfold touched. by rewrite H.
  - rewrite get_active_challenges_store. unfold touched. by rewrite H.
Qed.

Lemma reads_do_not_mutate_witness :
  let w := run_ops [CreateChallenge "42" PUSHUPS 100 30] (empty_world (frozen t_create)) in
  let user_id := "42" in
  is_Some (user_data w !! user_id)
  /\ (forall k, user_data (snd (get_challenge_progress user_id k w)) = user_data w)
  /\ user_data (snd (get_active_challenges user_id w)) = user_data w
  /\ (forall int_of_str,
        user_data (snd (send_daily_reminders int_of_str w)) = user_data w)
  /\ (forall k c w2 u2 k2,
        lookup_challenge (user_data w) user_id k = Some c ->
        lookup_challenge (user_data w2) u2 k2 = Some c ->
        (forall n, (n < 3)%nat -> clock w2 n = clock w n) ->
        fst (get_challenge_progress u2 k2 w2) = fst (get_challenge_progress user_id k w))
  /\ (forall t, clock w = frozen t ->
        (forall k, let r := get_challenge_progress user_id k w in
                   snd r = w /\ get_challenge_progress user_id k (snd r) = r)
        /\ (let r := get_active_challenges user_id w in
            snd r = w /\ get_active_challenges user_id (snd r) = r)
        /\ (forall int_of_str,
              let r := send_daily_reminders int_of_str w in
              snd r = w /\ send_daily_reminders int_of_str (snd r) = r))
  /\ (forall u, user_data w !! u = None ->
        (forall k, user_data (snd (get_challenge_progress u k w))
                   = <[u := default_profile]> (user_data w))
        /\ user_data (snd (get_active_challenges u w))
           = <[u := default_profile]> (user_data w)).
Proof.
  intros w user_id.
  assert (H : is_Some (user_data w !! user_id)) by (vm_compute; eauto).
  split; [exact H|].
  exact (reads_do_not_mutate w user_id H).
Defined.

(** ** C9: who writes [completion_date] *)

(** C9, as stated, fails: an [add_reps] on a challenge that is already
    Completed overwrites [completion_date]; and a [create_challenge] for the
    same exercise within the same second returns the same id and replaces
    the completed challenge by a fresh one. *)
Lemma completion_date_is_overwritten :
  let k := "PUSHUPS_20261103_100000" in
  let ops := [CreateChallenge "42" PUSHUPS 100 30; AddReps "42" k 100] in
  let w := run_ops ops (empty_world (ticking t_create us_per_second)) in
  let w' := snd (add_reps "42" k 5 w) in
  let v := run_ops ops (empty_world (ticking t_create 1000)) in
  let v' := snd (create_challenge "42" PUSHUPS 20 10 v) in
  (status <$> lookup_challenge (user_data w) "42" k) = Some COMPLETED
  /\ (completion_date <$> lookup_challenge (user_data w) "42" k)
     = Some (Some (t_create + 4 * us_per_second))
  /\ (status <$> lookup_challenge (user_data w') "42" k) = Some COMPLETED
  /\ (completion_date <$> lookup_challenge (user_data w') "42" k)
     = Some (Some (t_create + 6 * us_per_second))
  /\ (completion_date <$> lookup_challenge (user_data v) "42" k)
     = Some (Some (t_create + 4 * 1000))
  /\ fst (create_challenge "42" PUSHUPS 20 10 v) = Ok k
  /\ (completion_date <$> lookup_challenge (user_data v') "42" k) = Some None.
Proof. vm_compute. repeat split. Qed.

(** C9, amended.  [add_reps] writes [completion_date] exactly when it
    leaves [current_reps >= total_reps]: in the call that takes the status
    from Active to Completed and in every later call on the completed
    challenge, each time with the instant read in that call; an [add_reps]
    that leaves [current_reps < total_reps] keeps it.  [add_reps] changes no
    other challenge; [create_challenge] changes no challenge but the one
    stored under the id it returns; [get_challenge_progress],
    [get_active_challenges] and [send_daily_reminders] change none. *)
Theorem completion_date_written_by_add_reps (w : World)
    (user_id challenge_id : string) (reps : Z) (c : Challenge) :
  lookup_challenge (user_data w) user_id challenge_id = Some c ->
  let w' := snd (add_reps user_id challenge_id reps w) in
  (exists c',
      lookup_challenge (user_data w') user_id challenge_id = Some c'
      /\ completion_date c'
         = if total_reps c <=? current_reps c + reps
           then Some (clock w 1%nat) else completion_date c)
  /\ (forall u k, ~ (u = user_id /\ k = challenge_id) ->
        lookup_challenge (user_data w') u k = lookup_challenge (user_data w) u k)
  /\ (forall u e total d u' k,
        ~ (u' = u /\ fst (create_challenge u e total d w) = Ok k) ->
        lookup_challenge (user_data (snd (create_challenge u e total d w))) u' k
        = lookup_challenge (user_data w) u' k)
  /\ (forall u k u' k',
        lookup_challenge (user_data (snd (get_challenge_progress u k w))) u' k'
        = lookup_challenge (user_data w) u' k')
  /\ (forall u u' k',
        lookup_challenge (user_data (snd (get_active_challenges u w))) u' k'
        = lookup_challenge (user_data w) u' k')
  /\ (forall int_of_str,
        user_data (snd (send_daily_reminders int_of_str w)) = user_data w).
Proof.
  intros Hc w'. repeat split.
  - exists (added reps (clock w 0%nat) (clock w 1%nat) c). split.
    + apply add_reps_existing, Hc.
    + unfold added. cbv zeta.
      by destruct (total_reps c <=? current_reps c + reps).
  - intros u k Hne. unfold w'. rewrite lookup_after_add_reps, Hc.
    by rewrite decide_False.
  - intros u e total d u' k Hne. rewrite lookup_after_create. cbv zeta.
    destruct (creatable d (clock w 2%nat)) eqn:E; simpl; [|done].
    rewrite bool_decide_eq_false_2; [done|].
    intros [-> ->]. apply Hne. split; [done|].
    rewrite create_challenge_eq, E. reflexivity.
  - intros u k u' k'. rewrite get_challenge_progress_store.
    apply lookup_challenge_touched.
  - intros u u' k'. rewrite get_active_challenges_store.
    apply lookup_challenge_touched.
  - intros f. apply send_daily_reminders_store.
Qed.

Lemma completion_date_written_by_add_reps_witness :
  let k := "PUSHUPS_20261103_100000" in
  let w := run_ops [CreateChallenge "42" PUSHUPS 100 30; AddReps "42" k 100]
             (empty_world (ticking t_create us_per_second)) in
  let c := added 100 (t_create + 3 * us_per_second) (t_create + 4 * us_per_second)
             (fresh_challenge PUSHUPS 100 30 t_create
                (t_create + us_per_second) (t_create + 2 * us_per_second)) in
  lookup_challenge (user_data w) "42" k = Some c
  /\ let w' := snd (add_reps "42" k 5 w) in
     (exists c',
         lookup_challenge (user_data w') "42" k = Some c'
         /\ completion_date c'
            = if total_reps c <=? current_reps c + 5
              then Some (clock w 1%nat) else completion_date c)
     /\ (forall u k', ~ (u = "42" /\ k' = k) ->
           lookup_challenge (user_data w') u k' = lookup_challenge (user_data w) u k')
     /\ (forall u e total d u' k',
           ~ (u' = u /\ fst (create_challenge u e total d w) = Ok k') ->
           lookup_challenge (user_data (snd (create_challenge u e total d w))) u' k'
           = lookup_challenge (user_data w) u' k')
     /\ (forall u k0 u' k',
           lookup_challenge (user_data (snd (get_challenge_progress u k0 w))) u' k'
           = lookup_challenge (user_data w) u' k')
     /\ (forall u u' k',
           lookup_challenge (user_data (snd (get_active_challenges u w))) u' k'
           = lookup_challenge (user_data w) u' k')
     /\ (forall int_of_str,
           user_data (snd (send_daily_reminders int_of_str w)) = user_data w).
Proof.
  intros k w c.
  assert (H : lookup_challenge (user_data w) "42" k = Some c)
    by (vm_compute; reflexivity).
  split; [exact H|].
  exact (completion_date_written_by_add_reps w "42" k 5 c H).
Defined.

(** ** C10: the frame of [add_reps] *)

(** C10.  A successful [add_reps] changes, in the whole store, only the
    targeted challenge, and in it only [current_reps], the entry of
    [daily_records] for today, [status] and [completion_date]. *)
Theorem add_reps_frame (w w' : World) (user_id challenge_id : string) (reps : Z) :
  add_reps user_id challenge_id reps w = (Ok true, w') ->
  exists p c p' c',
    user_data w !! user_id = Some p
    /\ challenges p !! challenge_id = Some c
    /\ user_data w' !! user_id = Some p'
    /\ challenges p' !! challenge_id = Some c'
    /\ (ch_id c' = ch_id c /\ exercise c' = exercise c
        /\ total_reps c' = total_reps c /\ target_days c' = target_days c
        /\ start_date c' = start_date c /\ target_date c' = target_date c
        /\ daily_target c' = daily_target c)
    /\ (forall d, d <> strftime_date (clock w 0%nat) ->
                  daily_records c' !! d = daily_records c !! d)
    /\ (forall k, k <> challenge_id -> challenges p' !! k = challenges p !! k)
    /\ (timezone p' = timezone p /\ reminder_times p' = reminder_times p
        /\ reminders_enabled p' = reminders_enabled p)
    /\ (forall u, u <> user_id -> user_data w' !! u = user_data w !! u).
Proof.
  intros H.
  destruct (lookup_challenge (user_data w) user_id challenge_id) as [c|] eqn:E.
  - destruct (lookup_challenge_inv _ _ _ _ E) as (p & Hp & Hc).
    rewrite (add_reps_found _ _ _ _ _ _ Hp Hc) in H. cbv zeta in H.
    set (c1 := logged (strftime_date (clock w 0%nat)) reps c) in *.
    assert (Hrec : forall d, d <> strftime_date (clock w 0%nat) ->
                             daily_records c1 !! d = daily_records c !! d).
    { intros d Hd. unfold c1, logged. simpl. by rewrite lookup_insert_ne. }
    destruct (total_reps c <=? current_reps c + reps);
      injection H as <-; simpl;
      eexists p, c, _, _;
      (split; [exact Hp|]); (split; [exact Hc|]);
      (split; [apply lookup_insert_eq|]); (split; [simpl; apply lookup_insert_eq|]);
      (split; [by repeat split|]); (split; [exact Hrec|]);
      (split; [by intros k Hk; simpl; rewrite lookup_insert_ne|]);
      (split; [by repeat split|]);
      by intros u Hu; rewrite lookup_insert_ne.
  - rewrite (add_reps_missing _ _ _ _ E) in H. discriminate.
Qed.

Lemma add_reps_frame_witness :
  let w := run_ops [CreateChallenge "42" PUSHUPS 100 30] (empty_world (frozen t_create)) in
  let user_id := "42" in
  let challenge_id := "PUSHUPS_20261103_100000" in
  let w' := snd (add_reps user_id challenge_id 40 w) in
  add_reps user_id challenge_id 40 w = (Ok true, w')
  /\ exists p c p' c',
       user_data w !! user_id = Some p
       /\ challenges p !! challenge_id = Some c
       /\ user_data w' !! user_id = Some p'
       /\ challenges p' !! challenge_id = Some c'
       /\ (ch_id c' = ch_id c /\ exercise c' = exercise c
           /\ total_reps c' = total_reps c /\ target_days c' = target_days c
           /\ start_date c' = start_date c /\ target_date c' = target_date c
           /\ daily_target c' = daily_target c)
       /\ (forall d, d <> strftime_date (clock w 0%nat) ->
                     daily_records c' !! d = daily_records c !! d)
       /\ (forall k, k <> challenge_id -> challenges p' !! k = challenges p !! k)
       /\ (timezone p' = timezone p /\ reminder_times p' = reminder_times p
           /\ reminders_enabled p' = reminders_enabled p)
       /\ (forall u, u <> user_id -> user_data w' !! u = user_data w !! u).
Proof.
  intros w user_id challenge_id w'.
  assert (H : add_reps user_id challenge_id 40 w = (Ok true, w')).
  { apply injective_projections; [|reflexivity].
    exact (proj1 (add_reps_existing w user_id challenge_id 40
            (fresh_challenge PUSHUPS 100 30 t_create t_create t_create)
            ltac:(vm_compute; reflexivity))). }
  split; [exact H|].
  exact (add_reps_frame w w' user_id challenge_id 40 H).
Defined.

(** * Further properties of the engine *)

(** ** What [get_active_challenges] returns *)

Lemma status_eqb_eq a b : status_eqb a b = true <-> a = b.
Proof. destruct a, b; simpl; split; intros H; try done. Qed.

(** The challenges of the list that [get_active_challenges] returns. *)
Lemma get_active_challenges_listed w w' user_id l :
  get_active_challenges user_id w = (Ok l, w') ->
  let cs := challenges (profile_of (user_data w) user_id) in
  map challenge l = map snd (List.filter is_active (map_to_list cs))
  /\ (forall c, In c (map challenge l) <->
                exists k, cs !! k = Some c /\ status c = ACTIVE).
Proof.
  intros H cs.
  assert (Hmap : map challenge l = map snd (List.filter is_active (map_to_list cs))).
  { unfold get_active_challenges, bind in H. rewrite get_user_data_eq in H.
    apply (active_loop_challenges _ (profile_of (user_data w) user_id)) in H.
    - exact H.
    - simpl. apply touched_lookup.
    - apply Forall_forall. intros [k c] Hin. by apply elem_of_map_to_list in Hin. }
  split; [exact Hmap|].
  intros c. rewrite Hmap, in_map_iff. split.
  - intros ([k c0] & <- & Hin). apply filter_In in Hin as [Hin Hact].
    exists k. split.
    + apply elem_of_map_to_list. by apply list_elem_of_In.
    + by apply status_eqb_eq.
  - intros (k & Hk & Hact). exists (k, c). split; [done|].
    apply filter_In. split.
    + apply list_elem_of_In. by apply elem_of_map_to_list.
    + unfold is_active. simpl. by apply status_eqb_eq.
Qed.

(** X1.  When [get_active_challenges] returns, its list holds exactly one
    progress for each Active challenge of the user, carrying that
    challenge, and none for a challenge in another status: the challenges of
    the list are, up to the order, the Active values of the user's
    challenges.  For a user without a profile the list is empty. *)
Theorem get_active_challenges_active_only (w w' : World) (user_id : string)
    (l : list Progress) :
  get_active_challenges user_id w = (Ok l, w') ->
  let cs := challenges (profile_of (user_data w) user_id) in
  Permutation (map challenge l)
    (map snd (List.filter is_active (map_to_list cs)))
  /\ (forall c, In c (map challenge l) <->
                exists k, cs !! k = Some c /\ status c = ACTIVE)
  /\ (user_data w !! user_id = None -> l = []).
Proof.
  intros H cs.
  destruct (get_active_challenges_listed w w' user_id l H) as [Hmap Hin].
  split; [by rewrite Hmap|]. split; [exact Hin|].
  intros Hnone. fold cs in Hmap. subst cs.
  unfold profile_of in Hmap. rewrite Hnone in Hmap.
  simpl in Hmap. rewrite map_to_list_empty in Hmap. simpl in Hmap.
  by destruct l.
Qed.

Lemma get_active_challenges_active_only_witness :
  let k := "PUSHUPS_20261103_100000" in
  let w := run_ops [CreateChallenge "42" PUSHUPS 100 30; AddReps "42" k 100;
                    CreateChallenge "42" SQUATS 50 10]
             (empty_world (ticking t_create us_per_second)) in
  let r := get_active_challenges "42" w in
  exists l,
    r = (Ok l, snd r)
    /\ let cs := challenges (profile_of (user_data w) "42") in
       Permutation (map challenge l)
         (map snd (List.filter is_active (map_to_list cs)))
       /\ (forall c, In c (map challenge l) <->
                     exists k, cs !! k = Some c /\ status c = ACTIVE)
       /\ (user_data w !! "42" = None -> l = []).
Proof.
  intros k w r.
  destruct (fst r) as [l|e] eqn:E; [|vm_compute in E; discriminate].
  exists l.
  assert (H : r = (Ok l, snd r)) by (rewrite <- E; by destruct r).
  split; [exact H|].
  exact (get_active_challenges_active_only w (snd r) "42" l H).
Defined.

(** ** [add_reps] and the status *)

(** X2.  [add_reps] does not look at the status.  On a challenge in any
    status it adds the reps to [current_reps] and to today's record (created
    at [0] when absent); it sets the status to Completed when the new total
    reaches the target, also from Paused or Failed, and keeps the status
    otherwise: a Completed challenge stays Completed, whatever is added. *)
Theorem add_reps_ignores_status (w : World) (user_id challenge_id : string)
    (reps : Z) (c : Challenge) :
  lookup_challenge (user_data w) user_id challenge_id = Some c ->
  exists c',
    lookup_challenge (user_data (snd (add_reps user_id challenge_id reps w)))
      user_id challenge_id = Some c'
    /\ current_reps c' = current_reps c + reps
    /\ daily_records c' !! strftime_date (clock w 0%nat)
       = Some (default 0 (daily_records c !! strftime_date (clock w 0%nat)) + reps)
    /\ (total_reps c <= current_reps c + reps -> status c' = COMPLETED)
    /\ (current_reps c + reps < total_reps c -> status c' = status c)
    /\ (status c = COMPLETED -> status c' = COMPLETED).
Proof.
  intros Hc.
  destruct (add_reps_existing w user_id challenge_id reps c Hc) as [_ Hl].
  eexists. split; [exact Hl|].
  unfold added. cbv zeta.
  destruct (total_reps c <=? current_reps c + reps) eqn:E; simpl.
  - apply Z.leb_le in E. rewrite lookup_insert_eq. repeat split; try done. lia.
  - apply Z.leb_gt in E. rewrite lookup_insert_eq. repeat split; try done. lia.
Qed.

Lemma add_reps_ignores_status_witness :
  let k := "PUSHUPS_20261103_100000" in
  let w := run_ops [CreateChallenge "42" PUSHUPS 100 30; AddReps "42" k 100]
             (empty_world (frozen t_create)) in
  let c := added 100 t_create t_create
             (fresh_challenge PUSHUPS 100 30 t_create t_create t_create) in
  let reps := -60 in
  lookup_challenge (user_data w) "42" k = Some c
  /\ exists c',
       lookup_challenge (user_data (snd (add_reps "42" k reps w))) "42" k = Some c'
       /\ current_reps c' = current_reps c + reps
       /\ daily_records c' !! strftime_date (clock w 0%nat)
          = Some (default 0 (daily_records c !! strftime_date (clock w 0%nat)) + reps)
       /\ (total_reps c <= current_reps c + reps -> status c' = COMPLETED)
       /\ (current_reps c + reps < total_reps c -> status c' = status c)
       /\ (status c = COMPLETED -> status c' = COMPLETED).
Proof.
  intros k w c reps.
  assert (H : lookup_challenge (user_data w) "42" k = Some c)
    by (vm_compute; reflexivity).
  split; [exact H|].
  exact (add_reps_ignores_status w "42" k reps c H).
Defined.

(** ** The ids of [create_challenge] *)

Lemma string_length_app (a b : string) :
  String.length (a +:+ b) = (String.length a + String.length b)%nat.
Proof.
  induction a as [|x a IH]; [done|].
  change (S (String.length (a +:+ b)) = S (String.length a + String.length b)).
  by rewrite IH.
Qed.

Lemma string_app_inj_r (a b c d : string) :
  (a +:+ b = c +:+ d) -> String.length b = String.length d -> a = c /\ b = d.
Proof.
  revert c. induction a as [|x a IH]; intros [|y c] H Hlen.
  - done.
  - change (b = String y (c +:+ d)) in H. subst b.
    change (S (String.length (c +:+ d)) = String.length d) in Hlen.
    rewrite string_length_app in Hlen. lia.
  - change (String x (a +:+ b) = d) in H. subst d.
    change (String.length b = S (String.length (a +:+ b))) in Hlen.
    rewrite string_length_app in Hlen. lia.
  - change (String x (a +:+ b) = String y (c +:+ d)) in H.
    injection H as -> H. destruct (IH c H Hlen) as [-> ->]. done.
Qed.

Lemma strftime_stamp_length t : String.length (strftime_stamp t) = 15%nat.
Proof. unfold strftime_stamp. by destruct (ymd t) as [[y m] d]. Qed.

Lemma exercise_name_inj e1 e2 : exercise_name e1 = exercise_name e2 -> e1 = e2.
Proof. by destruct e1, e2. Qed.

Lemma challenge_id_inj e1 e2 t1 t2 :
  exercise_name e1 +:+ "_" +:+ strftime_stamp t1
  = exercise_name e2 +:+ "_" +:+ strftime_stamp t2 ->
  e1 = e2 /\ strftime_stamp t1 = strftime_stamp t2.
Proof.
  intros H.
  apply string_app_inj_r in H as [He Hs].
  - split; [by apply exercise_name_inj|].
    change (String "_" (strftime_stamp t1) = String "_" (strftime_stamp t2)) in Hs.
    by injection Hs.
  - by rewrite !string_length_app, !strftime_stamp_length.
Qed.


(** X3.  Challenges of different exercises never share an id: whatever the
    clock, a [create_challenge] for another exercise leaves in place the
    challenge stored under an id that [create_challenge] returned earlier. *)
Theorem create_challenge_other_exercise (w w1 w' : World) (user_id : string)
    (e1 e2 : ExerciseType) (total1 days1 total2 days2 : Z) (k1 : string) :
  create_challenge user_id e1 total1 days1 w = (Ok k1, w1) ->
  e2 <> e1 ->
  fst (create_challenge user_id e2 total2 days2 w') <> Ok k1
  /\ lookup_challenge
       (user_data (snd (create_challenge user_id e2 total2 days2 w'))) user_id k1
     = lookup_challenge (user_data w') user_id k1.
Proof.
  intros H1 Hne.
  rewrite create_challenge_eq in H1. cbv zeta in H1.
  destruct (creatable days1 (clock w 2%nat)); [|discriminate].
  injection H1 as <- _. simpl.
  assert (Hid : forall t, exercise_name e2 +:+ "_" +:+ strftime_stamp t
                          <> exercise_name e1 +:+ "_" +:+ strftime_stamp (clock w 0%nat)).
  { intros t H. apply challenge_id_inj in H as [? _]. done. }
  split.
  - rewrite create_challenge_eq. cbv zeta.
    destruct (creatable days2 (clock w' 2%nat)); simpl; [|done].
    intros [= H]. by apply Hid in H.
  - rewrite lookup_after_create. cbv zeta. simpl.
    rewrite bool_decide_eq_false_2; [by rewrite andb_false_r|].
    intros [_ H]. symmetry in H. by apply Hid in H.
Qed.

Lemma create_challenge_other_exercise_witness :
  let w := empty_world (frozen t_create) in
  let r := create_challenge "42" PUSHUPS 100 30 w in
  let k1 := "PUSHUPS_20261103_100000" in
  let w' := snd (add_reps "42" k1 40 (snd r)) in
  r = (Ok k1, snd r)
  /\ SQUATS <> PUSHUPS
  /\ fst (create_challenge "42" SQUATS 50 10 w') <> Ok k1
  /\ lookup_challenge
       (user_data (snd (create_challenge "42" SQUATS 50 10 w'))) "42" k1
     = lookup_challenge (user_data w') "42" k1.
Proof.
  intros w r k1 w'.
  assert (H1 : r = (Ok k1, snd r)).
  { apply injective_projections; [vm_compute; reflexivity|reflexivity]. }
  assert (H2 : SQUATS <> PUSHUPS) by discriminate.
  split; [exact H1|]. split; [exact H2|].
  exact (create_challenge_other_exercise w (snd r) w' "42" PUSHUPS SQUATS
           100 30 50 10 k1 H1 H2).
Defined.



(** ** Rounding *)


Lemma round_half_even_ge_int q n :
  (inject_Z n <= q)%Q -> n <= round_half_even q.
Proof.
  destruct q as [a d]. unfold round_half_even, Qle, inject_Z. cbn [Qnum Qden].
  intros H.
  pose proof (Z.div_mod a (Z.pos d) ltac:(lia)) as E.
  pose proof (Z.mod_pos_bound a (Z.pos d) ltac:(lia)) as B.
  set (f := a / Z.pos d) in *. set (r := a mod Z.pos d) in *.
  destruct (Z.compare_spec (2 * r) (Z.pos d)); [destruct (Z.even f)| |]; nia.
Qed.

Lemma round_half_even_mono q q' :
  (q <= q')%Q -> round_half_even q <= round_half_even q'.
Proof.
  destruct q as [a d], q' as [a' d']. unfold round_half_even, Qle. cbn [Qnum Qden].
  intros H.
  pose proof (Z.div_mod a (Z.pos d) ltac:(lia)) as E.
  pose proof (Z.mod_pos_bound a (Z.pos d) ltac:(lia)) as B.
  pose proof (Z.div_mod a' (Z.pos d') ltac:(lia)) as E'.
  pose proof (Z.mod_pos_bound a' (Z.pos d') ltac:(lia)) as B'.
  set (f := a / Z.pos d) in *. set (r := a mod Z.pos d) in *.
  set (f' := a' / Z.pos d') in *. set (r' := a' mod Z.pos d') in *.
  clearbody f r f' r'.
  assert (Hd : 0 < Z.pos d) by lia. assert (Hd' : 0 < Z.pos d') by lia.
  generalize dependent (Z.pos d). generalize dependent (Z.pos d').
  intros D' E' B' HD' D H E B HD.
  subst a a'.
  assert (Hf : f <= f').
  { destruct (Z_le_gt_dec f f') as [|Hgt]; [done|]. exfalso.
    assert (H1 : (f' + 1) * (D * D') <= f * (D * D')) by nia.
    assert (H2 : r' * D < D' * D) by nia.
    assert (H3 : 0 <= r * D') by nia.
    nia. }
  destruct (Z.eq_dec f f') as [Heq|Hne].
  - subst f'.
    assert (Hr : r * D' <= r' * D) by nia.
    destruct (Z.compare_spec (2 * r) D);
      destruct (Z.compare_spec (2 * r') D');
      destruct (Z.even f); nia.
  - destruct (Z.compare_spec (2 * r) D);
      destruct (Z.compare_spec (2 * r') D');
      destruct (Z.even f); destruct (Z.even f'); lia.
Qed.

(** ** The forecast *)

Lemma Qlt_0_inject_Z_div a b :
  0 < b -> (0 < inject_Z a / inject_Z b)%Q -> 0 < a.
Proof.
  intros Hb H. destruct b as [|b|b]; try lia.
  unfold Qlt, Qdiv, Qmult, Qinv, inject_Z in H. simpl in H. lia.
Qed.

Lemma inject_Z_positive z : 0 < z -> (0 < inject_Z z)%Q.
Proof. intros H. unfold Qlt, inject_Z. simpl. lia. Qed.

Lemma average_positive c t1 :
  (0 < average c t1)%Q ->
  0 < elapsed c t1 /\ 0 < current_reps c
  /\ average c t1 = (inject_Z (current_reps c) / inject_Z (elapsed c t1))%Q.
Proof.
  unfold average. destruct (0 <? elapsed c t1) eqn:E.
  - apply Z.ltb_lt in E. intros H. split; [done|]. split; [|done].
    by apply (Qlt_0_inject_Z_div _ (elapsed c t1)).
  - intros H. by apply Qlt_irrefl in H.
Qed.

(** The offset of the forecast before rounding, as one quotient. *)
Lemma forecast_quotient c t1 :
  (0 < average c t1)%Q ->
  (inject_Z (total_reps c - current_reps c) / average c t1 * inject_Z us_per_day
   == inject_Z ((total_reps c - current_reps c) * elapsed c t1 * us_per_day)
      / inject_Z (current_reps c))%Q.
Proof.
  intros H. destruct (average_positive c t1 H) as (Hde & Hcur & ->).
  rewrite !inject_Z_mult. field. split.
  - apply inject_Z_nonzero. lia.
  - apply inject_Z_nonzero. lia.
Qed.


Lemma forecast_offset_ge c t1 n :
  (0 < average c t1)%Q ->
  n * current_reps c <= (total_reps c - current_reps c) * elapsed c t1 * us_per_day ->
  n <= forecast_offset c t1.
Proof.
  intros H Hle. destruct (average_positive c t1 H) as (Hde & Hcur & _).
  unfold forecast_offset. apply round_half_even_ge_int.
  rewrite (forecast_quotient c t1 H).
  apply Qle_shift_div_l.
  - by apply inject_Z_positive.
  - rewrite <- inject_Z_mult. by rewrite <- Zle_Qle.
Qed.




(** On that input the snapshot is on track and has a forecast. *)
Example on_track_forecast_exists :
  let k := "PUSHUPS_20261103_100000" in
  let w := at_clock (ticking (t_create + 3 * day + 3600 * us_per_second) 1000)
             (run_ops [CreateChallenge "42" PUSHUPS 100 30; AddReps "42" k 40]
                (empty_world (ticking t_create 1000))) in
  match fst (get_challenge_progress "42" k w) with
  | Ok (Some p) => on_track p = true /\ is_Some (projected_date p)
  | _ => False
  end.
Proof. vm_compute. split; [reflexivity|eauto]. Qed.

Lemma elapsed_mono c t1 t1' : t1 <= t1' -> elapsed c t1 <= elapsed c t1'.
Proof.
  intros H. unfold elapsed, days.
  apply Z.add_le_mono_r, Z.div_le_mono; [by vm_compute|lia].
Qed.

Lemma average_positive_later c t1 t1' :
  (0 < average c t1)%Q -> t1 <= t1' -> (0 < average c t1')%Q.
Proof.
  intros H Hle. destruct (average_positive c t1 H) as (Hde & Hcur & _).
  pose proof (elapsed_mono c t1 t1' Hle) as Hmono.
  unfold average.
  destruct (0 <? elapsed c t1') eqn:E; [|apply Z.ltb_ge in E; lia].
  apply Qlt_shift_div_l.
  - apply inject_Z_positive. lia.
  - rewrite Qmult_0_l. by apply inject_Z_positive.
Qed.

Lemma forecast_offset_mono c t1 t1' :
  (0 < average c t1)%Q -> t1 <= t1' -> current_reps c <= total_reps c ->
  forecast_offset c t1 <= forecast_offset c t1'.
Proof.
  intros H Hle Hrem.
  pose proof (average_positive_later c t1 t1' H Hle) as H'.
  destruct (average_positive c t1 H) as (Hde & Hcur & _).
  pose proof (elapsed_mono c t1 t1' Hle) as Hmono.
  unfold forecast_offset. apply round_half_even_mono.
  rewrite (forecast_quotient c t1 H), (forecast_quotient c t1' H').
  unfold Qdiv. apply Qmult_le_compat_r.
  - rewrite <- Zle_Qle.
    apply Z.mul_le_mono_nonneg_r; [by vm_compute|].
    apply Z.mul_le_mono_nonneg_l; lia.
  - apply Qinv_le_0_compat. apply Qlt_le_weak. by apply inject_Z_positive.
Qed.

(** An unrepresentable forecast stays unrepresentable: at later instants,
    with the same repetitions logged, the forecast raises again. *)
Lemma forecast_overflow_persists c t1 t3 t1' t3' :
  forecast c t1 t3 = Raise OverflowError ->
  current_reps c <= total_reps c ->
  t1 <= t1' -> 0 <= t3 -> t3 <= t3' ->
  forecast c t1' t3' = Raise OverflowError.
Proof.
  unfold forecast. intros H Hrem H1 H3 H3'.
  destruct (Qlt_bool 0 (average c t1)) eqn:Epos; [|discriminate].
  apply Qlt_bool_iff in Epos.
  pose proof (average_positive_later c t1 t1' Epos H1) as Epos'.
  destruct (average_positive c t1 Epos) as (Hde & Hcur & _).
  pose proof (forecast_offset_mono c t1 t1' Epos H1 Hrem) as Hmono.
  assert (H0 : 0 <= forecast_offset c t1).
  { apply forecast_offset_ge; [done|].
    assert (0 < us_per_day) by (by vm_compute). nia. }
  apply Qlt_bool_iff in Epos'. rewrite Epos'.
  destruct (valid_timedeltab (forecast_offset c t1)
            && valid_datetimeb (t3 + forecast_offset c t1)) eqn:E; [discriminate|].
  destruct (valid_timedeltab (forecast_offset c t1')
            && valid_datetimeb (t3' + forecast_offset c t1')) eqn:E'; [|done].
  exfalso.
  apply andb_true_iff in E' as [Ed' Et'].
  unfold valid_timedeltab in Ed'. unfold valid_datetimeb in Et'.
  apply andb_true_iff in Ed' as [_ Ed']. apply andb_true_iff in Et' as [_ Et'].
  apply Z.ltb_lt in Ed'. apply Z.leb_le in Et'.
  apply andb_false_iff in E as [E|E].
  - unfold valid_timedeltab in E. apply andb_false_iff in E as [E|E].
    + apply Z.leb_gt in E. unfold max_delta_days, us_per_day, us_per_second in E. lia.
    + apply Z.ltb_ge in E. lia.
  - unfold valid_datetimeb in E. apply andb_false_iff in E as [E|E].
    + apply Z.leb_gt in E. lia.
    + apply Z.leb_gt in E. lia.
Qed.

Lemma snapshot_overflow c t1 t2 t3 :
  snapshot c t1 t2 t3 = Raise OverflowError <-> forecast c t1 t3 = Raise OverflowError.
Proof.
  unfold snapshot. split.
  - destruct (forecast c t1 t3) as [o|e].
    + by destruct (total_reps c =? 0).
    + by intros [= ->].
  - by intros ->.
Qed.

(** X6.  Once the forecast of a challenge is too far for a [datetime],
    [get_challenge_progress] raises [OverflowError] and keeps raising at
    every later instant, as long as the repetitions logged on the challenge
    are the same and below the target. *)
Theorem progress_overflow_persists (w w' : World) (user_id challenge_id : string)
    (c : Challenge) :
  lookup_challenge (user_data w) user_id challenge_id = Some c ->
  lookup_challenge (user_data w') user_id challenge_id = Some c ->
  current_reps c <= total_reps c ->
  fst (get_challenge_progress user_id challenge_id w) = Raise OverflowError ->
  clock w 0%nat <= clock w' 0%nat ->
  0 <= clock w 2%nat -> clock w 2%nat <= clock w' 2%nat ->
  fst (get_challenge_progress user_id challenge_id w') = Raise OverflowError.
Proof.
  intros Hc Hc' Hrem Hraise H1 H3 H3'.
  destruct (lookup_challenge_inv _ _ _ _ Hc) as (pr & Hu & Hk).
  destruct (lookup_challenge_inv _ _ _ _ Hc') as (pr' & Hu' & Hk').
  rewrite (get_challenge_progress_found _ _ _ _ _ Hu Hk) in Hraise.
  rewrite (get_challenge_progress_found _ _ _ _ _ Hu' Hk').
  simpl in *. apply snapshot_overflow. apply snapshot_overflow in Hraise.
  by apply (forecast_overflow_persists c (clock w 0%nat) (clock w 2%nat)).
Qed.

Lemma progress_overflow_persists_witness :
  let k := "PUSHUPS_20261103_100000" in
  let s := run_ops [CreateChallenge "42" PUSHUPS 100000 365; AddReps "42" k 1]
             (empty_world (ticking t_create 1000)) in
  let w := at_clock (ticking (t_create + 31 * day) 1000) s in
  let w' := at_clock (ticking (t_create + 400 * day) 1000) s in
  let c := added 1 (t_create + 3000) (t_create + 4000)
             (fresh_challenge PUSHUPS 100000 365 t_create (t_create + 1000)
                (t_create + 2000)) in
  lookup_challenge (user_data w) "42" k = Some c
  /\ lookup_challenge (user_data w') "42" k = Some c
  /\ current_reps c <= total_reps c
  /\ fst (get_challenge_progress "42" k w) = Raise OverflowError
  /\ clock w 0%nat <= clock w' 0%nat
  /\ 0 <= clock w 2%nat /\ clock w 2%nat <= clock w' 2%nat
  /\ fst (get_challenge_progress "42" k w') = Raise OverflowError.
Proof.
  intros k s w w' c.
  assert (H1 : lookup_challenge (user_data w) "42" k = Some c)
    by (vm_compute; reflexivity).
  assert (H2 : lookup_challenge (user_data w') "42" k = Some c)
    by (vm_compute; reflexivity).
  assert (H3 : current_reps c <= total_reps c) by (vm_compute; discriminate).
  assert (H4 : fst (get_challenge_progress "42" k w) = Raise OverflowError)
    by (vm_compute; reflexivity).
  assert (H5 : clock w 0%nat <= clock w' 0%nat) by (vm_compute; discriminate).
  assert (H6 : 0 <= clock w 2%nat) by (vm_compute; discriminate).
  assert (H7 : clock w 2%nat <= clock w' 2%nat) by (vm_compute; discriminate).
  repeat (split; [assumption|]).
  exact (progress_overflow_persists w w' "42" k c H1 H2 H3 H4 H5 H6 H7).
Defined.

(** ** One failing challenge fails the whole list *)

Lemma always_raises_after k c w :
  always_raises c (clock w) ->
  always_raises c (clock (after_reads k (user_data w) w)).
Proof.
  intros H n. simpl. destruct (H (k + n)%nat) as [e He]. exists e.
  by rewrite !Nat.add_succ_r in *.
Qed.

Lemma active_loop_raises user_id p k c items : forall acc w,
  user_data w !! user_id = Some p ->
  Forall (fun kc => challenges p !! kc.1 = Some kc.2) items ->
  In (k, c) items ->
  status c = ACTIVE ->
  always_raises c (clock w) ->
  exists e, fst (active_loop user_id items acc w) = Raise e.
Proof.
  induction items as [|[k0 c0] items IH]; intros acc w Hp Hall Hin Hact Hr;
    [destruct Hin|].
  inversion Hall as [|? ? Hk0 Hrest]; subst. simpl in Hk0.
  simpl.
  destruct (status_eqb (status c0) ACTIVE) eqn:E0.
  - unfold bind. rewrite (get_challenge_progress_found _ _ _ _ _ Hp Hk0).
    destruct (snapshot c0 _ _ _) as [r|e] eqn:Es; [|eauto].
    destruct Hin as [[= -> ->]|Hin].
    + destruct (Hr 0%nat) as [e He]. congruence.
    + destruct r as [pr|];
        apply IH; try done; by apply always_raises_after.
  - destruct Hin as [[= -> ->]|Hin].
    + rewrite Hact in E0. discriminate.
    + by apply IH.
Qed.

(** X7.  One Active challenge whose snapshot cannot be computed makes
    [get_active_challenges] raise for the user, whatever the other
    challenges: nothing is returned for any of them. *)
Theorem get_active_challenges_raises (w : World) (user_id challenge_id : string)
    (c : Challenge) :
  lookup_challenge (user_data w) user_id challenge_id = Some c ->
  status c = ACTIVE ->
  always_raises c (clock w) ->
  exists e, fst (get_active_challenges user_id w) = Raise e.
Proof.
  intros Hc Hact Hr.
  destruct (lookup_challenge_inv _ _ _ _ Hc) as (p & Hp & Hk).
  unfold get_active_challenges, bind. rewrite (get_user_data_known _ _ _ Hp).
  apply (active_loop_raises user_id p challenge_id c); try done.
  - apply Forall_forall. intros [k0 c0] Hin. by apply elem_of_map_to_list in Hin.
  - apply list_elem_of_In. by apply elem_of_map_to_list.
Qed.

(** The forecast of a challenge that is too far at some instant raises at
    every reading of a clock that has passed that instant. *)
Lemma always_raises_from c t1 t3 clk :
  forecast c t1 t3 = Raise OverflowError ->
  current_reps c <= total_reps c ->
  0 <= t3 ->
  (forall n, t1 <= clk n /\ t3 <= clk n) ->
  always_raises c clk.
Proof.
  intros Hf Hrem H3 Hclk n. exists OverflowError.
  apply snapshot_overflow.
  apply (forecast_overflow_persists c t1 t3); try done; apply Hclk.
Qed.

Lemma get_active_challenges_raises_witness :
  let k := "PUSHUPS_20261103_100000" in
  let w := at_clock (frozen (t_create + 31 * day))
             (run_ops [CreateChallenge "42" PUSHUPS 100000 365; AddReps "42" k 1;
                       CreateChallenge "42" SQUATS 50 10]
                (empty_world (ticking t_create us_per_second))) in
  let c := added 1 (t_create + 3 * us_per_second) (t_create + 4 * us_per_second)
             (fresh_challenge PUSHUPS 100000 365 t_create
                (t_create + us_per_second) (t_create + 2 * us_per_second)) in
  lookup_challenge (user_data w) "42" k = Some c
  /\ status c = ACTIVE
  /\ always_raises c (clock w)
  /\ exists e, fst (get_active_challenges "42" w) = Raise e.
Proof.
  intros k w c.
  assert (H1 : lookup_challenge (user_data w) "42" k = Some c)
    by (vm_compute; reflexivity).
  assert (H2 : status c = ACTIVE) by reflexivity.
  assert (H3 : always_raises c (clock w)).
  { intros n. exists OverflowError. vm_compute. reflexivity. }
  repeat (split; [assumption|]).
  exact (get_active_challenges_raises w "42" k c H1 H2 H3).
Defined.

(** * Properties of the handlers *)

(** ** The callback data of the buttons *)

Lemma avoids_app c a b : avoids c (a +:+ b) = avoids c a && avoids c b.
Proof.
  induction a as [|x a IH]; [done|].
  change (negb (Ascii.eqb x c) && avoids c (a +:+ b)
          = negb (Ascii.eqb x c) && avoids c a && avoids c b).
  by rewrite IH, andb_assoc.
Qed.

(** Removing a string that starts with [c] changes nothing in a string
    without [c]. *)
Lemma remove_from_avoids c old s :
  avoids c s = true -> remove_from (String c old) 0 s = s.
Proof.
  induction s as [|x s IH]; [done|].
  intros H. apply andb_true_iff in H as [Hx Hs].
  apply negb_true_iff, Ascii.eqb_neq in Hx.
  cbn [remove_from String.prefix].
  destruct (ascii_dec c x) as [->|_]; [done|].
  by rewrite IH.
Qed.

Lemma digit_avoids_a d : Ascii.eqb (digit d) "a" = false.
Proof.
  unfold digit.
  assert (H : 0 <= d mod 10 < 10) by (apply Z.mod_pos_bound; lia).
  assert (Hn : (Z.to_nat (d mod 10) < 10)%nat) by lia.
  destruct (Z.to_nat (d mod 10)) as [|[|[|[|[|[|[|[|[|[|n]]]]]]]]]]; try done; lia.
Qed.

Lemma pad2_avoids_a n : avoids "a" (pad2 n) = true.
Proof. unfold pad2. cbn [avoids]. by rewrite !digit_avoids_a. Qed.

Lemma pad4_avoids_a n : avoids "a" (pad4 n) = true.
Proof. unfold pad4. cbn [avoids]. by rewrite !digit_avoids_a, pad2_avoids_a. Qed.

Lemma strftime_stamp_avoids_a t : avoids "a" (strftime_stamp t) = true.
Proof.
  unfold strftime_stamp. destruct (ymd t) as [[y m] d].
  by rewrite !avoids_app, pad4_avoids_a, !pad2_avoids_a.
Qed.

Lemma created_id_avoids_a k : created_id k -> avoids "a" k = true.
Proof.
  intros (e & t & ->). rewrite !avoids_app, strftime_stamp_avoids_a.
  by destruct e.
Qed.

Lemma prefix_app a b : String.prefix a (a +:+ b) = true.
Proof.
  induction a as [|x a IH]; [by destruct b|].
  change (String.prefix (String x a) (String x (a +:+ b)) = true).
  cbn [String.prefix]. by destruct (ascii_dec x x).
Qed.

(** [("add_reps_" + k).replace("add_reps_", "")] is [k] for such an id. *)
Lemma remove_all_created_id k :
  created_id k -> remove_all "add_reps_" ("add_reps_" +:+ k) = k.
Proof.
  intros H. apply created_id_avoids_a in H.
  unfold remove_all.
  change ("add_reps_" +:+ k) with (String "a" ("dd_reps_" +:+ k)).
  cbn [remove_from].
  change (String "a" ("dd_reps_" +:+ k)) with ("add_reps_" +:+ k).
  rewrite prefix_app.
  change (remove_from "add_reps_" 0 k = k).
  by apply remove_from_avoids.
Qed.

Lemma callback_session_add_reps k ctx :
  created_id k ->
  callback_session ("add_reps_" +:+ k) ctx
  = Ok {| challenge_step := challenge_step ctx;
          selected_exercise := selected_exercise ctx;
          session_total_reps := session_total_reps ctx;
          adding_reps := true;
          selected_challenge := Some k |}.
Proof.
  intros H. unfold callback_session.
  change (String.prefix "exercise_" ("add_reps_" +:+ k)) with false.
  rewrite prefix_app. by rewrite remove_all_created_id.
Qed.

(** X8.  The buttons of the two exercise keyboards and the callback
    handler agree.  Each keyboard has one button per exercise.  Pressing a
    button of [handle_new_challenge] selects its exercise and opens the
    total-reps step, keeping the rest of the session; pressing a button of
    [handle_exercise_guide] shows the guide of its exercise and keeps the
    session; neither touches the store or reads the clock. *)
Theorem exercise_buttons_round_trip (w : World) (user_id : string) (ctx : Session)
    (e : ExerciseType) :
  (exists b, In b handle_new_challenge /\ subject b = e)
  /\ (exists b, In b handle_exercise_guide /\ subject b = e)
  /\ (forall b, In b handle_new_challenge ->
        handle_callback_query user_id (callback_data b) ctx w
        = (Ok (AskTotalReps (subject b),
               {| challenge_step := Some StepTotalReps;
                  selected_exercise := Some (subject b);
                  session_total_reps := session_total_reps ctx;
                  adding_reps := adding_reps ctx;
                  selected_challenge := selected_challenge ctx |}), w))
  /\ (forall b, In b handle_exercise_guide ->
        handle_callback_query user_id (callback_data b) ctx w
        = (Ok (Guide (subject b) (EXERCISE_INFO (subject b)), ctx), w)).
Proof.
  split; [|split; [|split]].
  - exists (mkButton e ("exercise_" +:+ exercise_name e)). split; [|done].
    unfold handle_new_challenge. apply in_map_iff. exists e.
    split; [done|]. destruct e; simpl; tauto.
  - exists (mkButton e ("guide_" +:+ exercise_name e)). split; [|done].
    unfold handle_exercise_guide. apply in_map_iff. exists e.
    split; [done|]. destruct e; simpl; tauto.
  - intros b Hb. unfold handle_new_challenge in Hb.
    apply in_map_iff in Hb as (x & <- & _). by destruct x.
  - intros b Hb. unfold handle_exercise_guide in Hb.
    apply in_map_iff in Hb as (x & <- & _). by destruct x.
Qed.

(** A name that is not the name of a member of [ExerciseType] raises
    [KeyError]; the names are in upper case. *)
Example exercise_callback_unknown_name :
  let r := handle_callback_query "42" "exercise_pushups" cleared
             (empty_world (frozen t_create)) in
  r = (Raise KeyError, empty_world (frozen t_create))
  /\ callback_session "guide_" cleared = Raise KeyError
  /\ callback_session "exercise_PUSHUPS_20261103" cleared
     = Ok {| challenge_step := Some StepTotalReps;
             selected_exercise := Some PUSHUPS;
             session_total_reps := None;
             adding_reps := false;
             selected_challenge := None |}.
Proof. by vm_compute. Qed.

(** ** What the handlers keep *)

Lemma session_ok_cleared : session_ok cleared.
Proof.
  unfold session_ok, cleared. simpl.
  repeat split; try done; intros H; by destruct H.
Qed.

Lemma store_keys_forall_empty P : store_keys_forall P ∅.
Proof. intros u k c H. unfold lookup_challenge in H. by rewrite lookup_empty in H. Qed.

Lemma store_keys_forall_touched P s user_id :
  store_keys_forall P s -> store_keys_forall P (touched s user_id).
Proof. intros H u k c Hc. rewrite lookup_challenge_touched in Hc. by apply (H u). Qed.

Section Kept.

(** A property of the challenges that holds of a challenge created within
    the limits of the dialogue and is kept by adding an amount within the
    limits, and under which the total is not zero. *)
Variable P : string -> Challenge -> Prop.

Hypothesis P_create : forall e total d t0 t1 t2,
  0 < total <= 100000 -> 0 < d <= 365 ->
  P (ch_id (fresh_challenge e total d t0 t1 t2)) (fresh_challenge e total d t0 t1 t2).

Hypothesis P_add : forall k c reps t0 t1,
  0 < reps <= 10000 -> P k c -> P k (added reps t0 t1 c).

Hypothesis P_total : forall k c, P k c -> total_reps c <> 0.

Lemma keeps_weaken {A} (E E' : Exn -> Prop) (Q Q' : A -> Prop) m :
  keeps P E Q m -> (forall e, E e -> E' e) -> (forall a, Q a -> Q' a) -> keeps P E' Q' m.
Proof.
  intros H HE HQ w Hw. destruct (H w Hw) as [Hs Hr]. split; [done|].
  destruct (fst (m w)); auto.
Qed.

Lemma keeps_ret {A} E (Q : A -> Prop) a : Q a -> keeps P E Q (ret a).
Proof. intros H w Hw. by split. Qed.

Lemma keeps_bind {A B} E (Q1 : A -> Prop) (Q2 : B -> Prop) m k :
  keeps P E Q1 m -> (forall a, Q1 a -> keeps P E Q2 (k a)) -> keeps P E Q2 (bind m k).
Proof.
  intros Hm Hk w Hw. destruct (Hm w Hw) as [Hs Hr]. unfold bind.
  destruct (m w) as [[a|e] w1]; simpl in *.
  - by apply Hk.
  - by split.
Qed.

Lemma keeps_bind_ret {A B} E (Q : B -> Prop) (a : A) k :
  keeps P E Q (k a) -> keeps P E Q (bind (ret a) k).
Proof. intros H w Hw. exact (H w Hw). Qed.

Lemma keeps_now E : keeps P E (fun _ => True) now.
Proof. intros w Hw. by split. Qed.

Lemma keeps_lift {A} E (Q : A -> Prop) (r : Res A) :
  match r with Ok a => Q a | Raise e => E e end -> keeps P E Q (lift r).
Proof. intros H w Hw. by split. Qed.

Lemma keeps_timedelta_of_days E d :
  E OverflowError -> keeps P E (fun _ => True) (lift (timedelta_of_days d)).
Proof.
  intros H. apply keeps_lift. unfold timedelta_of_days.
  by destruct (valid_timedeltab _).
Qed.

Lemma keeps_datetime_add E t td :
  E OverflowError -> keeps P E (fun _ => True) (lift (datetime_add t td)).
Proof.
  intros H. apply keeps_lift. unfold datetime_add.
  by destruct (valid_datetimeb _).
Qed.

Lemma keeps_get_challenge_progress user_id challenge_id :
  keeps P overflow (fun _ => True) (get_challenge_progress user_id challenge_id).
Proof.
  intros w Hw. split.
  - rewrite get_challenge_progress_store. by apply store_keys_forall_touched.
  - destruct (lookup_challenge (user_data w) user_id challenge_id) as [c|] eqn:Hc.
    + destruct (lookup_challenge_inv _ _ _ _ Hc) as (p & Hu & Hk).
      rewrite (get_challenge_progress_found _ _ _ _ _ Hu Hk). cbn [fst].
      unfold snapshot, forecast.
      pose proof (P_total _ _ (Hw _ _ _ Hc)) as Htot.
      apply Z.eqb_neq in Htot. rewrite Htot.
      destruct (Qlt_bool 0 (average c (clock w 0%nat))); [|done].
      by destruct (valid_timedeltab _ && valid_datetimeb _).
    + by rewrite (get_challenge_progress_missing _ _ _ Hc).
Qed.

Lemma keeps_active_loop user_id items : forall acc,
  keeps P overflow (fun _ => True) (active_loop user_id items acc).
Proof.
  induction items as [|[k c] items IH]; intros acc; [by apply keeps_ret|].
  cbn [active_loop].
  destruct (status_eqb (status c) ACTIVE); [|apply IH].
  eapply keeps_bind; [apply keeps_get_challenge_progress|].
  intros [p|] _; apply IH.
Qed.

Lemma keeps_get_user_data E user_id : keeps P E (fun _ => True) (get_user_data user_id).
Proof.
  intros w Hw. rewrite get_user_data_eq. split; [|done].
  by apply store_keys_forall_touched.
Qed.

Lemma keeps_get_active_challenges user_id :
  keeps P overflow (fun _ => True) (get_active_challenges user_id).
Proof.
  unfold get_active_challenges.
  eapply keeps_bind; [apply keeps_get_user_data|].
  intros p _. apply keeps_active_loop.
Qed.

Lemma keeps_create_challenge user_id e total d :
  0 < total <= 100000 -> 0 < d <= 365 ->
  keeps P overflow (fun _ => True) (create_challenge user_id e total d).
Proof.
  intros Ht Hd w Hw. rewrite create_challenge_eq. cbv zeta.
  destruct (creatable d (clock w 2%nat)) eqn:Ec.
  - split; [|done]. cbn [snd after_reads user_data].
    intros u k c Hc.
    pose proof (lookup_after_create w user_id e total d u k) as Hl.
    cbv zeta in Hl. rewrite create_challenge_eq, Ec in Hl. cbv zeta in Hl.
    cbn [snd after_reads user_data] in Hl. rewrite Hl in Hc.
    destruct (bool_decide (u = user_id /\ k = ch_id _)) eqn:Eb; simpl in Hc.
    + injection Hc as <-. apply bool_decide_eq_true in Eb as [_ ->].
      by apply P_create.
    + by apply (Hw u).
  - split.
    + cbn [snd after_reads user_data]. by apply store_keys_forall_touched.
    + cbn [fst]. unfold creatable in Ec.
      destruct (valid_timedeltab (d * us_per_day)
                && valid_datetimeb (clock w 2%nat + d * us_per_day)); [|done].
      simpl in Ec. apply negb_false_iff, Z.eqb_eq in Ec. lia.
Qed.

Lemma keeps_add_reps E user_id challenge_id reps :
  0 < reps <= 10000 ->
  keeps P E (fun _ => True) (add_reps user_id challenge_id reps).
Proof.
  intros Hr w Hw. split.
  - intros u k c Hc. rewrite lookup_after_add_reps in Hc.
    destruct (lookup_challenge (user_data w) user_id challenge_id) as [c0|] eqn:E0;
      [|by apply (Hw u)].
    destruct (decide (u = user_id /\ k = challenge_id)) as [[-> ->]|_];
      [|by apply (Hw u)].
    injection Hc as <-. apply P_add; [done|]. by apply (Hw user_id).
  - destruct (lookup_challenge (user_data w) user_id challenge_id) as [c0|] eqn:E0.
    + by rewrite (proj1 (add_reps_existing _ _ _ reps _ E0)).
    + by rewrite (add_reps_missing _ _ _ reps E0).
Qed.

Lemma keeps_reminder_loop E active : forall acc,
  keeps P E (fun _ => True) (reminder_loop active acc).
Proof. intros acc w Hw. by rewrite reminder_loop_eq. Qed.

Section KeptReminders.

Variable int_of_str : string -> option Z.

Lemma keeps_remind_user user_id profile :
  keeps P overflow (fun _ => True) (remind_user int_of_str user_id profile).
Proof.
  unfold remind_user.
  destruct (negb (default true (reminders_enabled profile))); [by apply keeps_ret|].
  eapply keeps_bind; [apply keeps_get_active_challenges|].
  intros [|a l] _; [by apply keeps_ret|].
  destruct (int_of_str user_id); [|by apply keeps_ret].
  eapply keeps_bind; [apply keeps_reminder_loop|].
  intros lines _. by apply keeps_ret.
Qed.

Lemma keeps_remind_users users : forall sent,
  keeps P overflow (fun _ => True) (remind_users int_of_str users sent).
Proof.
  induction users as [|[u p] users IH]; intros sent; [by apply keeps_ret|].
  cbn [remind_users].
  eapply keeps_bind; [apply keeps_remind_user|].
  intros [m|] _; apply IH.
Qed.

Lemma keeps_send_daily_reminders :
  keeps P overflow (fun _ => True) (send_daily_reminders int_of_str).
Proof.
  unfold send_daily_reminders.
  eapply (keeps_bind _ (fun _ => True)); [by intros w Hw|].
  intros s _. apply keeps_remind_users.
Qed.

End KeptReminders.

Lemma keeps_handle_menu user_id m :
  keeps P overflow (fun _ => True) (handle_menu user_id m).
Proof.
  destruct m; cbn [handle_menu]; try by apply keeps_ret.
  - unfold handle_my_challenges.
    apply (keeps_bind _ (fun _ => True)); [|intros; by apply keeps_ret].
    apply (keeps_bind _ (fun _ => True)); [apply keeps_get_active_challenges|].
    intros [|a l] _; by apply keeps_ret.
  - unfold handle_add_reps.
    apply (keeps_bind _ (fun _ => True)); [|intros; by apply keeps_ret].
    apply (keeps_bind _ (fun _ => True)); [apply keeps_get_active_challenges|].
    intros [|a l] _; by apply keeps_ret.
  - unfold handle_progress.
    apply (keeps_bind _ (fun _ => True)); [|intros; by apply keeps_ret].
    apply (keeps_bind _ (fun _ => True)); [apply keeps_get_active_challenges|].
    intros [|a l] _; by apply keeps_ret.
Qed.

(** [handle_message] on a session that the handlers left. *)
Lemma keeps_handle_message user_id number ctx :
  session_ok ctx ->
  keeps P overflow (fun r => session_ok r.2) (handle_message user_id number ctx).
Proof.
  intros Hctx. pose proof Hctx as (Hex & Htot & Hrange & Hsel).
  unfold handle_message.
  destruct (challenge_step ctx) as [[|]|] eqn:Estep.
  - destruct number as [total|]; [|by apply keeps_ret].
    destruct (total <=? 0) eqn:E0; [by apply keeps_ret|].
    destruct (100000 <? total) eqn:E1; [by apply keeps_ret|].
    apply Z.leb_gt in E0. apply Z.ltb_ge in E1.
    cbn [selected_exercise].
    destruct (Hex ltac:(eauto)) as [e He]. rewrite He. cbn [key].
    apply keeps_bind_ret. apply keeps_ret. cbn [snd].
    unfold session_ok. cbn. split; [eauto|]. split; [eauto|].
    split; [intros n [= <-]; lia|done].
  - destruct number as [d|]; [|by apply keeps_ret].
    destruct (d <=? 0) eqn:E0; [by apply keeps_ret|].
    destruct (365 <? d) eqn:E1; [by apply keeps_ret|].
    apply Z.leb_gt in E0. apply Z.ltb_ge in E1.
    destruct (Hex ltac:(eauto)) as [e He]. rewrite He.
    destruct (Htot eq_refl) as [total Htotal]. rewrite Htotal. cbn [key].
    apply keeps_bind_ret. apply keeps_bind_ret.
    apply (keeps_bind _ (fun _ => True));
      [apply keeps_create_challenge; [by apply Hrange|lia]|]. intros k _.
    apply (keeps_bind _ (fun _ => True)); [apply keeps_now|]. intros ? _.
    apply (keeps_bind _ (fun _ => True)); [apply keeps_now|]. intros t _.
    apply (keeps_bind _ (fun _ => True)); [by apply keeps_timedelta_of_days|].
    intros delta _.
    apply (keeps_bind _ (fun _ => True)); [by apply keeps_datetime_add|].
    intros ? _. apply keeps_ret. apply session_ok_cleared.
  - destruct (adding_reps ctx) eqn:Eadd; [|by apply keeps_ret].
    destruct number as [reps|]; [|by apply keeps_ret].
    destruct (reps <=? 0) eqn:E0; [by apply keeps_ret|].
    destruct (10000 <? reps) eqn:E1; [by apply keeps_ret|].
    apply Z.leb_gt in E0. apply Z.ltb_ge in E1.
    destruct (Hsel eq_refl) as [k Hk]. rewrite Hk. cbn [key].
    apply keeps_bind_ret.
    apply (keeps_bind _ (fun _ => True)); [apply keeps_add_reps; lia|].
    intros [|] _.
    + apply (keeps_bind _ (fun _ => True)); [apply keeps_get_challenge_progress|].
      intros [p|] _; apply keeps_ret; apply session_ok_cleared.
    + apply keeps_ret. apply session_ok_cleared.
Qed.

(** The first step of the creation does not raise on such a session. *)
Lemma handle_message_total_reps_returns user_id number ctx w :
  session_ok ctx -> challenge_step ctx = Some StepTotalReps ->
  exists r, handle_message user_id number ctx w = (Ok r, w).
Proof.
  intros (Hex & _) Estep. unfold handle_message. rewrite Estep.
  destruct number as [total|]; [|by eexists].
  destruct (total <=? 0); [by eexists|].
  destruct (100000 <? total); [by eexists|].
  cbn [selected_exercise]. rewrite Estep in Hex.
  destruct (Hex ltac:(eauto)) as [e ->]. by eexists.
Qed.

Lemma session_ok_callback data ctx ctx' :
  session_ok ctx -> callback_session data ctx = Ok ctx' -> session_ok ctx'.
Proof.
  intros (Hex & Htot & Hrange & Hsel). unfold callback_session.
  destruct (String.prefix "exercise_" data).
  - destruct (exercise_of_name (second_piece data)) as [e|]; [|done].
    intros [= <-]. unfold session_ok. cbn.
    split; [eauto|]. split; [done|]. by split.
  - destruct (String.prefix "add_reps_" data).
    + intros [= <-]. unfold session_ok. cbn.
      split; [done|]. split; [done|]. split; [done|eauto].
    + destruct (String.prefix "guide_" data).
      * destruct (exercise_of_name (second_piece data)); [|done].
        by intros [= <-].
      * by intros [= <-].
Qed.

Lemma callback_session_raises data ctx e :
  callback_session data ctx = Raise e ->
  e = KeyError /\ exercise_of_name (second_piece data) = None.
Proof.
  unfold callback_session.
  destruct (String.prefix "exercise_" data).
  { destruct (exercise_of_name _); [done|]. by intros [= <-]. }
  destruct (String.prefix "add_reps_" data); [done|].
  destruct (String.prefix "guide_" data); [|done].
  destruct (exercise_of_name _); [done|]. by intros [= <-].
Qed.

Lemma keeps_key E {A} (o : option A) :
  (o = None -> E KeyError) -> keeps P E (fun _ => True) (key o).
Proof. intros H. destruct o; [by apply keeps_ret|apply keeps_lift; by apply H]. Qed.

Lemma keeps_handle_callback_query user_id data ctx :
  keeps P (overflow_or_key data) (fun _ => True)
    (handle_callback_query user_id data ctx).
Proof.
  unfold handle_callback_query.
  apply (keeps_bind _ (fun _ => True)).
  { apply keeps_lift. destruct (callback_session data ctx) as [|e] eqn:E; [done|].
    right. by apply (callback_session_raises data ctx). }
  intros ctx' _.
  apply (keeps_bind _ (fun _ => True)); [|intros; by apply keeps_ret].
  unfold callback_reply.
  destruct (String.prefix "exercise_" data).
  { apply (keeps_bind _ (fun _ => True)); [apply keeps_key; by right|].
    intros; by apply keeps_ret. }
  destruct (String.prefix "add_reps_" data).
  { apply (keeps_bind _ (fun _ => True)).
    - eapply keeps_weaken; [apply keeps_get_challenge_progress| |done].
      intros e ->. by left.
    - intros [p|] _; by apply keeps_ret. }
  destruct (String.prefix "guide_" data); [|by apply keeps_ret].
  apply (keeps_bind _ (fun _ => True)); [apply keeps_key; by right|].
  intros; by apply keeps_ret.
Qed.

Lemma session_of_ok b user_id : bot_ok P b -> session_ok (session_of b user_id).
Proof.
  intros [_ H]. unfold session_of.
  destruct (sessions b !! user_id) as [ctx|] eqn:E; simpl.
  - by apply (H user_id).
  - apply session_ok_cleared.
Qed.

Section KeptUpdates.

Variable int_of_str : string -> option Z.

Lemma handle_update_ok u b :
  bot_ok P b ->
  bot_ok P (snd (handle_update int_of_str u b))
  /\ forall e, fst (handle_update int_of_str u b) = Some e ->
       e = OverflowError
       \/ (e = KeyError
           /\ exists user_id data,
                u = CallbackQuery user_id data
                /\ exercise_of_name (second_piece data) = None).
Proof.
  intros Hb. pose proof Hb as [Hs Hm]. destruct u as [u m|u number|u data|].
  - cbn [handle_update fst snd].
    destruct (keeps_handle_menu u m _ Hs) as [Hs' Hr]. split; [by split|].
    intros e He. destruct (fst (handle_menu u m (world b))); [done|].
    injection He as <-. by left.
  - cbn [handle_update fst snd].
    pose proof (session_of_ok b u Hb) as Hctx.
    destruct (keeps_handle_message u number _ Hctx _ Hs) as [Hs' Hr].
    split.
    + split; [done|]. cbn [sessions]. apply map_Forall_insert_2; [|done].
      destruct (fst (handle_message u number (session_of b u) (world b)))
        as [[reply ctx']|e] eqn:E; [done|].
      unfold session_on_raise.
      destruct (challenge_step (session_of b u)) as [[|]|] eqn:Estep; try done.
      destruct (handle_message_total_reps_returns u number _ (world b) Hctx Estep)
        as [r Hret].
      rewrite Hret in E. done.
    + intros e He.
      destruct (fst (handle_message u number (session_of b u) (world b))); [done|].
      injection He as <-. by left.
  - cbn [handle_update fst snd].
    pose proof (session_of_ok b u Hb) as Hctx.
    destruct (keeps_handle_callback_query u data (session_of b u) _ Hs) as [Hs' Hr].
    split.
    + split; [done|]. cbn [sessions].
      destruct (callback_session data (session_of b u)) as [ctx'|] eqn:E; [|done].
      apply map_Forall_insert_2; [|done]. by apply (session_ok_callback data _ _ Hctx).
    + intros e He.
      destruct (fst (handle_callback_query u data (session_of b u) (world b)));
        [done|].
      injection He as <-. destruct Hr as [->|[-> Hn]]; [by left|right; eauto].
  - cbn [handle_update fst snd].
    destruct (keeps_send_daily_reminders int_of_str _ Hs) as [Hs' Hr].
    split; [by split|].
    intros e He. destruct (fst (send_daily_reminders int_of_str (world b))); [done|].
    injection He as <-. by left.
Qed.

Lemma handle_updates_ok us : forall b,
  bot_ok P b -> bot_ok P (handle_updates int_of_str us b).
Proof.
  induction us as [|u us IH]; intros b Hb; [done|].
  cbn [handle_updates fold_left]. apply IH. by apply handle_update_ok.
Qed.

Lemma new_bot_ok clk : bot_ok P (new_bot clk).
Proof. split; [apply store_keys_forall_empty|apply map_Forall_empty]. Qed.

End KeptUpdates.

End Kept.

(** ** The challenges that the dialogues make *)

Lemma ui_challenge_fresh e total d t0 t1 t2 :
  0 < total <= 100000 -> 0 < d <= 365 ->
  ui_challenge (ch_id (fresh_challenge e total d t0 t1 t2))
    (fresh_challenge e total d t0 t1 t2).
Proof.
  intros Ht Hd. unfold ui_challenge, fresh_challenge.
  cbn [ch_id total_reps target_days daily_target current_reps daily_records
       completion_date status].
  split; [done|]. split; [by exists e, t0|]. split; [done|]. split; [done|].
  split; [done|]. split; [done|]. split.
  { left. cbn [status current_reps total_reps]. split; [done|lia]. }
  split.
  { unfold records_ok. cbn [current_reps daily_records].
    by rewrite sum_records_empty. }
  split; [apply map_Forall_empty|done].
Qed.

Lemma ui_challenge_added k c reps t0 t1 :
  0 < reps <= 10000 -> ui_challenge k c -> ui_challenge k (added reps t0 t1 c).
Proof.
  intros Hr (Hid & Hk & Ht & Hd & Hq & Hcur & Hlife & Hrec & Hpos & Hdone).
  pose proof (lifecycle_ok_added reps t0 t1 c ltac:(lia) Hlife) as Hlife'.
  pose proof (records_ok_added reps t0 t1 c Hrec) as Hrec'.
  assert (Hday : map_Forall (fun _ reps => 0 < reps)
                   (<[strftime_date t0 :=
                        default 0 (daily_records c !! strftime_date t0) + reps]>
                      (daily_records c))).
  { apply map_Forall_insert_2; [|done].
    destruct (daily_records c !! strftime_date t0) as [v|] eqn:E; simpl; [|lia].
    pose proof (Hpos _ _ E) as Hv. simpl in Hv. lia. }
  revert Hlife' Hrec'. unfold ui_challenge, added. cbv zeta.
  destruct (total_reps c <=? current_reps c + reps) eqn:E; simpl;
    intros Hlife' Hrec'.
  - split; [done|]. split; [done|]. split; [done|]. split; [done|].
    split; [done|]. split; [lia|]. split; [exact Hlife'|].
    split; [exact Hrec'|]. split; [exact Hday|]. by split.
  - split; [done|]. split; [done|]. split; [done|]. split; [done|].
    split; [done|]. split; [lia|]. split; [exact Hlife'|].
    split; [exact Hrec'|]. split; [exact Hday|]. exact Hdone.
Qed.

Lemma ui_challenge_total k c : ui_challenge k c -> total_reps c <> 0.
Proof. intros (_ & _ & Ht & _). lia. Qed.

(** The bots that the updates reach from the start keep [ui_challenge] and
    [session_ok]. *)
Lemma reachable_ok int_of_str us clk :
  bot_ok ui_challenge (handle_updates int_of_str us (new_bot clk)).
Proof.
  apply handle_updates_ok.
  - apply ui_challenge_fresh.
  - apply ui_challenge_added.
  - apply ui_challenge_total.
  - apply new_bot_ok.
Qed.

(** X9.  Whatever updates the bot has handled since its start with no
    data, every challenge of the store is within the limits of the
    dialogues: it is stored under its own id, which has the form that
    [create_challenge] gives; 1 to 100,000 repetitions in 1 to 365 days, with
    the daily target their quotient; [current_reps] is not negative and is
    the sum of the daily records, each of which is positive; the status is
    Active below the target and Completed from the target on, and the
    completion date is absent exactly when the status is Active. *)
Theorem ui_challenges_within_limits (int_of_str : string -> option Z)
    (us : list Update) (clk : nat -> Z) (user_id challenge_id : string)
    (c : Challenge) :
  lookup_challenge (user_data (world (handle_updates int_of_str us (new_bot clk))))
    user_id challenge_id = Some c ->
  ch_id c = challenge_id
  /\ (exists e t, challenge_id = exercise_name e +:+ "_" +:+ strftime_stamp t)
  /\ 0 < total_reps c <= 100000
  /\ 0 < target_days c <= 365
  /\ daily_target c = (inject_Z (total_reps c) / inject_Z (target_days c))%Q
  /\ 0 <= current_reps c
  /\ current_reps c = sum_records (daily_records c)
  /\ map_Forall (fun _ reps => 0 < reps) (daily_records c)
  /\ (status c = ACTIVE /\ current_reps c < total_reps c
      \/ status c = COMPLETED /\ total_reps c <= current_reps c)
  /\ (completion_date c = None <-> status c = ACTIVE).
Proof.
  intros Hc.
  destruct (reachable_ok int_of_str us clk) as [Hs _].
  destruct (Hs _ _ _ Hc) as (H1 & H2 & H3 & H4 & H5 & H6 & H7 & H8 & H9 & H10).
  done.
Qed.

Lemma ui_challenges_within_limits_witness :
  let b := handle_updates (fun _ => Some 42) first_day (new_bot (ticking t_create 1000)) in
  let k := "PUSHUPS_20261103_100000" in
  let c := added 1 (t_create + 7000) (t_create + 8000)
             (fresh_challenge PUSHUPS 100000 365 t_create (t_create + 1000)
                (t_create + 2000)) in
  lookup_challenge (user_data (world b)) "42" k = Some c
  /\ ch_id c = k
  /\ (exists e t, k = exercise_name e +:+ "_" +:+ strftime_stamp t)
  /\ 0 < total_reps c <= 100000
  /\ 0 < target_days c <= 365
  /\ daily_target c = (inject_Z (total_reps c) / inject_Z (target_days c))%Q
  /\ 0 <= current_reps c
  /\ current_reps c = sum_records (daily_records c)
  /\ map_Forall (fun _ reps => 0 < reps) (daily_records c)
  /\ (status c = ACTIVE /\ current_reps c < total_reps c
      \/ status c = COMPLETED /\ total_reps c <= current_reps c)
  /\ (completion_date c = None <-> status c = ACTIVE).
Proof.
  intros b k c.
  assert (H : lookup_challenge (user_data (world b)) "42" k = Some c)
    by (vm_compute; reflexivity).
  split; [exact H|].
  exact (ui_challenges_within_limits (fun _ => Some 42) first_day
           (ticking t_create 1000) "42" k c H).
Defined.

(** X10.  Whatever updates the bot has handled since its start with no
    data, the handler of the next update raises no [ZeroDivisionError], and
    a [KeyError] only on a callback whose data names no exercise where one
    is looked up, which no button of the bot carries: what the menu, the
    dialogues and the reminders can raise is the [OverflowError] of a date
    that cannot be represented. *)
Theorem handlers_raise_only_overflow (int_of_str : string -> option Z)
    (us : list Update) (clk : nat -> Z) (u : Update) (e : Exn) :
  fst (handle_update int_of_str u (handle_updates int_of_str us (new_bot clk)))
  = Some e ->
  e = OverflowError
  \/ (e = KeyError
      /\ exists user_id data,
           u = CallbackQuery user_id data
           /\ exercise_of_name (second_piece data) = None).
Proof.
  intros H.
  apply (handle_update_ok ui_challenge ui_challenge_fresh ui_challenge_added
           ui_challenge_total int_of_str u _ (reachable_ok int_of_str us clk)).
  exact H.
Qed.

(** A month after the first day, with nothing more logged, the forecast of
    the challenge is past the year 9999: the menu raises. *)
Lemma handlers_raise_only_overflow_witness :
  let clk := jumping t_create 11 (t_create + 31 * day) in
  let u := MenuMessage "42" MenuMyChallenges in
  fst (handle_update (fun _ => Some 42) u
         (handle_updates (fun _ => Some 42) first_day (new_bot clk)))
  = Some OverflowError
  /\ (OverflowError = OverflowError
      \/ (OverflowError = KeyError
          /\ exists user_id data,
               u = CallbackQuery user_id data
               /\ exercise_of_name (second_piece data) = None)).
Proof.
  intros clk u.
  assert (H : fst (handle_update (fun _ => Some 42) u
                     (handle_updates (fun _ => Some 42) first_day (new_bot clk)))
              = Some OverflowError) by (vm_compute; reflexivity).
  split; [exact H|].
  exact (handlers_raise_only_overflow (fun _ => Some 42) first_day clk u
           OverflowError H).
Defined.

(** ** The keyboard of [handle_add_reps] *)

Lemma get_challenge_progress_snapshot user_id challenge_id w p w' :
  get_challenge_progress user_id challenge_id w = (Ok (Some p), w') -> is_snapshot p.
Proof.
  intros H.
  destruct (lookup_challenge (user_data w) user_id challenge_id) as [c|] eqn:Hc.
  - destruct (lookup_challenge_inv _ _ _ _ Hc) as (pr & Hu & Hk).
    rewrite (get_challenge_progress_found _ _ _ _ _ Hu Hk) in H.
    injection H as H _.
    destruct (snapshot_challenge _ _ _ _ _ H) as (p' & [= <-] & <-).
    by exists (clock w 0%nat), (clock w 1%nat), (clock w 2%nat).
  - by rewrite (get_challenge_progress_missing _ _ _ Hc) in H.
Qed.

Lemma active_loop_snapshots user_id items : forall acc w l w',
  Forall is_snapshot acc ->
  active_loop user_id items acc w = (Ok l, w') ->
  Forall is_snapshot l.
Proof.
  induction items as [|[k c] items IH]; intros acc w l w' Hacc H.
  - by injection H as <- _.
  - cbn [active_loop] in H.
    destruct (status_eqb (status c) ACTIVE); [|by apply (IH acc w l w')].
    unfold bind in H.
    destruct (get_challenge_progress user_id k w) as [[[p|]|e] w1] eqn:E;
      [| |done].
    + apply (IH (acc ++ [p]) w1 l w'); [|done].
      apply Forall_app. split; [done|]. apply Forall_cons. split; [|done].
      by apply (get_challenge_progress_snapshot user_id k w p w1).
    + by apply (IH acc w1 l w').
Qed.

Lemma get_active_challenges_snapshots user_id w l w' :
  get_active_challenges user_id w = (Ok l, w') -> Forall is_snapshot l.
Proof.
  unfold get_active_challenges, bind. rewrite get_user_data_eq.
  by apply active_loop_snapshots.
Qed.

(** A challenge of the list is an Active challenge of the store. *)
Lemma get_active_challenges_stored user_id w l w' p :
  get_active_challenges user_id w = (Ok l, w') -> In p l ->
  exists k, lookup_challenge (user_data w) user_id k = Some (challenge p)
            /\ status (challenge p) = ACTIVE.
Proof.
  intros H Hp.
  destruct (get_active_challenges_listed w w' user_id l H) as [_ Hin].
  destruct (proj1 (Hin (challenge p)) (in_map challenge l p Hp)) as (k & Hk & Hact).
  exists k. split; [|done].
  unfold lookup_challenge. unfold profile_of in Hk.
  destruct (user_data w !! user_id) as [pr|]; [done|].
  simpl in Hk. by rewrite lookup_empty in Hk.
Qed.

(** X11.  The keyboard of [handle_add_reps] and the callback handler agree
    on the bots that the updates reach from the start.  Each button stands
    for an Active challenge of the user, stored under the id that the button
    carries; pressing it opens the adding step on that id, keeping the rest
    of the session. *)
Theorem add_reps_buttons_round_trip (int_of_str : string -> option Z)
    (us : list Update) (clk : nat -> Z) (user_id : string)
    (buttons : list (Button Challenge)) (w' : World) :
  let b := handle_updates int_of_str us (new_bot clk) in
  handle_add_reps user_id (world b) = (Ok (Some buttons), w') ->
  forall button ctx, In button buttons ->
    let c := subject button in
    lookup_challenge (user_data (world b)) user_id (ch_id c) = Some c
    /\ status c = ACTIVE
    /\ callback_session (callback_data button) ctx
       = Ok {| challenge_step := challenge_step ctx;
               selected_exercise := selected_exercise ctx;
               session_total_reps := session_total_reps ctx;
               adding_reps := true;
               selected_challenge := Some (ch_id c) |}.
Proof.
  intros b H button ctx Hin c.
  unfold handle_add_reps, bind in H.
  destruct (get_active_challenges user_id (world b)) as [[l|e] w1] eqn:E; [|done].
  assert (Hb : buttons
               = map (fun progress =>
                        mkButton (challenge progress)
                          ("add_reps_" +:+ ch_id (challenge progress))) l).
  { destruct l; [done|]. by injection H as <- _. }
  subst buttons.
  apply in_map_iff in Hin as (p & <- & Hp).
  subst c. cbn [subject callback_data].
  destruct (get_active_challenges_stored _ _ _ _ p E Hp) as (k & Hk & Hact).
  destruct (reachable_ok int_of_str us clk) as [Hs _].
  destruct (Hs _ _ _ Hk) as (Hid & Hcreated & _).
  rewrite Hid. split; [done|]. split; [done|].
  by apply callback_session_add_reps.
Qed.

Lemma add_reps_buttons_round_trip_witness :
  let b := handle_updates (fun _ => Some 42) first_day
             (new_bot (ticking t_create 1000)) in
  let r := handle_add_reps "42" (world b) in
  exists buttons,
    r = (Ok (Some buttons), snd r)
    /\ buttons <> []
    /\ forall button ctx, In button buttons ->
         let c := subject button in
         lookup_challenge (user_data (world b)) "42" (ch_id c) = Some c
         /\ status c = ACTIVE
         /\ callback_session (callback_data button) ctx
            = Ok {| challenge_step := challenge_step ctx;
                    selected_exercise := selected_exercise ctx;
                    session_total_reps := session_total_reps ctx;
                    adding_reps := true;
                    selected_challenge := Some (ch_id c) |}.
Proof.
  intros b r.
  destruct (fst r) as [[buttons|]|e] eqn:E;
    [|vm_compute in E; discriminate|vm_compute in E; discriminate].
  exists buttons.
  assert (H : r = (Ok (Some buttons), snd r)) by (rewrite <- E; by destruct r).
  split; [exact H|]. split.
  { intros ->. vm_compute in E. discriminate. }
  exact (add_reps_buttons_round_trip (fun _ => Some 42) first_day
           (ticking t_create 1000) "42" buttons (snd r) H).
Defined.

(** ** The progress bar *)

Lemma int_of_float_percentage cur total :
  0 <= cur -> 0 < total ->
  int_of_float ((inject_Z cur / inject_Z total * 100) / 5)%Q = 20 * cur / total.
Proof.
  intros Hc Ht. destruct total as [|p|p]; try lia.
  unfold int_of_float, Qdiv, Qmult, Qinv, inject_Z. cbn [Qnum Qden].
  rewrite Z.quot_div_nonneg by lia.
  replace (cur * 1 * 100 * 1) with (20 * cur * 5) by lia.
  replace (Z.pos (1 * p * 1 * 5)) with (Z.pos p * 5) by lia.
  apply Z.div_mul_cancel_r; lia.
Qed.

Lemma snapshot_percentage c t1 t2 t3 p :
  snapshot c t1 t2 t3 = Ok (Some p) ->
  percentage p = (inject_Z (current_reps c) / inject_Z (total_reps c) * 100)%Q.
Proof.
  unfold snapshot. destruct (forecast c t1 t3); [|done].
  destruct (total_reps c =? 0); [done|]. by intros [= <-].
Qed.

(** X12.  On the bots that the updates reach from the start, the bar of
    every message of [handle_progress] has twenty cells, of which the first
    [20 * current_reps / total_reps] (rounded down) are filled and at least
    one is empty. *)
Theorem progress_bar_has_twenty_cells (int_of_str : string -> option Z)
    (us : list Update) (clk : nat -> Z) (user_id : string)
    (messages : list ProgressMessage) (w' : World) :
  let b := handle_updates int_of_str us (new_bot clk) in
  handle_progress user_id (world b) = (Ok (Some messages), w') ->
  forall m, In m messages ->
    let c := challenge (shown m) in
    exists filled : nat,
      Z.of_nat filled = 20 * current_reps c / total_reps c
      /\ (filled < 20)%nat
      /\ progress_bar m = repeat true filled ++ repeat false (20 - filled)
      /\ length (progress_bar m) = 20%nat.
Proof.
  intros b H m Hin c.
  unfold handle_progress, bind in H.
  destruct (get_active_challenges user_id (world b)) as [[l|e] w1] eqn:E; [|done].
  assert (Hm : messages = map progress_message l).
  { destruct l; [done|]. by injection H as <- _. }
  subst messages.
  apply in_map_iff in Hin as (p & <- & Hp).
  subst c. cbn [shown progress_message progress_bar].
  destruct (get_active_challenges_stored _ _ _ _ p E Hp) as (k & Hk & Hact).
  destruct (reachable_ok int_of_str us clk) as [Hs _].
  destruct (Hs _ _ _ Hk) as (_ & _ & Ht & _ & _ & Hcur & Hlife & _).
  destruct Hlife as [[_ Hlt]|[Hdone _]]; [|congruence].
  pose proof (get_active_challenges_snapshots _ _ _ _ E) as Hsnap.
  rewrite Forall_forall in Hsnap.
  destruct (Hsnap p ltac:(by apply list_elem_of_In)) as (t1 & t2 & t3 & Hp3).
  rewrite (snapshot_percentage _ _ _ _ _ Hp3).
  rewrite int_of_float_percentage by lia.
  set (q := 20 * current_reps (challenge p) / total_reps (challenge p)).
  assert (Hq : 0 <= q < 20).
  { subst q. split.
    - apply Z.div_pos; lia.
    - apply Z.div_lt_upper_bound; lia. }
  exists (Z.to_nat q). split; [lia|]. split; [lia|].
  replace (Z.to_nat (20 - q)) with (20 - Z.to_nat q)%nat by lia.
  split; [done|].
  rewrite length_app, !repeat_length. lia.
Qed.

Lemma progress_bar_has_twenty_cells_witness :
  let b := handle_updates (fun _ => Some 42) first_day
             (new_bot (ticking t_create 1000)) in
  let r := handle_progress "42" (world b) in
  exists messages,
    r = (Ok (Some messages), snd r)
    /\ messages <> []
    /\ forall m, In m messages ->
         let c := challenge (shown m) in
         exists filled : nat,
           Z.of_nat filled = 20 * current_reps c / total_reps c
           /\ (filled < 20)%nat
           /\ progress_bar m = repeat true filled ++ repeat false (20 - filled)
           /\ length (progress_bar m) = 20%nat.
Proof.
  intros b r.
  destruct (fst r) as [[messages|]|e] eqn:E;
    [|vm_compute in E; discriminate|vm_compute in E; discriminate].
  exists messages.
  assert (H : r = (Ok (Some messages), snd r)) by (rewrite <- E; by destruct r).
  split; [exact H|]. split.
  { intros ->. vm_compute in E. discriminate. }
  exact (progress_bar_has_twenty_cells (fun _ => Some 42) first_day
           (ticking t_create 1000) "42" messages (snd r) H).
Defined.

(** ** The two dialogues *)

Lemma session_of_insert b w user_id ctx :
  session_of {| world := w; sessions := <[user_id := ctx]> (sessions b) |} user_id = ctx.
Proof. unfold session_of. cbn [sessions]. by rewrite lookup_insert_eq. Qed.

Lemma callback_session_exercise e ctx :
  callback_session ("exercise_" +:+ exercise_name e) ctx
  = Ok {| challenge_step := Some StepTotalReps;
          selected_exercise := Some e;
          session_total_reps := session_total_reps ctx;
          adding_reps := adding_reps ctx;
          selected_challenge := selected_challenge ctx |}.
Proof. by destruct e. Qed.

Lemma handle_callback_query_exercise user_id e ctx w :
  snd (handle_callback_query user_id ("exercise_" +:+ exercise_name e) ctx w) = w.
Proof. by destruct e. Qed.

(** The days step of [handle_message] when the challenge can be created. *)
Lemma handle_message_days user_id e total d ctx w :
  challenge_step ctx = Some StepDays ->
  selected_exercise ctx = Some e ->
  session_total_reps ctx = Some total ->
  0 < d <= 365 ->
  creatable d (clock w 2%nat) = true ->
  handle_message user_id (Some d) ctx w
  = (if valid_datetimeb (clock w 4%nat + d * us_per_day)
     then Ok (ChallengeCreated
                (ch_id (fresh_challenge e total d
                          (clock w 0%nat) (clock w 1%nat) (clock w 2%nat))),
              cleared)
     else Raise OverflowError,
     after_reads 5
       (user_data (snd (create_challenge user_id e total d w))) w).
Proof.
  intros Hstep He Ht Hd Hc. unfold handle_message. rewrite Hstep, He, Ht.
  destruct (d <=? 0) eqn:E0; [apply Z.leb_le in E0; lia|].
  destruct (365 <? d) eqn:E1; [apply Z.ltb_lt in E1; lia|].
  cbn [key]. unfold bind at 1 2 3. cbn [ret].
  rewrite create_challenge_eq, Hc. cbv zeta. cbn [snd].
  unfold bind, now, lift, ret. cbn [after_reads clock user_data].
  unfold timedelta_of_days.
  assert (Hv : valid_timedeltab (d * us_per_day) = true).
  { unfold creatable in Hc. by apply andb_true_iff in Hc as [[? ?]%andb_true_iff _]. }
  rewrite Hv. unfold datetime_add. cbv zeta.
  change (3 + 1)%nat with 4%nat.
  by destruct (valid_datetimeb (clock w 4%nat + d * us_per_day)).
Qed.

(** X13.  The creation dialogue.  From any state of the bot, pressing the
    button of an exercise, then sending a total from 1 to 100,000, then a
    number of days from 1 to 365, stores for the user the challenge that
    [create_challenge] builds from the exercise, the total, the days and the
    next three readings of the clock, under its id, and leaves every other
    challenge as it was; the session is then empty, provided the target
    date computed for the confirmation is a date. *)
Theorem creation_dialogue (int_of_str : string -> option Z) (b : Bot)
    (user_id : string) (e : ExerciseType) (total d : Z) :
  0 < total <= 100000 -> 0 < d <= 365 ->
  creatable d (clock (world b) 2%nat) = true ->
  let w := world b in
  let b' := handle_updates int_of_str
              [CallbackQuery user_id ("exercise_" +:+ exercise_name e);
               TextMessage user_id (Some total);
               TextMessage user_id (Some d)] b in
  let c := fresh_challenge e total d (clock w 0%nat) (clock w 1%nat) (clock w 2%nat) in
  lookup_challenge (user_data (world b')) user_id (ch_id c) = Some c
  /\ (forall u k, ~ (u = user_id /\ k = ch_id c) ->
        lookup_challenge (user_data (world b')) u k
        = lookup_challenge (user_data w) u k)
  /\ (valid_datetimeb (clock w 4%nat + d * us_per_day) = true ->
      session_of b' user_id = cleared).
Proof.
  intros Ht Hd Hc w b' c. change (world b) with w in Hc.
  subst b'. cbn [handle_updates fold_left].
  (* the button *)
  set (b1 := snd (handle_update int_of_str
                    (CallbackQuery user_id ("exercise_" +:+ exercise_name e)) b)).
  assert (Hw1 : world b1 = w).
  { subst b1. cbn [handle_update snd world].
    apply handle_callback_query_exercise. }
  assert (Hs1 : challenge_step (session_of b1 user_id) = Some StepTotalReps
                /\ selected_exercise (session_of b1 user_id) = Some e).
  { subst b1. cbn [handle_update snd]. rewrite callback_session_exercise.
    by rewrite session_of_insert. }
  destruct Hs1 as [Hstep1 He1].
  (* the total *)
  set (b2 := snd (handle_update int_of_str (TextMessage user_id (Some total)) b1)).
  assert (Hm2 : handle_message user_id (Some total) (session_of b1 user_id) (world b1)
                = (Ok (AskDays total,
                       {| challenge_step := Some StepDays;
                          selected_exercise := selected_exercise (session_of b1 user_id);
                          session_total_reps := Some total;
                          adding_reps := adding_reps (session_of b1 user_id);
                          selected_challenge :=
                            selected_challenge (session_of b1 user_id) |}),
                   world b1)).
  { unfold handle_message. rewrite Hstep1.
    destruct (total <=? 0) eqn:E0; [apply Z.leb_le in E0; lia|].
    destruct (100000 <? total) eqn:E1; [apply Z.ltb_lt in E1; lia|].
    cbn [selected_exercise]. by rewrite He1. }
  assert (Hw2 : world b2 = w).
  { subst b2. cbn [handle_update snd world]. by rewrite Hm2. }
  assert (Hs2 : challenge_step (session_of b2 user_id) = Some StepDays
                /\ selected_exercise (session_of b2 user_id) = Some e
                /\ session_total_reps (session_of b2 user_id) = Some total).
  { subst b2. cbn [handle_update snd]. rewrite Hm2. cbn [fst].
    by rewrite session_of_insert. }
  destruct Hs2 as (Hstep2 & He2 & Ht2).
  (* the days *)
  cbn [handle_update snd].
  rewrite Hw2 in *.
  rewrite (handle_message_days user_id e total d _ w Hstep2 He2 Ht2 Hd Hc).
  cbn [fst snd world after_reads user_data].
  pose proof (lookup_after_create w user_id e total d) as Hl. cbv zeta in Hl.
  split; [|split].
  - rewrite Hl, Hc. cbn [andb]. by rewrite bool_decide_eq_true_2.
  - intros u k Hne. rewrite Hl, Hc. cbn [andb].
    by rewrite bool_decide_eq_false_2.
  - intros Hv. rewrite Hv. by rewrite session_of_insert.
Qed.

Lemma creation_dialogue_witness :
  let b := new_bot (ticking t_create 1000) in
  let total := 100 in
  let d := 30 in
  (0 < total <= 100000) /\ (0 < d <= 365)
  /\ creatable d (clock (world b) 2%nat) = true
  /\ let w := world b in
     let b' := handle_updates (fun _ => Some 42)
                 [CallbackQuery "42" ("exercise_" +:+ exercise_name SQUATS);
                  TextMessage "42" (Some total);
                  TextMessage "42" (Some d)] b in
     let c := fresh_challenge SQUATS total d
                (clock w 0%nat) (clock w 1%nat) (clock w 2%nat) in
     lookup_challenge (user_data (world b')) "42" (ch_id c) = Some c
     /\ (forall u k, ~ (u = "42" /\ k = ch_id c) ->
           lookup_challenge (user_data (world b')) u k
           = lookup_challenge (user_data w) u k)
     /\ (valid_datetimeb (clock w 4%nat + d * us_per_day) = true ->
         session_of b' "42" = cleared).
Proof.
  intros b total d.
  assert (H1 : 0 < total <= 100000) by (subst total; lia).
  assert (H2 : 0 < d <= 365) by (subst d; lia).
  assert (H3 : creatable d (clock (world b) 2%nat) = true)
    by (vm_compute; reflexivity).
  split; [exact H1|]. split; [exact H2|]. split; [exact H3|].
  exact (creation_dialogue (fun _ => Some 42) b "42" SQUATS total d H1 H2 H3).
Defined.

(** The adding step of [handle_message] on a challenge of the store. *)
Lemma handle_message_adding user_id k c reps ctx w :
  challenge_step ctx = None ->
  adding_reps ctx = true ->
  selected_challenge ctx = Some k ->
  0 < reps <= 10000 ->
  lookup_challenge (user_data w) user_id k = Some c ->
  handle_message user_id (Some reps) ctx w
  = match get_challenge_progress user_id k (snd (add_reps user_id k reps w)) with
    | (Ok (Some p), w') => (Ok (RepsAdded p, cleared), w')
    | (Ok None, w') => (Ok (NoReply, cleared), w')
    | (Raise e, w') => (Raise e, w')
    end.
Proof.
  intros Hstep Hadd Hsel Hr Hc. unfold handle_message. rewrite Hstep, Hadd, Hsel.
  destruct (reps <=? 0) eqn:E0; [apply Z.leb_le in E0; lia|].
  destruct (10000 <? reps) eqn:E1; [apply Z.ltb_lt in E1; lia|].
  cbn [key]. unfold bind at 1 2. cbn [ret].
  destruct (add_reps_existing w user_id k reps c Hc) as [Hok _].
  destruct (add_reps user_id k reps w) as [r w1]. cbn [fst snd] in *. subst r.
  unfold bind.
  by destruct (get_challenge_progress user_id k w1) as [[[p|]|ex] w2].
Qed.

Lemma handle_callback_query_add_reps user_id k c ctx w :
  created_id k ->
  lookup_challenge (user_data w) user_id k = Some c ->
  snd (handle_callback_query user_id ("add_reps_" +:+ k) ctx w)
  = after_reads (progress_reads c (clock w 0%nat)) (user_data w) w.
Proof.
  intros Hk Hc. unfold handle_callback_query.
  rewrite (callback_session_add_reps k ctx Hk).
  unfold bind at 1, lift. unfold callback_reply.
  change (String.prefix "exercise_" ("add_reps_" +:+ k)) with false.
  rewrite prefix_app, (remove_all_created_id k Hk).
  destruct (lookup_challenge_inv _ _ _ _ Hc) as (pr & Hu & Hp).
  unfold bind. rewrite (get_challenge_progress_found _ _ _ _ _ Hu Hp).
  by destruct (snapshot c _ _ _) as [[p|]|ex].
Qed.

(** X14.  The adding dialogue, on the bots that the updates reach from the
    start.  When no creation is pending for the user, pressing the button of
    one of the user's challenges and then sending an amount from 1 to 10,000
    logs the amount on that challenge, at the readings of the clock that
    follow those of the button, and changes no other challenge.  When the
    reply can be computed the session is then empty; when computing it
    raises, the amount stays logged and the session stays in the adding
    step on the same challenge. *)
Theorem adding_dialogue (int_of_str : string -> option Z) (us : list Update)
    (clk : nat -> Z) (user_id k : string) (c : Challenge) (reps : Z) :
  let b := handle_updates int_of_str us (new_bot clk) in
  let w := world b in
  lookup_challenge (user_data w) user_id k = Some c ->
  challenge_step (session_of b user_id) = None ->
  0 < reps <= 10000 ->
  let b1 := snd (handle_update int_of_str
                   (CallbackQuery user_id ("add_reps_" +:+ k)) b) in
  let r := handle_update int_of_str (TextMessage user_id (Some reps)) b1 in
  let n := progress_reads c (clock w 0%nat) in
  lookup_challenge (user_data (world (snd r))) user_id k
  = Some (added reps (clock w n) (clock w (S n)) c)
  /\ (forall u k', ~ (u = user_id /\ k' = k) ->
        lookup_challenge (user_data (world (snd r))) u k'
        = lookup_challenge (user_data w) u k')
  /\ (fst r = None -> session_of (snd r) user_id = cleared)
  /\ (fst r <> None ->
      challenge_step (session_of (snd r) user_id) = None
      /\ adding_reps (session_of (snd r) user_id) = true
      /\ selected_challenge (session_of (snd r) user_id) = Some k).
Proof.
  intros b w Hc Hstep Hr b1 r n.
  destruct (reachable_ok int_of_str us clk) as [Hs _]. fold b in Hs.
  destruct (Hs _ _ _ Hc) as (_ & Hk & _).
  assert (Hw1 : world b1 = after_reads n (user_data w) w).
  { subst b1. cbn [handle_update snd world].
    by apply handle_callback_query_add_reps. }
  assert (Hs1 : challenge_step (session_of b1 user_id) = None
                /\ adding_reps (session_of b1 user_id) = true
                /\ selected_challenge (session_of b1 user_id) = Some k).
  { subst b1. cbn [handle_update snd].
    rewrite (callback_session_add_reps k _ Hk). by rewrite session_of_insert. }
  destruct Hs1 as (Hstep1 & Hadd1 & Hsel1).
  assert (Hc1 : lookup_challenge (user_data (world b1)) user_id k = Some c)
    by (by rewrite Hw1).
  pose proof (handle_message_adding user_id k c reps _ _ Hstep1 Hadd1 Hsel1 Hr Hc1)
    as Hm.
  pose proof (get_challenge_progress_store
                (snd (add_reps user_id k reps (world b1))) user_id k) as Hstore.
  assert (Hl : forall u k',
             lookup_challenge
               (user_data (snd (handle_message user_id (Some reps)
                                  (session_of b1 user_id) (world b1)))) u k'
             = if decide (u = user_id /\ k' = k)
               then Some (added reps (clock w n) (clock w (S n)) c)
               else lookup_challenge (user_data w) u k').
  { intros u k'. rewrite Hm.
    transitivity (lookup_challenge
                    (user_data (snd (get_challenge_progress user_id k
                                       (snd (add_reps user_id k reps (world b1))))))
                    u k').
    { by destruct (get_challenge_progress user_id k _) as [[[p|]|ex] w2]. }
    rewrite Hstore, lookup_challenge_touched, lookup_after_add_reps, Hc1.
    rewrite Hw1. cbn [after_reads clock user_data].
    by rewrite Nat.add_0_r, Nat.add_1_r. }
  subst r. cbn [handle_update fst snd world].
  split; [|split; [|split]].
  - rewrite Hl. by rewrite decide_True.
  - intros u k' Hne. rewrite Hl. by rewrite decide_False.
  - rewrite session_of_insert. rewrite Hm.
    by destruct (get_challenge_progress user_id k _) as [[[p|]|ex] w2].
  - rewrite session_of_insert. rewrite Hm.
    destruct (get_challenge_progress user_id k _) as [[[p|]|ex] w2];
      cbn [fst raised]; try done.
    intros _. unfold session_on_raise. by rewrite Hstep1.
Qed.

Lemma adding_dialogue_witness :
  let us := [CallbackQuery "42" "exercise_PUSHUPS";
             TextMessage "42" (Some 100000);
             TextMessage "42" (Some 365)] in
  let clk := ticking t_create 1000 in
  let b := handle_updates (fun _ => Some 42) us (new_bot clk) in
  let w := world b in
  let k := "PUSHUPS_20261103_100000" in
  let c := fresh_challenge PUSHUPS 100000 365 t_create (t_create + 1000)
             (t_create + 2000) in
  let reps := 1 in
  lookup_challenge (user_data w) "42" k = Some c
  /\ challenge_step (session_of b "42") = None
  /\ (0 < reps <= 10000)
  /\ let b1 := snd (handle_update (fun _ => Some 42)
                      (CallbackQuery "42" ("add_reps_" +:+ k)) b) in
     let r := handle_update (fun _ => Some 42) (TextMessage "42" (Some reps)) b1 in
     let n := progress_reads c (clock w 0%nat) in
     lookup_challenge (user_data (world (snd r))) "42" k
     = Some (added reps (clock w n) (clock w (S n)) c)
     /\ (forall u k', ~ (u = "42" /\ k' = k) ->
           lookup_challenge (user_data (world (snd r))) u k'
           = lookup_challenge (user_data w) u k')
     /\ (fst r = None -> session_of (snd r) "42" = cleared)
     /\ (fst r <> None ->
         challenge_step (session_of (snd r) "42") = None
         /\ adding_reps (session_of (snd r) "42") = true
         /\ selected_challenge (session_of (snd r) "42") = Some k).
Proof.
  intros us clk b w k c reps.
  assert (H1 : lookup_challenge (user_data w) "42" k = Some c)
    by (vm_compute; reflexivity).
  assert (H2 : challenge_step (session_of b "42") = None)
    by (vm_compute; reflexivity).
  assert (H3 : 0 < reps <= 10000) by (subst reps; lia).
  split; [exact H1|]. split; [exact H2|]. split; [exact H3|].
  exact (adding_dialogue (fun _ => Some 42) us clk "42" k c reps H1 H2 H3).
Defined.

(** ** Who gets a reminder *)

Lemma lines_at_length active : forall clk, length (lines_at clk active) = length active.
Proof. induction active as [|p active IH]; intros clk; simpl; [done|]. by rewrite IH. Qed.

Section RemindersSent.

Variable int_of_str : string -> option Z.

Lemma remind_user_result w user_id p m w1 :
  user_data w !! user_id = Some p ->
  remind_user int_of_str user_id p w = (Ok m, w1) ->
  match m with
  | Some message => reminded int_of_str (user_id, p) = true /\ message_for int_of_str message (user_id, p)
  | None => reminded int_of_str (user_id, p) = false
  end.
Proof.
  intros Hp H. unfold remind_user in H. unfold reminded, message_for. cbn [fst snd].
  destruct (default true (reminders_enabled p)); cbn [negb andb] in *;
    [|by injection H as <- _].
  unfold bind in H.
  destruct (get_active_challenges user_id w) as [[l|e] w2] eqn:E; [|done].
  pose proof (get_active_challenges_challenges w user_id p l w2 Hp E) as Hmap.
  change (map challenge l = active_of p) in Hmap.
  destruct l as [|a l].
  - injection H as <- _. by rewrite <- Hmap.
  - rewrite <- Hmap. cbn [map].
    destruct (int_of_str user_id) as [n|]; [|by injection H as <- _].
    rewrite reminder_loop_eq in H. injection H as <- _.
    cbn [fst snd app]. split; [done|]. split; [done|].
    cbn [length]. by rewrite lines_at_length, length_map.
Qed.

Lemma remind_users_result users : forall acc w sent w',
  Forall (fun up => user_data w !! up.1 = Some up.2) users ->
  remind_users int_of_str users acc w = (Ok sent, w') ->
  exists new,
    sent = acc ++ new
    /\ Forall2 (message_for int_of_str) new (List.filter (reminded int_of_str) users).
Proof.
  induction users as [|[u p] users IH]; intros acc w sent w' Hall H.
  - injection H as <- _. exists []. by rewrite app_nil_r.
  - inversion Hall as [|? ? Hu Hrest]; subst. cbn [fst snd] in Hu.
    cbn [remind_users] in H. unfold bind in H.
    pose proof (remind_user_store int_of_str w u p ltac:(eauto)) as Hst.
    destruct (remind_user int_of_str u p w) as [[m|e] w1] eqn:E; [|done].
    cbn [snd] in Hst.
    pose proof (remind_user_result w u p m w1 Hu E) as Hm.
    assert (Hall1 : Forall (fun up => user_data w1 !! up.1 = Some up.2) users)
      by (by rewrite Hst).
    cbn [List.filter]. destruct m as [message|].
    + destruct Hm as [-> Hfor].
      destruct (IH _ _ _ _ Hall1 H) as (new & -> & Hnew).
      exists (message :: new). rewrite <- app_assoc. split; [done|].
      by constructor.
    + rewrite Hm. by apply (IH acc w1 sent w').
Qed.

End RemindersSent.

(** X15.  When [send_daily_reminders] returns, it has changed no data and
    has sent exactly one message to each user whose reminders are not
    switched off, who has an Active challenge and whose id is a number, and
    none to anyone else: the messages sent match, one for one, these users
    taken in some order.  Each message goes to the number that the id
    denotes and has one line per Active challenge of the user. *)
Theorem reminders_sent (int_of_str : string -> option Z) (w w' : World)
    (sent : list (Z * list ReminderLine)) :
  send_daily_reminders int_of_str w = (Ok sent, w') ->
  user_data w' = user_data w
  /\ exists users,
       Permutation users
         (List.filter (reminded int_of_str) (map_to_list (user_data w)))
       /\ Forall2 (message_for int_of_str) sent users.
Proof.
  intros H. split.
  - pose proof (send_daily_reminders_store int_of_str w) as Hs.
    by rewrite H in Hs.
  - exists (List.filter (reminded int_of_str) (map_to_list (user_data w))).
    split; [done|].
    unfold send_daily_reminders, bind, get_store in H.
    destruct (remind_users_result int_of_str (map_to_list (user_data w)) [] w
                sent w') as (new & -> & Hnew); [|exact H|exact Hnew].
    apply Forall_forall. intros [u p] Hin.
    by apply elem_of_map_to_list in Hin.
Qed.

(** Three users: one with a challenge, one whose id is not a number, one
    whose only challenge is completed. *)
Lemma reminders_sent_witness :
  let int_of_str := fun s : string => if String.eqb s "42" then Some 42
                                      else if String.eqb s "7" then Some 7 else None in
  let w := run_ops [CreateChallenge "42" PUSHUPS 600 30;
                    CreateChallenge "bob" SQUATS 50 10;
                    CreateChallenge "7" SITUPS 20 5;
                    AddReps "7" "SITUPS_20261103_100000" 20]
             (empty_world (frozen t_create)) in
  let r := send_daily_reminders int_of_str w in
  exists sent,
    r = (Ok sent, snd r)
    /\ map fst sent = [42]
    /\ user_data (snd r) = user_data w
    /\ exists users,
         Permutation users
           (List.filter (reminded int_of_str) (map_to_list (user_data w)))
         /\ Forall2 (message_for int_of_str) sent users.
Proof.
  intros int_of_str w r.
  destruct (fst r) as [sent|e] eqn:E; [|vm_compute in E; discriminate].
  exists sent.
  assert (H : r = (Ok sent, snd r)) by (rewrite <- E; by destruct r).
  split; [exact H|]. split.
  { vm_compute in E. by injection E as <-. }
  exact (reminders_sent int_of_str w (snd r) sent H).
Defined.
